(** * Web Pilot: the command loop of [src/pilot.js]

    A shallow embedding of the file-driven command loop of the [WebPilot]
    class ([start], [pollCommands], [executeCommand] and the helpers they
    call) together with the properties of its dispatch grammar and of its
    two-state session machine.

    Strings.  A JavaScript string is a sequence of UTF-16 code units.  The
    embedding works on strings whose code units are below 256 (the Latin-1
    range, which contains every character of the command grammar); on that
    range [String.prototype.toLowerCase], [trim] and [parseInt] act code
    unit by code unit and are modelled exactly.  Such a string is a Rocq
    [string], the [ascii] with number [n] standing for the code unit [n].

    Effects.  The browser (Playwright), the file system, the console, the
    clock and the process are the collaborators of the loop.  Every call
    to one of them is an [Action] (a call that may throw) or an [Effect]
    (a call that cannot), answered by an arbitrary environment and
    recorded, with its answer, in a log. *)

From Stdlib Require Import Bool Arith ZArith Lia List.
From Stdlib Require Import Ascii String DecimalString.
From Stdlib Require DecimalZ.
Import ListNotations.

Local Open Scope bool_scope.
Local Open Scope nat_scope.
Local Open Scope string_scope.

(* ================================================================== *)
(** ** JavaScript string primitives used by the loop *)
(* ================================================================== *)

Module JS.

(** [c.toLowerCase()] for one code unit below 256: the letters [A]..[Z]
    and the Latin-1 capitals U+00C0..U+00DE (U+00D7, the multiplication
    sign, apart) move 32 places up; every other code unit is kept. *)
Definition lower_char (c : ascii) : ascii :=
  let n := nat_of_ascii c in
  if ((65 <=? n)%nat && (n <=? 90)%nat)
     || ((192 <=? n)%nat && (n <=? 222)%nat && negb (n =? 215)%nat)
  then ascii_of_nat (n + 32)
  else c.

(** [s.toLowerCase()] *)
Fixpoint toLowerCase (s : string) : string :=
  match s with
  | EmptyString => EmptyString
  | String c r => String (lower_char c) (toLowerCase r)
  end.

(** The white space and line terminators that [trim] and [parseInt]
    strip, below 256: TAB, LF, VT, FF, CR, SPACE and NBSP. *)
Definition is_space (c : ascii) : bool :=
  let n := nat_of_ascii c in
  ((9 <=? n)%nat && (n <=? 13)%nat) || (n =? 32)%nat || (n =? 160)%nat.

(** [s.trimStart()] *)
Fixpoint trimStart (s : string) : string :=
  match s with
  | EmptyString => EmptyString
  | String c r => if is_space c then trimStart r else s
  end.

(** [s.trimEnd()] *)
Fixpoint trimEnd (s : string) : string :=
  match s with
  | EmptyString => EmptyString
  | String c r =>
      match trimEnd r with
      | EmptyString => if is_space c then EmptyString else String c EmptyString
      | r' => String c r'
      end
  end.

(** [s.trim()] *)
Definition trim (s : string) : string := trimEnd (trimStart s).

(** [s.startsWith(p)] *)
Fixpoint startsWith (p s : string) : bool :=
  match p with
  | EmptyString => true
  | String a p' =>
      match s with
      | EmptyString => false
      | String b s' => Ascii.eqb a b && startsWith p' s'
      end
  end.

(** [s.substring(n)]: the string from index [n] to the end. *)
Fixpoint substring (n : nat) (s : string) : string :=
  match n with
  | O => s
  | S n' => match s with
            | EmptyString => EmptyString
            | String _ r => substring n' r
            end
  end.

(** [s.includes(p)] *)
Fixpoint includes (p s : string) : bool :=
  startsWith p s ||
  match s with
  | EmptyString => false
  | String _ r => includes p r
  end.

(** [s.split(sep)] for a separator of one code unit.  The result is never
    empty: the empty string splits into one empty piece. *)
Fixpoint split (sep : ascii) (s : string) : list string :=
  match s with
  | EmptyString => [EmptyString]
  | String c r =>
      if Ascii.eqb c sep then EmptyString :: split sep r
      else match split sep r with
           | [] => [String c EmptyString]
           | h :: t => String c h :: t
           end
  end.

(** [l.join(sep)] *)
Fixpoint join (sep : string) (l : list string) : string :=
  match l with
  | [] => EmptyString
  | [x] => x
  | x :: (_ :: _) as r => x ++ sep ++ join sep r
  end.

(** The value of a digit in radix [radix], if it is one. *)
Definition digit_value (radix : Z) (c : ascii) : option Z :=
  let n := Z.of_nat (nat_of_ascii c) in
  let v :=
    if ((48 <=? n) && (n <=? 57))%Z then Some (n - 48)%Z
    else if ((97 <=? n) && (n <=? 122))%Z then Some (n - 87)%Z
    else if ((65 <=? n) && (n <=? 90))%Z then Some (n - 55)%Z
    else None in
  match v with
  | Some d => if (d <? radix)%Z then Some d else None
  | None => None
  end.

(** The longest prefix of digits of [s], read in radix [radix], with the
    accumulator [acc]; [seen] tells whether a digit was read. *)
Fixpoint parse_digits (radix : Z) (s : string) (seen : bool) (acc : Z)
  : option Z :=
  match s with
  | EmptyString => if seen then Some acc else None
  | String c r =>
      match digit_value radix c with
      | Some d => parse_digits radix r true (acc * radix + d)%Z
      | None => if seen then Some acc else None
      end
  end.

(** [parseInt(s)] without a radix: leading white space is skipped, one sign
    is read, a [0x] or [0X] prefix selects radix 16, and the longest prefix
    of digits is the value; [None] is [NaN].  The value is the exact
    integer (a JavaScript number is exact up to 2^53). *)
Definition parseInt (s : string) : option Z :=
  let s1 := trimStart s in
  let '(neg, s2) :=
    match s1 with
    | String "-" r => (true, r)
    | String "+" r => (false, r)
    | _ => (false, s1)
    end in
  let '(radix, s3) :=
    match s2 with
    | String "0" (String "x" r) => (16%Z, r)
    | String "0" (String "X" r) => (16%Z, r)
    | _ => (10%Z, s2)
    end in
  match parse_digits radix s3 false 0%Z with
  | Some n => Some (if neg then (- n)%Z else n)
  | None => None
  end.

(** [`${n}`] for an integral number [n] (below 10^21 in size, where
    JavaScript prints every digit). *)
Definition numberToString (n : Z) : string :=
  NilZero.string_of_int (Z.to_int n).

(** [x || d] for a number [x]: [NaN] and [0] are falsy. *)
Definition number_or (x : option Z) (d : Z) : Z :=
  match x with
  | Some n => if (n =? 0)%Z then d else n
  | None => d
  end.

(** Truthiness of a string: the empty string is falsy. *)
Definition truthy (s : string) : bool :=
  match s with EmptyString => false | _ => true end.

End JS.

(* ================================================================== *)
(** ** The collaborators: browser, file system, console, clock, process *)
(* ================================================================== *)

(** The answer to a call that may throw: a value, or the [message] of the
    thrown [Error]. *)
Inductive Res (A : Type) : Type :=
| Ok (a : A)
| Err (message : string).
Arguments Ok {A} a.
Arguments Err {A} message.

(** The lines the loop prints.  Their texts carry pictographs and play no
    part in the protocol, so a line is named rather than spelled:
    [LCommand c] is the line [Command: c] printed before a dispatch,
    [LDone] the line [Done] printed after the result is written,
    [LGoodbye] the line [Browser closed. Goodbye!] of [quit]. *)
Inductive Line : Type :=
| LStarting
| LUsingProfile (profile : string)
| LNavigating (url : string)
| LLaunched
| LCommand (command : string)
| LDone
| LGoodbye
| LProfileLocked
| LBrowserRunning.

(** Calls that may throw (or, awaited, reject), indexed by the type of
    their value. *)
Inductive Action : Type -> Type :=
(* playwright: launch *)
| ChromiumLaunchPersistentContext (profile : string) (headless : bool)
    (channel : option string) : Action unit
| ChromiumLaunch (headless : bool) (channel : option string) : Action unit
| BrowserNewContext : Action unit
| ContextNewPage : Action unit
(* playwright: the page *)
| PageScreenshot (path : string) : Action unit
| PageEvaluateInnerText : Action string
| PageContent : Action string
| PageTitle : Action string
| PageEvaluateTables : Action string
| PageEvaluateLinks : Action (list (string * string))
| PageGoBack : Action unit
| PageGoForward : Action unit
| PageReload : Action unit
| PageGoto (url : string) (timeout : option Z) : Action unit
| PageClick (selector : string) (timeout : Z) : Action unit
| PageWaitForLoadState : Action unit
| PageFill (selector text : string) : Action unit
| PageEvaluateScrollBy (x y : Z) : Action unit
| PageEvaluateScrollToTop : Action unit
| PageEvaluateScrollToBottom : Action unit
(* playwright: release *)
| BrowserClose : Action unit
| ContextClose : Action unit
(* fs, child_process *)
| FsReadFileSync (path : string) : Action string
| FsWriteFileSync (path content : string) : Action unit
| FsUnlinkSync (path : string) : Action unit
| ExecSync (command : string) : Action string.

(** Calls that cannot throw. *)
Inductive Effect : Type -> Type :=
| Sleep (ms : Z) : Effect unit
| ConsoleLog (line : Line) : Effect unit
| ConsoleError (line : Line) : Effect unit
| DateNow : Effect Z
| PageUrl : Effect string
| ContextPagesLength : Effect nat
| FsExistsSync (path : string) : Effect bool.

(** The collaborators as an interface: a state of the outside world, how
    it answers each call, and [path.join]. *)
Class Collaborators : Type := {
  World : Type;
  perform : forall A : Type, Action A -> World -> Res A * World;
  react : forall A : Type, Effect A -> World -> A * World;
  path_join : string -> string -> string
}.
Arguments perform {_} [A] _ _.
Arguments react {_} [A] _ _.

(** One entry of the log: a call with its answer, or the end of the
    process. *)
Inductive Event : Type :=
| EvAct (A : Type) (a : Action A) (r : Res A)
| EvEff (A : Type) (e : Effect A) (v : A)
| EvExit (code : Z).
Arguments EvAct [A] a r.
Arguments EvEff [A] e v.

(* ================================================================== *)
(** ** The [WebPilot] object *)
(* ================================================================== *)

(** [this.config], as [initialize] leaves it ([viewport] apart, which only
    the launch options read). *)
Record Config : Type := {
  commandFile : string;
  resultFile : string;
  workDir : string;
  headless : bool;
  browserName : string;
  pollInterval : Z;
  timeout : Z;
  profile : option string
}.

(** [DEFAULT_CONFIG], for a working directory. *)
Definition DEFAULT_CONFIG (cwd : string) : Config := {|
  commandFile := "command.txt";
  resultFile := "result.txt";
  workDir := cwd;
  headless := false;
  browserName := "chrome";
  pollInterval := 1000;
  timeout := 30000;
  profile := None
|}.

(** The fields of [this].  [browser], [context] and [page] tell whether
    the field holds an object ([true]) or [null]. *)
Record Pilot : Type := {
  browser : bool;
  context : bool;
  page : bool;
  running : bool;
  lastCommand : string;
  config : Config;
  commandPath : string;
  resultPath : string
}.

Definition set_browser (b : bool) (p : Pilot) : Pilot :=
  {| browser := b; context := context p; page := page p;
     running := running p; lastCommand := lastCommand p;
     config := config p; commandPath := commandPath p;
     resultPath := resultPath p |}.
Definition set_context (b : bool) (p : Pilot) : Pilot :=
  {| browser := browser p; context := b; page := page p;
     running := running p; lastCommand := lastCommand p;
     config := config p; commandPath := commandPath p;
     resultPath := resultPath p |}.
Definition set_page (b : bool) (p : Pilot) : Pilot :=
  {| browser := browser p; context := context p; page := b;
     running := running p; lastCommand := lastCommand p;
     config := config p; commandPath := commandPath p;
     resultPath := resultPath p |}.
Definition set_running (b : bool) (p : Pilot) : Pilot :=
  {| browser := browser p; context := context p; page := page p;
     running := b; lastCommand := lastCommand p;
     config := config p; commandPath := commandPath p;
     resultPath := resultPath p |}.
Definition set_lastCommand (c : string) (p : Pilot) : Pilot :=
  {| browser := browser p; context := context p; page := page p;
     running := running p; lastCommand := c;
     config := config p; commandPath := commandPath p;
     resultPath := resultPath p |}.

(** How a computation ends: with a value, with a thrown error (its
    message), or with the process gone. *)
Inductive Outcome (A : Type) : Type :=
| Ret (a : A)
| Throw (message : string)
| Exit (code : Z).
Arguments Ret {A} a.
Arguments Throw {A} message.
Arguments Exit {A} code.

Section Model.
Context {C : Collaborators}.

(** The whole state: the object, the outside world, and the log, newest
    entry first. *)
Record State : Type := {
  this : Pilot;
  world : World;
  log : list Event
}.

(** Computations over the state. *)
Definition M (A : Type) : Type := State -> Outcome A * State.

Definition ret {A} (a : A) : M A := fun s => (Ret a, s).

Definition bind {A B} (m : M A) (k : A -> M B) : M B :=
  fun s =>
    match m s with
    | (Ret a, s') => k a s'
    | (Throw msg, s') => (Throw msg, s')
    | (Exit code, s') => (Exit code, s')
    end.

Definition throw {A} (msg : string) : M A := fun s => (Throw msg, s).

(** [try { m } catch (err) { h err.message }] *)
Definition try_catch {A} (m : M A) (h : string -> M A) : M A :=
  fun s =>
    match m s with
    | (Throw msg, s') => h msg s'
    | r => r
    end.

Definition get {A} (f : Pilot -> A) : M A := fun s => (Ret (f (this s)), s).

Definition modify (f : Pilot -> Pilot) : M unit :=
  fun s => (Ret tt, {| this := f (this s); world := world s; log := log s |}).

(** A call that may throw: the world answers, the log records. *)
Definition act {A} (a : Action A) : M A :=
  fun s =>
    let '(r, w) := perform a (world s) in
    let s' := {| this := this s; world := w; log := EvAct a r :: log s |} in
    match r with
    | Ok v => (Ret v, s')
    | Err msg => (Throw msg, s')
    end.

(** A call that cannot throw. *)
Definition eff {A} (e : Effect A) : M A :=
  fun s =>
    let '(v, w) := react e (world s) in
    (Ret v, {| this := this s; world := w; log := EvEff e v :: log s |}).

(** [process.exit(code)] *)
Definition process_exit {A} (code : Z) : M A :=
  fun s => (Exit code,
            {| this := this s; world := world s;
               log := EvExit code :: log s |}).

End Model.

Declare Scope pilot_scope.
Delimit Scope pilot_scope with pilot.
Notation "x <- m ;; k" := (bind m (fun x => k))
  (at level 61, m at next level, right associativity) : pilot_scope.
Notation "m ;; k" := (bind m (fun _ => k))
  (at level 61, right associativity) : pilot_scope.

Local Open Scope pilot_scope.

(* ================================================================== *)
(** ** The methods of [WebPilot] *)
(* ================================================================== *)

(** The double quote, as a string. *)
Definition dquote : string := String (ascii_of_nat 34) EmptyString.

(** The line feed, as a string. *)
Definition newline : string := String (ascii_of_nat 10) EmptyString.

(** The message of the [TypeError] of a property read on [null]. *)
Definition null_read (prop : string) : string :=
  "Cannot read properties of null (reading '" ++ prop ++ "')".

(** The message of the [TypeError] of a property read on [undefined]. *)
Definition undefined_read (prop : string) : string :=
  "Cannot read properties of undefined (reading '" ++ prop ++ "')".

(** A nullable string that is truthy: neither [null] nor empty. *)
Definition truthy_opt (o : option string) : option string :=
  match o with
  | Some s => if JS.truthy s then Some s else None
  | None => None
  end.

(** The tags matched against the lowercased command. *)
Definition exact_tags : list string :=
  ["screenshot"; "text"; "html"; "url"; "title"; "tables"; "links";
   "back"; "forward"; "refresh"; "quit"].

(** The tags matched, with their colon, against the start of the command
    as written. *)
Definition prefixed_tags : list string :=
  ["goto"; "click"; "type"; "wait"; "scroll"].

(** The directions [scroll] knows. *)
Definition scroll_directions : list string := ["up"; "down"; "top"; "bottom"].

Section Methods.
Context {C : Collaborators}.

(** [this.page.<prop>(...)]: a [TypeError] when [this.page] is [null]. *)
Definition on_page {A} (prop : string) (m : M A) : M A :=
  p <- get page ;;
  if p then m else throw (null_read prop).

(** [sleep(ms)] *)
Definition sleep (ms : Z) : M unit := eff (Sleep ms).

(** [writeResult(content)] *)
Definition writeResult (content : string) : M unit :=
  path <- get resultPath ;;
  act (FsWriteFileSync path content).

(** [clearFile(filepath)] *)
Definition clearFile (filepath : string) : M unit :=
  try_catch (act (FsUnlinkSync filepath)) (fun _ => ret tt).

(** [takeScreenshot()] *)
Definition takeScreenshot : M string :=
  timestamp <- eff DateNow ;;
  let filename := "screenshot-" ++ JS.numberToString timestamp ++ ".png" in
  cfg <- get config ;;
  let filepath := path_join (workDir cfg) filename in
  on_page "screenshot" (act (PageScreenshot filepath)) ;;
  ret ("Screenshot saved: " ++ filepath).

(** [extractText()] *)
Definition extractText : M string :=
  text <- on_page "evaluate" (act PageEvaluateInnerText) ;;
  cfg <- get config ;;
  let filepath := path_join (workDir cfg) "page-text.txt" in
  act (FsWriteFileSync filepath text) ;;
  ret text.

(** [saveHtml()] *)
Definition saveHtml : M string :=
  html <- on_page "content" (act PageContent) ;;
  cfg <- get config ;;
  let filepath := path_join (workDir cfg) "page.html" in
  act (FsWriteFileSync filepath html) ;;
  ret ("HTML saved: " ++ filepath).

(** [extractTables()] *)
Definition extractTables : M string :=
  tables <- on_page "evaluate" (act PageEvaluateTables) ;;
  cfg <- get config ;;
  let filepath := path_join (workDir cfg) "tables.txt" in
  act (FsWriteFileSync filepath tables) ;;
  ret (if JS.truthy tables then tables else "No tables found on page").

(** [extractLinks()] *)
Definition extractLinks : M string :=
  links <- on_page "evaluate" (act PageEvaluateLinks) ;;
  let formatted :=
    JS.join newline (map (fun l => fst l ++ ": " ++ snd l) links) in
  ret ("Found " ++ JS.numberToString (Z.of_nat (List.length links))
       ++ " links:" ++ newline ++ formatted).

(** [clickElement(selector)] *)
Definition clickElement (selector : string) : M string :=
  try_catch
    (on_page "click" (act (PageClick selector 5000)))
    (fun _ => on_page "click" (act (PageClick ("text=" ++ selector) 5000))) ;;
  on_page "waitForLoadState" (act PageWaitForLoadState) ;;
  ret ("Clicked: " ++ selector).

(** [scroll(direction)] *)
Definition scroll (direction : string) : M string :=
  if direction =? "up" then
    on_page "evaluate" (act (PageEvaluateScrollBy 0 (-500))) ;;
    ret "Scrolled up"
  else if direction =? "down" then
    on_page "evaluate" (act (PageEvaluateScrollBy 0 500)) ;;
    ret "Scrolled down"
  else if direction =? "top" then
    on_page "evaluate" (act PageEvaluateScrollToTop) ;;
    ret "Scrolled to top"
  else if direction =? "bottom" then
    on_page "evaluate" (act PageEvaluateScrollToBottom) ;;
    ret "Scrolled to bottom"
  else
    ret ("Unknown scroll direction: " ++ direction).

(** The [quit] branch of [executeCommand]. *)
Definition quit : M string :=
  modify (set_running false) ;;
  b <- get browser ;;
  c <- get context ;;
  (if b then act BrowserClose
   else if c then act ContextClose
   else ret tt) ;;
  eff (ConsoleLog LGoodbye) ;;
  process_exit 0.

(** The [try] block of [executeCommand]. *)
Definition executeBody (command : string) : M string :=
  let cmd := JS.toLowerCase command in
  if cmd =? "screenshot" then takeScreenshot
  else if cmd =? "text" then extractText
  else if cmd =? "html" then saveHtml
  else if cmd =? "url" then
    u <- on_page "url" (eff PageUrl) ;;
    ret ("URL: " ++ u)
  else if cmd =? "title" then
    t <- on_page "title" (act PageTitle) ;;
    ret ("Title: " ++ t)
  else if cmd =? "tables" then extractTables
  else if cmd =? "links" then extractLinks
  else if cmd =? "back" then
    on_page "goBack" (act PageGoBack) ;;
    u <- eff PageUrl ;;
    ret ("Navigated back to: " ++ u)
  else if cmd =? "forward" then
    on_page "goForward" (act PageGoForward) ;;
    u <- eff PageUrl ;;
    ret ("Navigated forward to: " ++ u)
  else if cmd =? "refresh" then
    on_page "reload" (act PageReload) ;;
    u <- eff PageUrl ;;
    ret ("Refreshed: " ++ u)
  else if cmd =? "quit" then quit
  else if JS.startsWith "goto:" command then
    let url := JS.trim (JS.substring 5 command) in
    cfg <- get config ;;
    on_page "goto" (act (PageGoto url (Some (timeout cfg)))) ;;
    u <- eff PageUrl ;;
    ret ("Navigated to: " ++ u)
  else if JS.startsWith "click:" command then
    let selector := JS.trim (JS.substring 6 command) in
    clickElement selector
  else if JS.startsWith "type:" command then
    let parts := JS.split ":" (JS.substring 5 command) in
    match parts with
    | [] => throw (undefined_read "trim")
    | part0 :: rest =>
        let selector := JS.trim part0 in
        let text := JS.trim (JS.join ":" rest) in
        on_page "fill" (act (PageFill selector text)) ;;
        ret ("Typed " ++ dquote ++ text ++ dquote ++ " into " ++ selector)
    end
  else if JS.startsWith "wait:" command then
    let seconds :=
      JS.number_or (JS.parseInt (JS.trim (JS.substring 5 command))) 2 in
    sleep (seconds * 1000) ;;
    ret ("Waited " ++ JS.numberToString seconds ++ " seconds")
  else if JS.startsWith "scroll:" command then
    let direction := JS.toLowerCase (JS.trim (JS.substring 7 command)) in
    scroll direction
  else
    ret ("ERROR: Unknown command: " ++ command).

(** [executeCommand(command)] *)
Definition executeCommand (command : string) : M string :=
  try_catch (executeBody command) (fun msg => ret ("ERROR: " ++ msg)).

(** One turn of the [while] loop of [pollCommands], after its [sleep]:
    the [try] block, whose [continue]s end the turn, and its empty
    [catch]. *)
Definition pollOnce : M unit :=
  try_catch
    (path <- get commandPath ;;
     found <- eff (FsExistsSync path) ;;
     if negb found then ret tt
     else
       content <- act (FsReadFileSync path) ;;
       let command := JS.trim content in
       last <- get lastCommand ;;
       if negb (JS.truthy command) || (command =? last) then ret tt
       else
         modify (set_lastCommand command) ;;
         eff (ConsoleLog (LCommand command)) ;;
         result <- executeCommand command ;;
         writeResult result ;;
         eff (ConsoleLog LDone))
    (fun _ => ret tt).

(** [pollCommands()], for at most [turns] turns of its loop: the loop has
    no bound of its own, and what is proved of it holds for every bound. *)
Fixpoint pollCommands (turns : nat) : M unit :=
  match turns with
  | O => ret tt
  | S n =>
      r <- get running ;;
      if r then
        cfg <- get config ;;
        sleep (pollInterval cfg) ;;
        pollOnce ;;
        pollCommands n
      else ret tt
  end.

(** [isBrowserRunning(browserName)] *)
Definition isBrowserRunning (name : string) : M bool :=
  try_catch
    (let processName := if name =? "edge" then "msedge.exe" else "chrome.exe" in
     result <- act (ExecSync ("tasklist /FI " ++ dquote ++ "IMAGENAME eq "
                              ++ processName ++ dquote ++ " /NH")) ;;
     ret (JS.includes (JS.toLowerCase processName) (JS.toLowerCase result)))
    (fun _ => ret false).

(** [displayProfileLockedError(browserName)] *)
Definition displayProfileLockedError : M unit :=
  eff (ConsoleError LProfileLocked) ;;
  cfg <- get config ;;
  up <- isBrowserRunning (browserName cfg) ;;
  if up then eff (ConsoleError LBrowserRunning) else ret tt.

(** [start(initialUrl)], with the bound on the turns of the loop it
    starts. *)
Definition start (initialUrl : option string) (turns : nat) : M unit :=
  cfg <- get config ;;
  eff (ConsoleLog LStarting) ;;
  let channel := if browserName cfg =? "edge" then Some "msedge" else None in
  try_catch
    (match truthy_opt (profile cfg) with
     | Some prof =>
         eff (ConsoleLog (LUsingProfile prof)) ;;
         act (ChromiumLaunchPersistentContext prof (headless cfg) channel) ;;
         modify (set_context true) ;;
         n <- eff ContextPagesLength ;;
         (if (0 <? n)%nat then ret tt else act ContextNewPage) ;;
         modify (set_page true)
     | None =>
         act (ChromiumLaunch (headless cfg) channel) ;;
         modify (set_browser true) ;;
         act BrowserNewContext ;;
         modify (set_context true) ;;
         act ContextNewPage ;;
         modify (set_page true)
     end)
    (fun msg =>
       match truthy_opt (profile cfg) with
       | Some _ =>
           if JS.includes "has been closed" msg
              || JS.includes "Target closed" msg
              || JS.includes "Browser closed" msg
           then displayProfileLockedError ;; process_exit 1
           else throw msg
       | None => throw msg
       end) ;;
  match truthy_opt initialUrl with
  | Some url =>
      eff (ConsoleLog (LNavigating url)) ;;
      on_page "goto" (act (PageGoto url None))
  | None => ret tt
  end ;;
  path <- get commandPath ;;
  clearFile path ;;
  writeResult "READY: Browser is open and waiting for commands." ;;
  eff (ConsoleLog LLaunched) ;;
  modify (set_running true) ;;
  pollCommands turns.

End Methods.

(** The object the constructor and [initialize] leave, for a configuration
    whose profile is settled. *)
Definition newPilot {C : Collaborators} (cfg : Config) : Pilot := {|
  browser := false;
  context := false;
  page := false;
  running := false;
  lastCommand := EmptyString;
  config := cfg;
  commandPath := path_join (workDir cfg) (commandFile cfg);
  resultPath := path_join (workDir cfg) (resultFile cfg)
|}.

(* ================================================================== *)
(** ** Reading the log *)
(* ================================================================== *)

(** The command an entry dispatches, if it is the line printed before a
    dispatch. *)
Definition dispatch_of (e : Event) : option string :=
  match e with
  | EvEff (ConsoleLog (LCommand c)) _ => Some c
  | _ => None
  end.

(** The commands dispatched in a stretch of log, oldest first. *)
Fixpoint dispatched (evs : list Event) : list string :=
  match evs with
  | [] => []
  | e :: older =>
      match dispatch_of e with
      | Some c => dispatched older ++ [c]
      | None => dispatched older
      end
  end.

(** The contents successfully read from the file [path], oldest first. *)
Fixpoint reads (path : string) (evs : list Event) : list string :=
  match evs with
  | [] => []
  | e :: older =>
      match e with
      | EvAct (FsReadFileSync p) (Ok content) =>
          if p =? path then reads path older ++ [content]
          else reads path older
      | _ => reads path older
      end
  end.

(** The contents written to the file [path], oldest first (the writes that
    threw included). *)
Fixpoint writes (path : string) (evs : list Event) : list string :=
  match evs with
  | [] => []
  | e :: older =>
      match e with
      | EvAct (FsWriteFileSync p content) _ =>
          if p =? path then writes path older ++ [content]
          else writes path older
      | _ => writes path older
      end
  end.

(** Is the entry a release of the browser resource? *)
Definition is_release (e : Event) : bool :=
  match e with
  | EvAct BrowserClose _ => true
  | EvAct ContextClose _ => true
  | _ => false
  end.

(** The number of releases in a stretch of log. *)
Definition releases (evs : list Event) : nat :=
  List.length (filter is_release evs).



(** The entries a command other than [quit] may leave: calls on the page,
    writes of side files, the clock, the current URL and the sleep of
    [wait]. *)
Definition command_event (e : Event) : bool :=
  match e with
  | EvAct a _ =>
      match a with
      | PageScreenshot _ | PageEvaluateInnerText | PageContent | PageTitle
      | PageEvaluateTables | PageEvaluateLinks | PageGoBack | PageGoForward
      | PageReload | PageGoto _ _ | PageClick _ _ | PageWaitForLoadState
      | PageFill _ _ | PageEvaluateScrollBy _ _ | PageEvaluateScrollToTop
      | PageEvaluateScrollToBottom | FsWriteFileSync _ _ => true
      | _ => false
      end
  | EvEff e _ =>
      match e with
      | DateNow | PageUrl | Sleep _ => true
      | _ => false
      end
  | EvExit _ => false
  end.

(** The entries a turn leaves when it finds no new command. *)
Definition polling_event (e : Event) : bool :=
  match e with
  | EvEff (FsExistsSync _) _ => true
  | EvAct (FsReadFileSync _) _ => true
  | _ => false
  end.


(** Does the dispatcher recognise the command? *)
Definition recognized (command : string) : bool :=
  existsb (String.eqb (JS.toLowerCase command)) exact_tags
  || existsb (fun tag => JS.startsWith (tag ++ ":") command) prefixed_tags.

(** Is the code unit absent from the string? *)
Fixpoint lacks (c : ascii) (s : string) : bool :=
  match s with
  | EmptyString => true
  | String a r => negb (Ascii.eqb a c) && lacks c r
  end.

(** Is the string empty or made of white space only? *)
Fixpoint lacks_text (s : string) : bool :=
  match s with
  | EmptyString => true
  | String c r => JS.is_space c && lacks_text r
  end.

(* ================================================================== *)
(** ** The vocabulary of the properties *)
(* ================================================================== *)

(** Does the command lowercase to [quit]? *)
Definition is_quit (command : string) : bool :=
  JS.toLowerCase command =? "quit".

(** The commands a run may dispatch in a row, after [last]: none is empty,
    none repeats its predecessor, and nothing follows a [quit]. *)
Fixpoint chain (last : string) (l : list string) : Prop :=
  match l with
  | [] => True
  | c :: r =>
      c <> "" /\ c <> last /\ (is_quit c = true -> r = []) /\ chain c r
  end.

(** The fields of the object that no command writes. *)
Definition same_session (p p' : Pilot) : Prop :=
  browser p' = browser p /\ context p' = context p /\ page p' = page p /\
  config p' = config p /\ commandPath p' = commandPath p /\
  resultPath p' = resultPath p /\ lastCommand p' = lastCommand p.

(** The fields of the object that the loop never writes. *)
Definition same_setup (p p' : Pilot) : Prop :=
  browser p' = browser p /\ context p' = context p /\ page p' = page p /\
  config p' = config p /\ commandPath p' = commandPath p /\
  resultPath p' = resultPath p.

(** The release [quit] performs: of the browser when there is one, of the
    persistent context otherwise. *)
Definition release_of (p : Pilot) : option (Action unit) :=
  if browser p then Some BrowserClose
  else if context p then Some ContextClose
  else None.

(** The number of releases a [quit] performs: one when the object holds a
    browser or a persistent context, none otherwise. *)
Definition held (p : Pilot) : nat :=
  match release_of p with
  | Some _ => 1
  | None => 0
  end.

(** The [running] flag is kept. *)
Definition keeps_running (p p' : Pilot) : Prop := running p' = running p.

(** The entry is no dispatch. *)
Definition no_dispatch (e : Event) : bool :=
  match dispatch_of e with
  | Some _ => false
  | None => true
  end.

(** A startup error, as [start] ends on one: the process exits with
    status 1 (a locked profile), or the error is thrown to the caller. *)
Definition startup_failure {A} (r : Outcome A) : Prop :=
  r = Exit 1 \/ exists msg, r = Throw msg.

Section Judgements.
Context {C : Collaborators}.

(** The state after the [sleep] that opens a turn of the loop. *)
Definition after_sleep (s : State) : State :=
  snd (sleep (pollInterval (config (this s))) s).

(** The turn that starts in [s] finds no new command: the command file is
    missing, or reading it fails, or it holds white space only. *)
Definition no_new_command (s : State) : Prop :=
  let path := commandPath (this s) in
  fst (react (FsExistsSync path) (world s)) = false \/
  match fst (perform (FsReadFileSync path)
               (snd (react (FsExistsSync path) (world s)))) with
  | Err _ => True
  | Ok content => lacks_text content = true
  end.

(** From [s] to [s'] the object changed within [keep] and the log grew by
    entries that are all [allowed]. *)
Definition framed (keep : Pilot -> Pilot -> Prop) (allowed : Event -> bool)
           (s s' : State) : Prop :=
  keep (this s) (this s') /\
  exists new, log s' = (new ++ log s)%list /\ forallb allowed new = true.

(** A computation that stays within a frame, however it ends. *)
Definition stable {A} (keep : Pilot -> Pilot -> Prop)
           (allowed : Event -> bool) (m : M A) : Prop :=
  forall s, framed keep allowed s (snd (m s)).

(** A computation that does not end the process. *)
Definition no_exit {A} (m : M A) : Prop :=
  forall s code, fst (m s) <> Exit code.


(** A computation that, when it ends on a startup error, has kept the
    flag and dispatched nothing. *)
Definition fails_stopped {A} (m : M A) : Prop :=
  forall s, startup_failure (fst (m s)) ->
            framed keeps_running no_dispatch s (snd (m s)).

End Judgements.

(* ================================================================== *)
(** ** A scripted outside world, for running the loop on examples *)
(* ================================================================== *)

Module Demo.

(** The script: what the successive reads of the command file find (a
    read past the end of the script throws), and whether the browser
    fails every call. *)
Record Script : Type := {
  feed : list string;
  broken : bool
}.

(** The value a call gives when it succeeds. *)
Definition value {A} (a : Action A) : A :=
  match a in Action T return T with
  | PageEvaluateInnerText => "Example Domain"
  | PageContent => "<html></html>"
  | PageTitle => "Example"
  | PageEvaluateTables => ""
  | PageEvaluateLinks => [("More", "https://example.org/")]
  | FsReadFileSync _ => ""
  | ExecSync _ => ""
  | _ => tt
  end.

(** Is the call a call to Playwright? *)
Definition on_browser {A} (a : Action A) : bool :=
  match a with
  | FsReadFileSync _ | FsWriteFileSync _ _ | FsUnlinkSync _ | ExecSync _ => false
  | _ => true
  end.

Definition answer (A : Type) (a : Action A) (w : Script) : Res A * Script :=
  match a in Action T return Res T * Script with
  | FsReadFileSync _ =>
      match feed w with
      | [] => (Err "ENOENT: no such file or directory", w)
      | content :: later => (Ok content, {| feed := later; broken := broken w |})
      end
  | a' =>
      if on_browser a' && broken w
      then (Err "Target page, context or browser has been closed", w)
      else (Ok (value a'), w)
  end.

Definition reply (A : Type) (e : Effect A) (w : Script) : A * Script :=
  match e in Effect T return T * Script with
  | Sleep _ => (tt, w)
  | ConsoleLog _ => (tt, w)
  | ConsoleError _ => (tt, w)
  | DateNow => (1700000000000%Z, w)
  | PageUrl => ("https://example.com/", w)
  | ContextPagesLength => (1, w)
  | FsExistsSync _ => (true, w)
  end.

Definition collaborators : Collaborators := {|
  World := Script;
  perform := answer;
  react := reply;
  path_join := fun dir file => dir ++ "/" ++ file
|}.

(** The object after a standard launch, the loop running. *)
Definition launched : Pilot :=
  set_running true
    (set_page true (set_context true (set_browser true
       (newPilot (C := collaborators) (DEFAULT_CONFIG "/work"))))).

(** The state before [start], for a configuration. *)
Definition fresh (cfg : Config) (crashing : bool)
  : State (C := collaborators) :=
  @Build_State collaborators (newPilot (C := collaborators) cfg)
    {| feed := []; broken := crashing |} [].

(** The state of a launched session in the scripted world. *)
Definition session (contents : list string) (crashing : bool)
  : State (C := collaborators) :=
  @Build_State collaborators launched
    {| feed := contents; broken := crashing |} [].

End Demo.


(** The files the commands [text], [html] and [tables] write, in the
    working directory. *)
Definition side_files {C : Collaborators} (p : Pilot) : list string :=
  [path_join (workDir (config p)) "page-text.txt";
   path_join (workDir (config p)) "page.html";
   path_join (workDir (config p)) "tables.txt"].

(** The entry writes no file, or one of [files]. *)
Definition writes_within (files : list string) (e : Event) : Prop :=
  match e with
  | EvAct (FsWriteFileSync p _) _ => In p files
  | _ => True
  end.

(** A computation that, started on the object [p0], leaves it as it is
    and writes no file but the side files of [p0]. *)
Definition confined {C : Collaborators} {A} (p0 : Pilot) (m : M A) : Prop :=
  forall s, this s = p0 ->
    this (snd (m s)) = p0 /\
    exists new,
      log (snd (m s)) = (new ++ log s)%list /\
      Forall (writes_within (side_files p0)) new.

(** The entries a run of the loop may leave: the sleeps, the polls of the
    command file, the lines of a dispatch, what the commands leave, the
    write of a result, and the release, farewell and exit of [quit]. *)
Definition loop_event (e : Event) : bool :=
  command_event e || polling_event e || is_release e ||
  match e with
  | EvEff (ConsoleLog (LCommand _)) _ => true
  | EvEff (ConsoleLog LDone) _ => true
  | EvEff (ConsoleLog LGoodbye) _ => true
  | EvExit _ => true
  | _ => false
  end.

(** The text [start] writes to the result file once the browser is
    open. *)
Definition READY : string :=
  "READY: Browser is open and waiting for commands.".

(** The entries a start leaves before it enters the loop: no dispatch, no
    poll of the command file, no release of the browser. *)
Definition launch_event (e : Event) : bool :=
  no_dispatch e && negb (polling_event e) && negb (is_release e).

(** The object a successful launch leaves: with a profile, a persistent
    context and its page; without, a browser, a context and a page. *)
Definition launched_object (p : Pilot) : Pilot :=
  match truthy_opt (profile (config p)) with
  | Some _ => set_page true (set_context true p)
  | None => set_page true (set_context true (set_browser true p))
  end.

(** Does the message of a launch error tell of a locked profile? *)
Definition lock_phrase (msg : string) : bool :=
  JS.includes "has been closed" msg
  || JS.includes "Target closed" msg
  || JS.includes "Browser closed" msg.

(** Is the entry a [browser.close()]? *)
Definition is_browser_close (e : Event) : bool :=
  match e with
  | EvAct BrowserClose _ => true
  | _ => false
  end.

(** Is the entry a [context.close()]? *)
Definition is_context_close (e : Event) : bool :=
  match e with
  | EvAct ContextClose _ => true
  | _ => false
  end.

(** The release that fits the object: of the browser if it holds one, of
    the context otherwise. *)
Definition fitting_release (p : Pilot) (e : Event) : bool :=
  if browser p then negb (is_context_close e)
  else negb (is_browser_close e).

(** The process [isBrowserRunning] looks for, and its [tasklist] query. *)
Definition image_name (name : string) : string :=
  if name =? "edge" then "msedge.exe" else "chrome.exe".

Definition tasklist_query (name : string) : string :=
  "tasklist /FI " ++ dquote ++ "IMAGENAME eq " ++ image_name name
  ++ dquote ++ " /NH".

(** Does the answer of [tasklist] name the process? *)
Definition names_process (name : string) (r : Res string) : bool :=
  match r with
  | Ok result =>
      JS.includes (JS.toLowerCase (image_name name)) (JS.toLowerCase result)
  | Err _ => false
  end.

(** Is the entry a call that may fail: a call to Playwright, to the file
    system or to a child process? *)
Definition is_call (e : Event) : bool :=
  match e with
  | EvAct _ _ => true
  | _ => false
  end.

(** The name of the file of a screenshot taken at [timestamp]. *)
Definition screenshot_name (timestamp : Z) : string :=
  "screenshot-" ++ JS.numberToString timestamp ++ ".png".

(* ================================================================== *)
(** ** The scripts the commands run in the page *)
(* ================================================================== *)

(** The script of [extractLinks]: of the anchors that carry an [href], in
    document order and each given by its [innerText] and its [href], the
    text is trimmed, the anchors with an empty text or an empty [href]
    are dropped, and the first 50 are kept. *)
Definition links_script (anchors : list (string * string))
  : list (string * string) :=
  firstn 50
    (filter (fun l => JS.truthy (fst l) && JS.truthy (snd l))
       (map (fun a => (JS.trim (fst a), snd a)) anchors)).

(** [s.replace(/\s+/g, ' ')], [blank] telling whether the code unit before
    was white space. *)
Fixpoint collapse_from (blank : bool) (s : string) : string :=
  match s with
  | EmptyString => EmptyString
  | String c r =>
      if JS.is_space c
      then if blank then collapse_from true r
           else String " " (collapse_from true r)
      else String c (collapse_from false r)
  end.

(** The text of a cell: [cell.innerText.trim().replace(/\s+/g, ' ')]. *)
Definition cell_text (innerText : string) : string :=
  collapse_from false (JS.trim innerText).

(** The line of a row: its cells joined with [ | ], and a line feed. *)
Definition row_text (cells : list string) : string :=
  JS.join " | " (map cell_text cells) ++ newline.

(** [strs.join('')] of the lines of the rows, appended one by one. *)
Fixpoint rows_text (rows : list (list string)) : string :=
  match rows with
  | [] => EmptyString
  | row :: more => row_text row ++ rows_text more
  end.

(** The text of the table of index [idx]: its title, then its rows. *)
Definition table_text (idx : nat) (rows : list (list string)) : string :=
  newline ++ "=== TABLE " ++ JS.numberToString (Z.of_nat (idx + 1))
  ++ " ===" ++ newline ++ rows_text rows.

(** The texts of the tables from index [idx] on. *)
Fixpoint tables_from (idx : nat) (tables : list (list (list string)))
  : list string :=
  match tables with
  | [] => []
  | rows :: more => table_text idx rows :: tables_from (S idx) more
  end.

(** The script of [extractTables]: a table is the list of its rows, a row
    the list of the [innerText] of its cells. *)
Definition tables_script (tables : list (list (list string))) : string :=
  JS.join newline (tables_from 0 tables).

(* ================================================================== *)
(** ** Browser and profile discovery *)
(* ================================================================== *)

(** The names Chrome keeps of a profile in [Local State]; an absent or
    falsy name is [None]. *)
Record Metadata : Type := {
  user_name : option string;
  gaia_name : option string;
  shortcut_name : option string;
  profile_name : option string
}.

(** An entry of a directory. *)
Record Dirent : Type := {
  entry_name : string;
  isDirectory : bool
}.

(** A profile, as [listProfiles] describes it. *)
Record Profile : Type := {
  path : string;
  dirName : string;
  displayName : string;
  userName : string;
  fullName : string
}.

(** The machine the static helpers look at; they only read it, and it is
    taken not to change while one of them runs.  [readInfoCache file] is
    [JSON.parse(fs.readFileSync(file))?.profile?.info_cache || {}], as a
    lookup by directory name, or the error of the read or of the
    parse. *)
Record Host : Type := {
  platform : string;
  execSync : string -> Res string;
  userInfo_username : Res string;
  env_USERPROFILE : option string;
  existsSync : string -> bool;
  readInfoCache : string -> Res (string -> option Metadata);
  readdirSync : string -> Res (list Dirent);
  join : list string -> string;
  stdin_answer : string
}.

(** [a || b] for strings that may be absent. *)
Definition or_else (a : option string) (b : string) : string :=
  match truthy_opt a with
  | Some s => s
  | None => b
  end.

(** The registry query of [detectDefaultBrowser]. *)
Definition reg_query : string :=
  "reg query " ++ dquote
  ++ "HKEY_CURRENT_USER\Software\Microsoft\Windows\Shell\Associations\UrlAssociations\http\UserChoice"
  ++ dquote ++ " /v ProgId".

(** [WebPilot.detectDefaultBrowser()] *)
Definition detectDefaultBrowser (h : Host) : string :=
  if negb (platform h =? "win32") then "chrome"
  else
    match execSync h reg_query with
    | Ok result =>
        if JS.includes "MSEdge" result || JS.includes "EdgeHTML" result
        then "edge"
        else if JS.includes "Chrome" result then "chrome"
        else "chrome"
    | Err _ => "chrome"
    end.

(** [WebPilot.getDefaultProfilePath(browserType)]; [None] is [null]. *)
Definition getDefaultProfilePath (h : Host) (browserType : string)
  : option string :=
  match userInfo_username h with
  | Ok username =>
      let userProfile :=
        or_else (env_USERPROFILE h) ("C:\Users\" ++ username) in
      if browserType =? "edge"
      then Some (join h [userProfile; "AppData"; "Local"; "Microsoft";
                         "Edge"; "User Data"])
      else Some (join h [userProfile; "AppData"; "Local"; "Google";
                         "Chrome"; "User Data"])
  | Err _ => None
  end.

(** Is the entry a profile directory: a directory named [Default] or
    [Profile ...]? *)
Definition is_profile_directory (entry : Dirent) : bool :=
  isDirectory entry
  && ((entry_name entry =? "Default")
      || JS.startsWith "Profile " (entry_name entry)).

(** The profile [listProfiles] pushes for a profile directory. *)
Definition describe (h : Host) (userDataDir : string)
           (cache : string -> option Metadata) (name : string) : Profile :=
  match cache name with
  | Some metadata => {|
      path := join h [userDataDir; name];
      dirName := name;
      displayName :=
        or_else (user_name metadata)
          (or_else (gaia_name metadata)
             (or_else (shortcut_name metadata)
                (or_else (profile_name metadata) name)));
      userName := or_else (user_name metadata) "";
      fullName := or_else (gaia_name metadata) ""
    |}
  | None => {|
      path := join h [userDataDir; name];
      dirName := name;
      displayName := name;
      userName := "";
      fullName := ""
    |}
  end.

(** The [for] loop of [listProfiles]. *)
Fixpoint collect (h : Host) (userDataDir : string)
         (cache : string -> option Metadata) (entries : list Dirent)
  : list Profile :=
  match entries with
  | [] => []
  | entry :: more =>
      if negb (isDirectory entry) then collect h userDataDir cache more
      else if (entry_name entry =? "Default")
              || JS.startsWith "Profile " (entry_name entry)
      then describe h userDataDir cache (entry_name entry)
           :: collect h userDataDir cache more
      else collect h userDataDir cache more
  end.

(** [WebPilot.listProfiles(userDataDir)] *)
Definition listProfiles (h : Host) (userDataDir : string) : list Profile :=
  if negb (existsSync h userDataDir) then []
  else
    let localStatePath := join h [userDataDir; "Local State"] in
    let profileInfoCache :=
      if existsSync h localStatePath
      then match readInfoCache h localStatePath with
           | Ok cache => cache
           | Err _ => fun _ => None
           end
      else fun _ => None in
    match readdirSync h userDataDir with
    | Ok entries => collect h userDataDir profileInfoCache entries
    | Err _ => []
    end.

(** What the prompt prints. *)
Inductive PromptLine : Type :=
| PromptTitle (browserName : string)
| PromptItem (number : nat) (displayText : string)
| PromptFresh (number : nat)
| PromptInvalid.

(** The line of a profile in the menu: its e-mail, else its full name,
    else its display name, and the name of its folder in brackets. *)
Definition menu_text (p : Profile) : string :=
  (if JS.truthy (userName p) then userName p
   else if JS.truthy (fullName p) then fullName p
   else displayName p)
  ++ " [" ++ dirName p ++ "]".

(** The items of the menu, numbered from [number]. *)
Fixpoint menu_from (number : nat) (profiles : list Profile)
  : list PromptLine :=
  match profiles with
  | [] => []
  | p :: more => PromptItem number (menu_text p) :: menu_from (S number) more
  end.

(** [profiles[i].path], a [TypeError] when there is no such profile. *)
Definition path_at (profiles : list Profile) (i : nat) : Res (option string) :=
  match nth_error profiles i with
  | Some p => Ok (Some (path p))
  | None => Err (undefined_read "path")
  end.

(** The callback of [rl.question] in [promptProfileSelection]: what the
    answer resolves to ([None] is [null], the fresh session), with the
    line it prints, if any. *)
Definition choose (profiles : list Profile) (answer : string)
  : list PromptLine * Res (option string) :=
  let n := Z.of_nat (List.length profiles) in
  match JS.parseInt answer with
  | Some choice =>
      if ((1 <=? choice) && (choice <=? n))%Z
      then ([], path_at profiles (Z.to_nat (choice - 1)))
      else if (choice =? n + 1)%Z then ([], Ok None)
      else ([PromptInvalid], path_at profiles 0)
  | None => ([PromptInvalid], path_at profiles 0)
  end.

(** [WebPilot.promptProfileSelection(profiles, browserName)], the answer
    being what the user types. *)
Definition promptProfileSelection (profiles : list Profile)
           (browserName : string) (answer : string)
  : list PromptLine * Res (option string) :=
  let menu :=
    (PromptTitle browserName :: menu_from 1 profiles
     ++ [PromptFresh (List.length profiles + 1)])%list in
  let '(said, chosen) := choose profiles answer in
  ((menu ++ said)%list, chosen).

(** [config.profile], as given to the constructor: absent, [null], or a
    path. *)
Inductive ProfileSetting : Type :=
| Unset
| Disabled
| Given (path : string).

(** The object given to the constructor; [None] is an absent key (or, for
    the browser, [null]). *)
Record Options : Type := {
  o_commandFile : option string;
  o_resultFile : option string;
  o_workDir : option string;
  o_headless : option bool;
  o_browser : option string;
  o_pollInterval : option Z;
  o_timeout : option Z;
  o_profile : ProfileSetting;
  o_autoProfile : option bool
}.

(** The profile [initialize] settles on, with what the prompt printed. *)
Definition settle_profile (h : Host) (config : Options)
           (detectedBrowser : string)
  : list PromptLine * Res (option string) :=
  match o_profile config with
  | Given p => ([], Ok (Some p))
  | Disabled => ([], Ok None)
  | Unset =>
      match o_autoProfile config with
      | Some false => ([], Ok None)
      | _ =>
          match truthy_opt (getDefaultProfilePath h detectedBrowser) with
          | Some userDataDir =>
              let profiles := listProfiles h userDataDir in
              if (1 <? List.length profiles)%nat then
                let browserName :=
                  if detectedBrowser =? "edge" then "Edge" else "Chrome" in
                promptProfileSelection profiles browserName (stdin_answer h)
              else if (List.length profiles =? 1)%nat then
                ([], path_at profiles 0)
              else ([], Ok None)
          | None => ([], Ok None)
          end
      end
  end.

(** A value of the defaults, unless the constructor was given one. *)
Definition given {A} (o : option A) (default : A) : A :=
  match o with
  | Some a => a
  | None => default
  end.

(** [initialize()]: the configuration and the paths it leaves in the
    object, with what the prompt printed; [cwd] is [process.cwd()]. *)
Definition initialize (h : Host) (cwd : string) (config : Options)
  : list PromptLine * Res Pilot :=
  let detectedBrowser := or_else (o_browser config) (detectDefaultBrowser h) in
  let '(said, settled) := settle_profile h config detectedBrowser in
  match settled with
  | Err msg => (said, Err msg)
  | Ok detectedProfile =>
      let cfg := {|
        commandFile := given (o_commandFile config) "command.txt";
        resultFile := given (o_resultFile config) "result.txt";
        workDir := given (o_workDir config) cwd;
        headless := given (o_headless config) false;
        browserName := detectedBrowser;
        pollInterval := given (o_pollInterval config) 1000%Z;
        timeout := given (o_timeout config) 30000%Z;
        profile := detectedProfile
      |} in
      (said,
       Ok {| browser := false; context := false; page := false;
             running := false; lastCommand := EmptyString;
             config := cfg;
             commandPath := join h [workDir cfg; commandFile cfg];
             resultPath := join h [workDir cfg; resultFile cfg] |})
  end.

(** The browser [initialize] settles on. *)
Definition settled_browser (h : Host) (config : Options) : string :=
  or_else (o_browser config) (detectDefaultBrowser h).

(* ================================================================== *)
(** ** The command line ([cli.js]) *)
(* ================================================================== *)

(** The object [parseArgs] fills.  [cli_url] is [None] for [null] and
    [undefined]. *)
Record CliConfig : Type := {
  cli_url : option string;
  cli_workDir : string;
  cli_headless : bool;
  cli_background : bool;
  cli_selectProfile : bool;
  cli_browser : option string;
  cli_profile : ProfileSetting;
  cli_autoProfile : bool
}.

(** The object [parseArgs] starts from; [cwd] is [process.cwd()]. *)
Definition cli_defaults (cwd : string) : CliConfig := {|
  cli_url := None;
  cli_workDir := cwd;
  cli_headless := false;
  cli_background := false;
  cli_selectProfile := false;
  cli_browser := None;
  cli_profile := Unset;
  cli_autoProfile := true
|}.

Definition with_url (u : option string) (c : CliConfig) : CliConfig :=
  {| cli_url := u; cli_workDir := cli_workDir c;
     cli_headless := cli_headless c; cli_background := cli_background c;
     cli_selectProfile := cli_selectProfile c; cli_browser := cli_browser c;
     cli_profile := cli_profile c; cli_autoProfile := cli_autoProfile c |}.
Definition with_workDir (d : string) (c : CliConfig) : CliConfig :=
  {| cli_url := cli_url c; cli_workDir := d;
     cli_headless := cli_headless c; cli_background := cli_background c;
     cli_selectProfile := cli_selectProfile c; cli_browser := cli_browser c;
     cli_profile := cli_profile c; cli_autoProfile := cli_autoProfile c |}.
Definition with_headless (c : CliConfig) : CliConfig :=
  {| cli_url := cli_url c; cli_workDir := cli_workDir c;
     cli_headless := true; cli_background := cli_background c;
     cli_selectProfile := cli_selectProfile c; cli_browser := cli_browser c;
     cli_profile := cli_profile c; cli_autoProfile := cli_autoProfile c |}.
Definition with_background (c : CliConfig) : CliConfig :=
  {| cli_url := cli_url c; cli_workDir := cli_workDir c;
     cli_headless := cli_headless c; cli_background := true;
     cli_selectProfile := cli_selectProfile c; cli_browser := cli_browser c;
     cli_profile := cli_profile c; cli_autoProfile := cli_autoProfile c |}.
Definition with_selectProfile (c : CliConfig) : CliConfig :=
  {| cli_url := cli_url c; cli_workDir := cli_workDir c;
     cli_headless := cli_headless c; cli_background := cli_background c;
     cli_selectProfile := true; cli_browser := cli_browser c;
     cli_profile := cli_profile c; cli_autoProfile := cli_autoProfile c |}.
Definition with_browser (b : string) (c : CliConfig) : CliConfig :=
  {| cli_url := cli_url c; cli_workDir := cli_workDir c;
     cli_headless := cli_headless c; cli_background := cli_background c;
     cli_selectProfile := cli_selectProfile c; cli_browser := Some b;
     cli_profile := cli_profile c; cli_autoProfile := cli_autoProfile c |}.
Definition with_profile (p : ProfileSetting) (c : CliConfig) : CliConfig :=
  {| cli_url := cli_url c; cli_workDir := cli_workDir c;
     cli_headless := cli_headless c; cli_background := cli_background c;
     cli_selectProfile := cli_selectProfile c; cli_browser := cli_browser c;
     cli_profile := p; cli_autoProfile := false |}.

(** The message of [path.resolve(undefined)]. *)
Definition resolve_undefined : string :=
  "The " ++ dquote ++ "paths[0]" ++ dquote
  ++ " argument must be of type string. Received undefined".

(** The [for] loop of [parseArgs], from the argument it has reached;
    [resolve] is [path.resolve].  An option that takes a value takes the
    next argument, whatever it is; at the end of the arguments its value
    is [undefined].  The usage and the error line printed before an exit
    are left out. *)
Fixpoint parseArgs_from (resolve : string -> string) (args : list string)
         (config : CliConfig) : Outcome CliConfig :=
  match args with
  | [] => Ret config
  | arg :: rest =>
      if (arg =? "--help") || (arg =? "-h") then Exit 0
      else if (arg =? "--url") || (arg =? "-u") then
        match rest with
        | value :: rest' =>
            parseArgs_from resolve rest' (with_url (Some value) config)
        | [] => Ret (with_url None config)
        end
      else if (arg =? "--dir") || (arg =? "-d") then
        match rest with
        | value :: rest' =>
            parseArgs_from resolve rest' (with_workDir (resolve value) config)
        | [] => Throw resolve_undefined
        end
      else if arg =? "--browser" then
        match rest with
        | value :: rest' =>
            let browser := JS.toLowerCase value in
            if (browser =? "chrome") || (browser =? "edge")
            then parseArgs_from resolve rest' (with_browser browser config)
            else Exit 1
        | [] => Exit 1
        end
      else if arg =? "--profile" then
        match rest with
        | value :: rest' =>
            parseArgs_from resolve rest' (with_profile (Given value) config)
        | [] => Ret (with_profile Unset config)
        end
      else if arg =? "--no-profile" then
        parseArgs_from resolve rest (with_profile Disabled config)
      else if arg =? "--select-profile" then
        parseArgs_from resolve rest (with_selectProfile config)
      else if arg =? "--background" then
        parseArgs_from resolve rest (with_background config)
      else if arg =? "--headless" then
        parseArgs_from resolve rest (with_headless config)
      else if negb (JS.startsWith "-" arg)
              && negb (match cli_url config with
                       | Some u => JS.truthy u
                       | None => false
                       end)
      then parseArgs_from resolve rest (with_url (Some arg) config)
      else parseArgs_from resolve rest config
  end.

(** [parseArgs(args)] *)
Definition parseArgs (resolve : string -> string) (cwd : string)
           (args : list string) : Outcome CliConfig :=
  parseArgs_from resolve args (cli_defaults cwd).

(** The object [main] gives to the constructor. *)
Definition options_of_cli (c : CliConfig) : Options := {|
  o_commandFile := None;
  o_resultFile := None;
  o_workDir := Some (cli_workDir c);
  o_headless := Some (cli_headless c);
  o_browser := cli_browser c;
  o_pollInterval := None;
  o_timeout := None;
  o_profile := cli_profile c;
  o_autoProfile := Some (cli_autoProfile c)
|}.

(** Does the option take the next argument as its value? *)
Definition takes_value (arg : string) : bool :=
  existsb (String.eqb arg) ["--url"; "-u"; "--dir"; "-d"; "--browser"; "--profile"].

(** Does the argument ask for the usage? *)
Definition asks_help (arg : string) : bool :=
  (arg =? "--help") || (arg =? "-h").

(* ================================================================== *)
(** ** A scripted machine, for running the discovery on examples *)
(* ================================================================== *)

Module Desk.

(** A Windows machine whose default browser is Chrome, with two Chrome
    profiles and a [Local State] that cannot be parsed; the user answers
    [2] to the prompt. *)
Definition host : Host := {|
  platform := "win32";
  execSync := fun _ => Ok "    ProgId    REG_SZ    ChromeHTML";
  userInfo_username := Ok "ada";
  env_USERPROFILE := Some "C:\Users\ada";
  existsSync := fun _ => true;
  readInfoCache := fun _ => Err "Unexpected end of JSON input";
  readdirSync := fun _ =>
    Ok [ {| entry_name := "Default"; isDirectory := true |};
         {| entry_name := "Local State"; isDirectory := false |};
         {| entry_name := "Profile 1"; isDirectory := true |} ];
  join := JS.join "\";
  stdin_answer := "2"
|}.

(** The same machine, where [os.userInfo()] fails. *)
Definition nameless : Host := {|
  platform := platform host;
  execSync := execSync host;
  userInfo_username := Err "ENOENT: no such file or directory, uv_os_get_passwd";
  env_USERPROFILE := env_USERPROFILE host;
  existsSync := existsSync host;
  readInfoCache := readInfoCache host;
  readdirSync := readdirSync host;
  join := join host;
  stdin_answer := stdin_answer host
|}.

(** Two profiles, as [listProfiles] describes them. *)
Definition profiles : list Profile :=
  listProfiles host "C:\Users\ada\AppData\Local\Google\Chrome\User Data".

(** The default configuration, with a profile. *)
Definition profiled : Config := {|
  commandFile := "command.txt";
  resultFile := "result.txt";
  workDir := "/work";
  headless := false;
  browserName := "chrome";
  pollInterval := 1000;
  timeout := 30000;
  profile := Some "C:\Users\ada\AppData\Local\Google\Chrome\User Data\Default"
|}.

End Desk.

(* ================================================================== *)
(** ** Facts about the string primitives *)
(* ================================================================== *)

Example toLowerCase_ex : JS.toLowerCase "QuIt" = "quit".
Proof. reflexivity. Qed.

Example trim_ex : JS.trim "  a b  " = "a b".
Proof. reflexivity. Qed.

Example split_ex :
  JS.split ":" "#field:hello:world" = ["#field"; "hello"; "world"].
Proof. reflexivity. Qed.

Example parseInt_ex1 : JS.parseInt " -12px" = Some (-12)%Z.
Proof. reflexivity. Qed.

Example parseInt_ex2 : JS.parseInt "0x1f" = Some 31%Z.
Proof. reflexivity. Qed.

Example parseInt_ex3 : JS.parseInt "abc" = None.
Proof. reflexivity. Qed.

Example numberToString_ex : JS.numberToString (-50) = "-50".
Proof. reflexivity. Qed.

Example numberToString_zero : JS.numberToString 0 = "0".
Proof. reflexivity. Qed.

Example number_or_zero : JS.number_or (JS.parseInt "0") 2 = 2%Z.
Proof. reflexivity. Qed.

Example number_or_five : JS.number_or (JS.parseInt "5") 2 = 5%Z.
Proof. reflexivity. Qed.

Example recognized_ex : recognized "Title" = true /\ recognized "Goto:x" = false.
Proof. split; reflexivity. Qed.

(** The loop at work in the scripted world: [title] is dispatched once
    however often it is read, then [url]. *)
Example poll_ex :
  dispatched
    (log (snd (pollCommands (C := Demo.collaborators) 4
                 (Demo.session ["title"; " title "; "url"; "url"] false))))
  = ["title"; "url"] /\
  writes "/work/result.txt"
    (log (snd (pollCommands (C := Demo.collaborators) 4
                 (Demo.session ["title"; " title "; "url"; "url"] false))))
  = ["Title: Example"; "URL: https://example.com/"].
Proof. split; vm_compute; reflexivity. Qed.

(** One step of the recursive string functions, the comparison of code
    units left folded. *)
Ltac unroll :=
  cbn [JS.startsWith JS.split JS.toLowerCase JS.substring lacks
       String.append String.length].

(** Case analysis on the eight bits of a code unit. *)
Ltac each_code_unit c :=
  destruct c as [[] [] [] [] [] [] [] []].

Lemma lower_char_idem (c : ascii) :
  JS.lower_char (JS.lower_char c) = JS.lower_char c.
Proof. each_code_unit c; reflexivity. Qed.

Lemma lower_char_colon (c : ascii) :
  Ascii.eqb (JS.lower_char c) ":" = Ascii.eqb c ":".
Proof. each_code_unit c; reflexivity. Qed.

Lemma toLowerCase_idem (s : string) :
  JS.toLowerCase (JS.toLowerCase s) = JS.toLowerCase s.
Proof.
  induction s as [|c r IH]; simpl; [reflexivity|].
  now rewrite lower_char_idem, IH.
Qed.

Lemma toLowerCase_app (a b : string) :
  JS.toLowerCase (a ++ b) = JS.toLowerCase a ++ JS.toLowerCase b.
Proof.
  induction a as [|c r IH]; simpl; [reflexivity|].
  now rewrite IH.
Qed.

Lemma toLowerCase_lacks_colon (s : string) :
  lacks ":" (JS.toLowerCase s) = lacks ":" s.
Proof.
  induction s as [|c r IH]; unroll; [reflexivity|].
  now rewrite lower_char_colon, IH.
Qed.

(** A string that starts with [q:] and reads [tag:rest], where neither
    [q] nor [tag] holds a colon, has [q] for its tag. *)
Lemma startsWith_tag (q tag rest : string) :
  lacks ":" q = true -> lacks ":" tag = true ->
  JS.startsWith (q ++ ":") (tag ++ ":" ++ rest) = true -> q = tag.
Proof.
  revert tag; induction q as [|a q IH]; intros [|b tag]; unroll;
    intros Hq Htag H.
  - reflexivity.
  - apply andb_prop in Htag as [Hb _].
    apply andb_prop in H as [H _].
    rewrite Ascii.eqb_sym, H in Hb. discriminate.
  - apply andb_prop in Hq as [Ha _].
    apply andb_prop in H as [H _].
    rewrite H in Ha. discriminate.
  - apply andb_prop in Hq as [_ Hq].
    apply andb_prop in Htag as [_ Htag].
    apply andb_prop in H as [Hab H].
    apply Ascii.eqb_eq in Hab. subst b.
    f_equal. now apply IH.
Qed.

Lemma split_nonempty (sep : ascii) (s : string) : JS.split sep s <> [].
Proof.
  destruct s as [|c r]; unroll; [discriminate|].
  destruct (Ascii.eqb c sep); [discriminate|].
  destruct (JS.split sep r); discriminate.
Qed.

(** Splitting cuts at the first separator. *)
Lemma split_first (sep : ascii) (a b : string) :
  lacks sep a = true ->
  JS.split sep (a ++ String sep b) = a :: JS.split sep b.
Proof.
  induction a as [|c a IH]; unroll; intros H.
  - now rewrite Ascii.eqb_refl.
  - apply andb_prop in H as [Hc Ha].
    apply negb_true_iff in Hc. rewrite Hc, (IH Ha). reflexivity.
Qed.

(** Joining what was split gives the string back. *)
Lemma join_split (sep : ascii) (s : string) :
  JS.join (String sep EmptyString) (JS.split sep s) = s.
Proof.
  induction s as [|c r IH]; unroll; [reflexivity|].
  destruct (Ascii.eqb c sep) eqn:E.
  - apply Ascii.eqb_eq in E. subst c.
    cbn [JS.join String.append]. destruct (JS.split sep r) as [|h t] eqn:S.
    + now apply split_nonempty in S.
    + rewrite IH. reflexivity.
  - destruct (JS.split sep r) as [|h t] eqn:S.
    + now apply split_nonempty in S.
    + destruct t as [|h' t']; cbn [JS.join String.append] in *;
        now rewrite <- IH.
Qed.

(* ================================================================== *)
(** ** Reasoning about computations *)
(* ================================================================== *)

Section Logic.
Context {C : Collaborators}.

Lemma forallb_app_true {A} (f : A -> bool) (l1 l2 : list A) :
  forallb f l1 = true -> forallb f l2 = true ->
  forallb f (l1 ++ l2)%list = true.
Proof. intros H1 H2. rewrite forallb_app, H1, H2. reflexivity. Qed.

(** *** Frames: what a computation keeps of the object, and which entries
    it may add to the log *)

Section Frame.
Variable keep : Pilot -> Pilot -> Prop.
Variable allowed : Event -> bool.
Hypothesis keep_refl : forall p, keep p p.
Hypothesis keep_trans : forall p q r, keep p q -> keep q r -> keep p r.

Lemma framed_refl (s : State) : framed keep allowed s s.
Proof. split; [apply keep_refl|]. now exists []. Qed.

Lemma framed_trans (s1 s2 s3 : State) :
  framed keep allowed s1 s2 -> framed keep allowed s2 s3 ->
  framed keep allowed s1 s3.
Proof.
  intros [K1 (n1 & E1 & A1)] [K2 (n2 & E2 & A2)]. split.
  - eapply keep_trans; eassumption.
  - exists (n2 ++ n1)%list. split.
    + now rewrite E2, E1, app_assoc.
    + now apply forallb_app_true.
Qed.

Lemma stable_ret {A} (a : A) : stable keep allowed (ret a).
Proof. intros s. apply framed_refl. Qed.

Lemma stable_throw {A} (msg : string) :
  stable keep allowed (throw (A := A) msg).
Proof. intros s. apply framed_refl. Qed.

Lemma stable_get {A} (f : Pilot -> A) : stable keep allowed (get f).
Proof. intros s. apply framed_refl. Qed.

Lemma stable_bind {A B} (m : M A) (k : A -> M B) :
  stable keep allowed m -> (forall a, stable keep allowed (k a)) ->
  stable keep allowed (bind m k).
Proof.
  intros Hm Hk s. unfold bind. specialize (Hm s).
  destruct (m s) as [[a|msg|code] s1]; simpl in *; try assumption.
  eapply framed_trans; [eassumption|apply Hk].
Qed.

Lemma stable_try_catch {A} (m : M A) (h : string -> M A) :
  stable keep allowed m -> (forall msg, stable keep allowed (h msg)) ->
  stable keep allowed (try_catch m h).
Proof.
  intros Hm Hh s. unfold try_catch. specialize (Hm s).
  destruct (m s) as [[a|msg|code] s1]; simpl in *; try assumption.
  eapply framed_trans; [eassumption|apply Hh].
Qed.

Lemma stable_act {A} (a : Action A) :
  (forall r, allowed (EvAct a r) = true) -> stable keep allowed (act a).
Proof.
  intros H s. unfold act.
  destruct (perform a (world s)) as [r w] eqn:E.
  assert (F : framed keep allowed s
                {| this := this s; world := w; log := EvAct a r :: log s |}).
  { split; [apply keep_refl|]. exists [EvAct a r]. simpl. now rewrite H. }
  destruct r; exact F.
Qed.

Lemma stable_eff {A} (e : Effect A) :
  (forall v, allowed (EvEff e v) = true) -> stable keep allowed (eff e).
Proof.
  intros H s. unfold eff.
  destruct (react e (world s)) as [v w] eqn:E. simpl.
  split; [apply keep_refl|]. exists [EvEff e v]. simpl. now rewrite H.
Qed.

Lemma stable_modify (f : Pilot -> Pilot) :
  (forall p, keep p (f p)) -> stable keep allowed (modify f).
Proof. intros H s. split; [apply H|]. now exists []. Qed.

Lemma stable_exit {A} (code : Z) :
  allowed (EvExit code) = true ->
  stable keep allowed (process_exit (A := A) code).
Proof.
  intros H s. split; [apply keep_refl|]. exists [EvExit code]. simpl.
  now rewrite H.
Qed.

End Frame.

(** *** Computations that do not end the process *)

Lemma no_exit_ret {A} (a : A) : no_exit (ret a).
Proof. intros s code. discriminate. Qed.

Lemma no_exit_throw {A} (msg : string) : no_exit (throw (A := A) msg).
Proof. intros s code. discriminate. Qed.

Lemma no_exit_get {A} (f : Pilot -> A) : no_exit (get f).
Proof. intros s code. discriminate. Qed.

Lemma no_exit_modify (f : Pilot -> Pilot) : no_exit (modify f).
Proof. intros s code. discriminate. Qed.

Lemma no_exit_act {A} (a : Action A) : no_exit (act a).
Proof.
  intros s code. unfold act.
  destruct (perform a (world s)) as [[v|msg] w]; discriminate.
Qed.

Lemma no_exit_eff {A} (e : Effect A) : no_exit (eff e).
Proof.
  intros s code. unfold eff.
  destruct (react e (world s)) as [v w]; discriminate.
Qed.

Lemma no_exit_bind {A B} (m : M A) (k : A -> M B) :
  no_exit m -> (forall a, no_exit (k a)) -> no_exit (bind m k).
Proof.
  intros Hm Hk s code. unfold bind. specialize (Hm s).
  destruct (m s) as [[a|msg|code'] s1]; simpl in *.
  - apply Hk.
  - discriminate.
  - now destruct (Hm code').
Qed.

Lemma no_exit_try_catch {A} (m : M A) (h : string -> M A) :
  no_exit m -> (forall msg, no_exit (h msg)) -> no_exit (try_catch m h).
Proof.
  intros Hm Hh s code. unfold try_catch. specialize (Hm s).
  destruct (m s) as [[a|msg|code'] s1]; simpl in *.
  - discriminate.
  - apply Hh.
  - now destruct (Hm code').
Qed.

(** *** Computations that report the failure of their last call: when the
    newest entry they add is a failed call, they throw its message *)










End Logic.

(* ================================================================== *)
(** ** The dispatcher, branch by branch *)
(* ================================================================== *)

Section Dispatcher.
Context {C : Collaborators}.

Ltac unfold_methods :=
  unfold executeBody, takeScreenshot, extractText, saveHtml, extractTables,
    extractLinks, clickElement, scroll, quit, on_page, sleep, writeResult.

Ltac split_branch :=
  match goal with
  | |- context [if ?b then _ else _] => destruct b eqn:?
  | |- context [match ?x with [] => _ | _ :: _ => _ end] => destruct x eqn:?
  end.

Ltac not_quit H :=
  exfalso; apply H; apply String.eqb_eq; assumption.

(** A command other than [quit] leaves the object as it was and adds only
    command entries to the log. *)
Lemma executeBody_stable (command : string) :
  JS.toLowerCase command <> "quit" ->
  stable eq command_event (executeBody command).
Proof.
  intros Hq. unfold_methods. cbv zeta.
  repeat (first
    [ apply stable_ret; [reflexivity]
    | apply stable_throw; [reflexivity]
    | apply stable_get; [reflexivity]
    | apply stable_act; [reflexivity | reflexivity]
    | apply stable_eff; [reflexivity | reflexivity]
    | apply stable_bind; [intros; etransitivity; eassumption | | intros ?]
    | apply stable_try_catch; [intros; etransitivity; eassumption | | intros ?]
    | split_branch; [ | ]
    | not_quit Hq ]).
Qed.

(** A command other than [quit] does not end the process. *)
Lemma executeBody_no_exit (command : string) :
  JS.toLowerCase command <> "quit" -> no_exit (executeBody command).
Proof.
  intros Hq. unfold_methods. cbv zeta.
  repeat (first
    [ apply no_exit_ret
    | apply no_exit_throw
    | apply no_exit_get
    | apply no_exit_act
    | apply no_exit_eff
    | apply no_exit_bind; [ | intros ?]
    | apply no_exit_try_catch; [ | intros ?]
    | split_branch; [ | ]
    | not_quit Hq ]).
Qed.



End Dispatcher.

(* ================================================================== *)
(** ** Runs of [executeCommand] *)
(* ================================================================== *)

Section Runs.
Context {C : Collaborators}.

Lemma same_session_refl (p : Pilot) : same_session p p.
Proof. repeat split. Qed.

Lemma command_events_quiet (new : list Event) :
  forallb command_event new = true ->
  dispatched new = [] /\ releases new = 0 /\
  forall path, reads path new = [].
Proof.
  induction new as [|e new IH]; simpl; intros H.
  - repeat split.
  - apply andb_prop in H as [He H]. destruct (IH H) as (D & R & F).
    destruct e as [A a r|A e v|code]; simpl in He; try discriminate.
    + destruct a; try discriminate; unfold releases in *; simpl;
        repeat split; auto; intros; destruct r; auto.
    + destruct e; try discriminate; unfold releases in *; simpl;
        repeat split; auto.
Qed.

(** [executeCommand] catches whatever its body throws. *)
Lemma executeCommand_catches (command : string) (s : State) :
  executeCommand command s =
  match executeBody command s with
  | (Throw msg, s') => (Ret ("ERROR: " ++ msg), s')
  | r => r
  end.
Proof. reflexivity. Qed.


(** A command that lowercases to [quit] runs the [quit] branch. *)
Lemma executeBody_quit (command : string) :
  JS.toLowerCase command = "quit" -> executeBody command = quit.
Proof. intros H. unfold executeBody. cbv zeta. rewrite H. reflexivity. Qed.

(** The run of a command other than [quit]. *)
Lemma executeCommand_other (command : string) (s : State) :
  JS.toLowerCase command <> "quit" ->
  exists result new,
    fst (executeCommand command s) = Ret result /\
    this (snd (executeCommand command s)) = this s /\
    log (snd (executeCommand command s)) = (new ++ log s)%list /\
    forallb command_event new = true.
Proof.
  intros Hq. rewrite executeCommand_catches.
  destruct (executeBody_stable command Hq s) as [K (new & E & F)].
  pose proof (executeBody_no_exit command Hq s) as X.
  destruct (executeBody command s) as [[a|m|code] s']; simpl in *.
  - exists a, new. auto.
  - exists ("ERROR: " ++ m), new. auto.
  - now destruct (X code).
Qed.

(** The run of [quit]: the flag falls, the resource is released once, and
    the process ends after the farewell line, unless the release fails. *)
Lemma quit_run (s : State) :
  running (this (snd (try_catch quit (fun msg => ret ("ERROR: " ++ msg)) s)))
    = false /\
  same_session (this s)
    (this (snd (try_catch quit (fun msg => ret ("ERROR: " ++ msg)) s))) /\
  exists new,
    log (snd (try_catch quit (fun msg => ret ("ERROR: " ++ msg)) s))
      = (new ++ log s)%list /\
    dispatched new = [] /\
    (forall path, reads path new = [] /\ writes path new = []) /\
    match release_of (this s) with
    | Some a =>
        releases new = 1 /\
        ((fst (try_catch quit (fun msg => ret ("ERROR: " ++ msg)) s) = Exit 0 /\
          new = [EvExit 0; EvEff (ConsoleLog LGoodbye) tt; EvAct a (Ok tt)])
         \/
         (exists msg,
            fst (try_catch quit (fun msg => ret ("ERROR: " ++ msg)) s)
              = Ret ("ERROR: " ++ msg) /\
            new = [EvAct a (Err msg)]))
    | None =>
        releases new = 0 /\
        fst (try_catch quit (fun msg => ret ("ERROR: " ++ msg)) s) = Exit 0 /\
        new = [EvExit 0; EvEff (ConsoleLog LGoodbye) tt]
    end.
Proof.
  unfold try_catch, quit, release_of, bind, modify, get, act, eff,
    process_exit, ret. cbn.
  destruct (browser (this s)) eqn:B; [|destruct (context (this s)) eqn:K];
    cbn;
    repeat match goal with
    | |- context [perform ?a ?w] =>
        destruct (perform a w) as [[[]|?] ?] eqn:?; cbn
    | |- context [react ?e ?w] =>
        destruct (react e w) as [[] ?] eqn:?; cbn
    end;
    repeat split; auto; eexists; repeat split; eauto; reflexivity.
Qed.

End Runs.

(* ================================================================== *)
(** ** Turns of the loop *)
(* ================================================================== *)

Section Turns.
Context {C : Collaborators}.

Lemma dispatched_app (a b : list Event) :
  dispatched (a ++ b) = (dispatched b ++ dispatched a)%list.
Proof.
  induction a as [|e a IH]; simpl.
  - now rewrite app_nil_r.
  - destruct (dispatch_of e); rewrite IH; [rewrite app_assoc|]; reflexivity.
Qed.

Lemma reads_app (path : string) (a b : list Event) :
  reads path (a ++ b) = (reads path b ++ reads path a)%list.
Proof.
  induction a as [|e a IH]; simpl.
  - now rewrite app_nil_r.
  - destruct e as [A x r|A x v|code]; try exact IH.
    destruct x; try exact IH. destruct r; try exact IH.
    destruct (path0 =? path); [rewrite IH, app_assoc|]; auto.
Qed.

Lemma releases_app (a b : list Event) :
  releases (a ++ b) = releases a + releases b.
Proof. unfold releases. now rewrite filter_app, length_app. Qed.

Lemma polling_events_quiet (new : list Event) :
  forallb polling_event new = true ->
  dispatched new = [] /\ releases new = 0 /\
  forall path, writes path new = [].
Proof.
  induction new as [|e new IH]; simpl; intros H.
  - repeat split.
  - apply andb_prop in H as [He H]. destruct (IH H) as (D & R & F).
    destruct e as [A a r|A e v|code]; simpl in He; try discriminate.
    + destruct a; try discriminate; unfold releases in *; simpl;
        repeat split; auto.
    + destruct e; try discriminate; unfold releases in *; simpl;
        repeat split; auto.
Qed.

(** The turn, call by call. *)
Lemma pollOnce_unfold (s : State) :
  pollOnce s =
  let path := commandPath (this s) in
  let '(found, w1) := react (FsExistsSync path) (world s) in
  let l1 := EvEff (FsExistsSync path) found :: log s in
  if negb found
  then (Ret tt, {| this := this s; world := w1; log := l1 |})
  else
    match perform (FsReadFileSync path) w1 with
    | (Err msg, w2) =>
        (Ret tt, {| this := this s; world := w2;
                    log := EvAct (FsReadFileSync path) (Err msg) :: l1 |})
    | (Ok content, w2) =>
        let l2 := EvAct (FsReadFileSync path) (Ok content) :: l1 in
        let c := JS.trim content in
        if negb (JS.truthy c) || (c =? lastCommand (this s))
        then (Ret tt, {| this := this s; world := w2; log := l2 |})
        else
          let '(u, w3) := react (ConsoleLog (LCommand c)) w2 in
          match executeCommand c
                  {| this := set_lastCommand c (this s); world := w3;
                     log := EvEff (ConsoleLog (LCommand c)) u :: l2 |} with
          | (Ret result, s4) =>
              let write := FsWriteFileSync (resultPath (this s4)) result in
              match perform write (world s4) with
              | (Ok v, w5) =>
                  let '(u', w6) := react (ConsoleLog LDone) w5 in
                  (Ret tt, {| this := this s4; world := w6;
                              log := EvEff (ConsoleLog LDone) u'
                                     :: EvAct write (Ok v) :: log s4 |})
              | (Err msg, w5) =>
                  (Ret tt, {| this := this s4; world := w5;
                              log := EvAct write (Err msg) :: log s4 |})
              end
          | (Throw _, s4) => (Ret tt, s4)
          | (Exit code, s4) => (Exit code, s4)
          end
    end.
Proof.
  unfold pollOnce, try_catch at 1, writeResult.
  unfold bind, get, eff, act, modify, ret. cbn.
  destruct (react (FsExistsSync (commandPath (this s))) (world s))
    as [[] w1]; cbn; [|reflexivity].
  destruct (perform (FsReadFileSync (commandPath (this s))) w1)
    as [[content|msg] w2]; cbn; [|reflexivity].
  destruct (negb (JS.truthy (JS.trim content))
            || (JS.trim content =? lastCommand (this s))); cbn;
    [reflexivity|].
  destruct (react (ConsoleLog (LCommand (JS.trim content))) w2) as [u w3]; cbn.
  match goal with
  | |- context [executeCommand ?c ?st] =>
      destruct (executeCommand c st) as [[result|m|code] s4]; cbn;
        try reflexivity
  end.
  destruct (perform (FsWriteFileSync (resultPath (this s4)) result) (world s4))
    as [[v|msg] w5]; cbn; [|reflexivity].
  destruct (react (ConsoleLog LDone) w5) as [[] w6]; reflexivity.
Qed.

(** The run of any command, as the loop sees it. *)
Lemma executeCommand_run (command : string) (s : State) :
  exists new,
    log (snd (executeCommand command s)) = (new ++ log s)%list /\
    same_session (this s) (this (snd (executeCommand command s))) /\
    (forall msg, fst (executeCommand command s) <> Throw msg) /\
    dispatched new = [] /\
    (forall path, reads path new = []) /\
    if is_quit command
    then running (this (snd (executeCommand command s))) = false /\
         releases new = held (this s) /\
         (fst (executeCommand command s) = Exit 0 \/
          exists result, fst (executeCommand command s) = Ret result)
    else this (snd (executeCommand command s)) = this s /\
         releases new = 0 /\
         exists result, fst (executeCommand command s) = Ret result.
Proof.
  unfold is_quit.
  destruct (JS.toLowerCase command =? "quit") eqn:Q.
  - apply String.eqb_eq in Q.
    unfold executeCommand. rewrite (executeBody_quit command Q).
    destruct (quit_run s) as (R & S & new & E & D & RW & X).
    exists new. repeat split; try assumption; try apply S; try apply RW.
    + intros msg H.
      destruct (release_of (this s));
        [destruct X as (_ & [[X _]|(m & X & _)])|destruct X as (_ & X & _)];
        rewrite X in H; discriminate.
    + unfold held. destruct (release_of (this s)); apply X.
    + destruct (release_of (this s));
        [destruct X as (_ & [[X _]|(m & X & _)])|destruct X as (_ & X & _)];
        eauto.
  - apply String.eqb_neq in Q.
    destruct (executeCommand_other command s Q) as (result & new & R & T & E & F).
    destruct (command_events_quiet new F) as (D & L & RD).
    exists new. rewrite T, R. repeat split; try assumption.
    + intros msg. discriminate.
    + now exists result.
Qed.

Ltac idle :=
  cbn; split; [reflexivity|]; split; [repeat split|];
  split; [intros; discriminate|]; left; repeat split.

(** One turn of the loop: either it finds no new command and leaves the
    object alone, or it dispatches the trimmed content it read, exactly
    once, after recording it as the last command. *)
Lemma pollOnce_turn (s : State) :
  exists new,
    log (snd (pollOnce s)) = (new ++ log s)%list /\
    same_setup (this s) (this (snd (pollOnce s))) /\
    (forall msg, fst (pollOnce s) <> Throw msg) /\
    ((fst (pollOnce s) = Ret tt /\
      this (snd (pollOnce s)) = this s /\
      forallb polling_event new = true)
     \/
     (exists content,
        let c := JS.trim content in
        c <> "" /\ c <> lastCommand (this s) /\
        dispatched new = [c] /\
        reads (commandPath (this s)) new = [content] /\
        lastCommand (this (snd (pollOnce s))) = c /\
        if is_quit c
        then running (this (snd (pollOnce s))) = false /\
             releases new = held (this s) /\
             (fst (pollOnce s) = Exit 0 \/ fst (pollOnce s) = Ret tt)
        else running (this (snd (pollOnce s))) = running (this s) /\
             releases new = 0 /\
             fst (pollOnce s) = Ret tt)).
Proof.
  rewrite pollOnce_unfold. cbv zeta.
  destruct (react (FsExistsSync (commandPath (this s))) (world s))
    as [[] w1] eqn:EX; cbn [negb].
  2:{ eexists [_]. idle. }
  destruct (perform (FsReadFileSync (commandPath (this s))) w1)
    as [[content|msg] w2] eqn:RD.
  2:{ eexists [_; _]. idle. }
  destruct (negb (JS.truthy (JS.trim content))
            || (JS.trim content =? lastCommand (this s))) eqn:G.
  { eexists [_; _]. idle. }
  apply orb_false_elim in G as [G1 G2].
  apply negb_false_iff in G1. apply String.eqb_neq in G2.
  assert (NE : JS.trim content <> "").
  { intros E. rewrite E in G1. discriminate. }
  destruct (react (ConsoleLog (LCommand (JS.trim content))) w2)
    as [[] w3] eqn:CL.
  match goal with
  | |- context [executeCommand ?c ?st] =>
      destruct (executeCommand_run c st)
        as (new & E & S & NT & D & R & X);
      destruct (executeCommand c st) as [[result|m|code] s4] eqn:EC
  end; cbn [fst snd this log world] in *.
  - (* the command returned: its result is written *)
    destruct (perform (FsWriteFileSync (resultPath (this s4)) result) (world s4))
      as [[v|msg] w5] eqn:WR;
      [destruct (react (ConsoleLog LDone) w5) as [[] w6] eqn:DN|];
      cbn [fst snd this log world];
      [ exists ([EvEff (ConsoleLog LDone) tt;
                 EvAct (FsWriteFileSync (resultPath (this s4)) result) (Ok v)]
                ++ new
                ++ [EvEff (ConsoleLog (LCommand (JS.trim content))) tt;
                    EvAct (FsReadFileSync (commandPath (this s))) (Ok content);
                    EvEff (FsExistsSync (commandPath (this s))) true])%list
      | exists ([EvAct (FsWriteFileSync (resultPath (this s4)) result) (Err msg)]
                ++ new
                ++ [EvEff (ConsoleLog (LCommand (JS.trim content))) tt;
                    EvAct (FsReadFileSync (commandPath (this s))) (Ok content);
                    EvEff (FsExistsSync (commandPath (this s))) true])%list ];
      (split; [rewrite E, <- !app_assoc; reflexivity|]);
      (split; [destruct S as (S1 & S2 & S3 & S4 & S5 & S6 & S7);
               repeat split; assumption|]);
      (split; [intros; discriminate|]);
      right; exists content; cbv zeta;
      (split; [exact NE|]); (split; [exact G2|]);
      (split; [rewrite !dispatched_app, D; reflexivity|]);
      (split; [rewrite !reads_app, R; cbn; rewrite String.eqb_refl; reflexivity|]);
      (split; [apply S|]);
      rewrite !releases_app;
      destruct (is_quit (JS.trim content)).
    all: destruct X as (X1 & X2 & X3); cbn; rewrite ?Nat.add_0_r.
    all: repeat split; auto; try exact X2.
    all: rewrite X1; reflexivity.
  - (* it cannot throw *)
    now destruct (NT m).
  - (* the process is gone *)
    exists (new
            ++ [EvEff (ConsoleLog (LCommand (JS.trim content))) tt;
                EvAct (FsReadFileSync (commandPath (this s))) (Ok content);
                EvEff (FsExistsSync (commandPath (this s))) true])%list.
    split; [rewrite E, <- !app_assoc; reflexivity|].
    split; [destruct S as (S1 & S2 & S3 & S4 & S5 & S6 & S7);
            repeat split; assumption|].
    split; [intros; discriminate|].
    right. exists content. cbv zeta.
    split; [exact NE|]. split; [exact G2|].
    split; [rewrite !dispatched_app, D; reflexivity|].
    split; [rewrite !reads_app, R; cbn; rewrite String.eqb_refl; reflexivity|].
    split; [apply S|].
    rewrite !releases_app.
    destruct (is_quit (JS.trim content)).
    + destruct X as (X1 & X2 & [X3|[r X3]]); [|discriminate].
      cbn. rewrite Nat.add_0_r. inversion X3. repeat split; auto.
    + destruct X as (X1 & X2 & [r X3]). discriminate.
Qed.

End Turns.

(* ================================================================== *)
(** ** Runs of the loop *)
(* ================================================================== *)

Section Loop.
Context {C : Collaborators}.

(** The loop, turn by turn. *)
Lemma pollCommands_unfold (n : nat) (s : State) :
  pollCommands (S n) s =
  if running (this s)
  then
    let '(u, w) := react (Sleep (pollInterval (config (this s)))) (world s) in
    match pollOnce {| this := this s; world := w;
                      log := EvEff (Sleep (pollInterval (config (this s)))) u
                             :: log s |} with
    | (Ret _, s1) => pollCommands n s1
    | (Throw msg, s1) => (Throw msg, s1)
    | (Exit code, s1) => (Exit code, s1)
    end
  else (Ret tt, s).
Proof.
  cbn [pollCommands]. unfold bind at 1, get at 1. cbn.
  destruct (running (this s)); [|reflexivity].
  unfold bind at 1, get at 1. cbn.
  unfold bind at 1, sleep, eff at 1.
  destruct (react (Sleep (pollInterval (config (this s)))) (world s)) as [u w].
  cbn. unfold bind at 1. reflexivity.
Qed.

Lemma pollCommands_stopped (n : nat) (s : State) :
  running (this s) = false -> pollCommands n s = (Ret tt, s).
Proof.
  intros H. destruct n; [reflexivity|].
  rewrite pollCommands_unfold, H. reflexivity.
Qed.

Lemma held_same_setup (p q : Pilot) : same_setup p q -> held q = held p.
Proof.
  intros (B & K & _). unfold held, release_of. now rewrite B, K.
Qed.

Lemma same_setup_trans (p q r : Pilot) :
  same_setup p q -> same_setup q r -> same_setup p r.
Proof.
  unfold same_setup.
  intros (A1 & A2 & A3 & A4 & A5 & A6) (B1 & B2 & B3 & B4 & B5 & B6).
  repeat split; congruence.
Qed.

(** What a run of the loop leaves in the log. *)
Lemma pollCommands_shape (n : nat) (s : State) :
  exists new,
    log (snd (pollCommands n s)) = (new ++ log s)%list /\
    same_setup (this s) (this (snd (pollCommands n s))) /\
    (forall msg, fst (pollCommands n s) <> Throw msg) /\
    chain (lastCommand (this s)) (dispatched new) /\
    releases new
      = (if existsb is_quit (dispatched new) then held (this s) else 0) /\
    (existsb is_quit (dispatched new) = false ->
     running (this (snd (pollCommands n s))) = running (this s) /\
     fst (pollCommands n s) = Ret tt) /\
    Forall (fun c => exists content,
                In content (reads (commandPath (this s)) new) /\
                c = JS.trim content)
           (dispatched new).
Proof.
  revert s. induction n as [|n IH]; intros s.
  { exists []. cbn. repeat split; auto. discriminate. }
  rewrite pollCommands_unfold.
  destruct (running (this s)) eqn:RUN.
  2:{ exists []. cbn. repeat split; auto. discriminate. }
  destruct (react (Sleep (pollInterval (config (this s)))) (world s))
    as [[] w] eqn:SL.
  set (zz := EvEff (Sleep (pollInterval (config (this s)))) tt).
  set (s0 := {| this := this s; world := w; log := zz :: log s |}).
  destruct (pollOnce_turn s0) as (new1 & E1 & S1 & NT1 & T).
  destruct (pollOnce s0) as [[[]|m|code] s1] eqn:P1;
    subst s0; cbn [fst snd this log world] in *.
  - (* the turn returned: the loop goes on from [s1] *)
    destruct (IH s1) as (new2 & E2 & S2 & NT2 & CH2 & RL2 & RN2 & RD2).
    exists (new2 ++ new1 ++ [zz])%list.
    split; [rewrite E2, E1, <- !app_assoc; reflexivity|].
    split; [eapply same_setup_trans; eassumption|].
    split; [exact NT2|].
    rewrite !dispatched_app, !releases_app.
    assert (P : commandPath (this s1) = commandPath (this s)) by apply S1.
    rewrite P in RD2. rewrite (held_same_setup _ _ S1) in RL2.
    destruct T as [(_ & T & Q)|(content & T)].
    + (* an idle turn *)
      destruct (polling_events_quiet new1 Q) as (D & R & _).
      rewrite D, R, T in *. cbn. rewrite Nat.add_0_r.
      rewrite RUN in RN2.
      split; [exact CH2|]. split; [exact RL2|]. split; [exact RN2|].
      eapply Forall_impl; [|exact RD2].
      intros c (x & I & X). exists x. split; [|assumption].
      rewrite !reads_app. apply in_or_app. now right.
    + (* a dispatch *)
      cbv zeta in T. destruct T as (NE & NL & D & R & L & X).
      rewrite D, L in *. cbn [app dispatched dispatch_of zz].
      cbn [existsb chain].
      destruct (is_quit (JS.trim content)) eqn:Q.
      * destruct X as (X1 & X2 & _).
        rewrite (pollCommands_stopped n s1 X1) in E2.
        cbn in E2. symmetry in E2.
        apply (app_inv_tail (log s1) new2 []) in E2. subst new2.
        cbn. rewrite Nat.add_0_r.
        repeat split; auto; try discriminate.
        constructor; [|constructor].
        exists content. split; [|reflexivity].
        rewrite !reads_app, R. cbn. now left.
      * destruct X as (X1 & X2 & _).
        rewrite X2. cbn [orb]. cbn.
        repeat split; auto; try discriminate.
        -- rewrite Nat.add_0_r. exact RL2.
        -- destruct RN2 as (A & B); [assumption|]. congruence.
        -- now apply RN2.
        -- constructor.
           ++ exists content. split; [|reflexivity].
              rewrite !reads_app, R. cbn. now left.
           ++ eapply Forall_impl; [|exact RD2].
              intros c (x & I & Y). exists x. split; [|assumption].
              rewrite !reads_app, R. cbn. now right.
  - now destruct (NT1 m).
  - (* the process is gone *)
    exists (new1 ++ [zz])%list.
    split; [rewrite E1, <- !app_assoc; reflexivity|].
    split; [exact S1|].
    split; [intros; discriminate|].
    rewrite !dispatched_app, !releases_app.
    destruct T as [(T & _)|(content & T)]; [discriminate|].
    cbv zeta in T. destruct T as (NE & NL & D & R & L & X).
    rewrite D. cbn [app dispatched dispatch_of zz existsb chain].
    destruct (is_quit (JS.trim content)) eqn:Q.
    + destruct X as (X1 & X2 & _). cbn. rewrite Nat.add_0_r.
      repeat split; auto; try discriminate.
      constructor; [|constructor].
      exists content. split; [|reflexivity].
      rewrite !reads_app, R. cbn. now left.
    + destruct X as (_ & _ & X). discriminate.
Qed.

End Loop.

(* ================================================================== *)
(** ** Parsing of the command text *)
(* ================================================================== *)

Section Grammar.
Context {C : Collaborators}.

(** Text the dispatcher does not recognise falls through every test. *)
Lemma executeBody_unknown (command : string) :
  recognized command = false ->
  executeBody command = ret ("ERROR: Unknown command: " ++ command).
Proof.
  unfold recognized, exact_tags, prefixed_tags. cbn [existsb].
  intros H.
  repeat match goal with
         | X : (_ || _) = false |- _ => apply orb_false_elim in X as [? ?]
         end.
  unfold executeBody. cbv zeta.
  repeat match goal with
         | X : (_ =? _) = false |- _ => rewrite X; clear X
         end.
  cbn [String.append] in *.
  repeat match goal with
         | X : JS.startsWith _ _ = false |- _ => rewrite X; clear X
         end.
  reflexivity.
Qed.

Lemma executeCommand_unknown (command : string) (s : State) :
  recognized command = false ->
  executeCommand command s = (Ret ("ERROR: Unknown command: " ++ command), s).
Proof.
  intros H. unfold executeCommand. rewrite (executeBody_unknown command H).
  reflexivity.
Qed.

(** The [type:] branch: what follows the tag is split at its colons, the
    first piece is the selector and the other pieces, joined again, are
    the text; both are trimmed. *)
Lemma executeBody_type (rest : string) :
  executeBody ("type:" ++ rest) =
  match JS.split ":" rest with
  | [] => throw (undefined_read "trim")
  | part0 :: more =>
      on_page "fill"
        (act (PageFill (JS.trim part0) (JS.trim (JS.join ":" more)))) ;;
      ret ("Typed " ++ dquote ++ JS.trim (JS.join ":" more) ++ dquote
           ++ " into " ++ JS.trim part0)
  end.
Proof. reflexivity. Qed.

(** The [wait:] branch. *)
Lemma executeBody_wait (rest : string) :
  executeBody ("wait:" ++ rest) =
  let seconds := JS.number_or (JS.parseInt (JS.trim rest)) 2 in
  sleep (seconds * 1000) ;;
  ret ("Waited " ++ JS.numberToString seconds ++ " seconds").
Proof. reflexivity. Qed.

(** The [scroll:] branch. *)
Lemma executeBody_scroll (rest : string) :
  executeBody ("scroll:" ++ rest) = scroll (JS.toLowerCase (JS.trim rest)).
Proof. reflexivity. Qed.

(** A direction that is none of the four falls to the [default] case. *)
Lemma scroll_unknown (direction : string) :
  ~ In direction scroll_directions ->
  scroll direction = ret ("Unknown scroll direction: " ++ direction).
Proof.
  unfold scroll_directions, scroll. cbn [In]. intros H.
  repeat match goal with
         | |- context [direction =? ?d] =>
             destruct (String.eqb_spec direction d) as [E|_];
               [exfalso; apply H; rewrite E; tauto|]
         end.
  reflexivity.
Qed.

(** White space only, the empty string included. *)
Lemma trimStart_all_space (s : string) :
  lacks_text s = true -> JS.trimStart s = "".
Proof.
  induction s as [|c r IH]; cbn [lacks_text JS.trimStart]; intros H.
  - reflexivity.
  - apply andb_prop in H as [Hc Hr]. rewrite Hc. now apply IH.
Qed.

Lemma trim_all_space (s : string) : lacks_text s = true -> JS.trim s = "".
Proof. intros H. unfold JS.trim. now rewrite trimStart_all_space. Qed.

End Grammar.

(* ================================================================== *)
(** ** Properties of the poll loop *)
(* ================================================================== *)

Section LoopProperties.
Context {C : Collaborators}.






(** C9. A turn that finds the command file missing, fails to read it, or
    reads white space only is a turn without a command: it ends normally,
    leaves the object (and so [lastCommand] and [running]) untouched,
    dispatches nothing, writes no file, and the loop goes on with its next
    turn. *)
Theorem poll_ignores_no_command (s : State) :
  no_new_command s ->
  fst (pollOnce s) = Ret tt /\
  this (snd (pollOnce s)) = this s /\
  (exists new,
     log (snd (pollOnce s)) = (new ++ log s)%list /\
     forallb polling_event new = true /\
     dispatched new = [] /\
     forall path, writes path new = []) /\
  forall turns t,
    running (this t) = true -> after_sleep t = s ->
    pollCommands (S turns) t = pollCommands turns (snd (pollOnce s)).
Proof.
  unfold no_new_command. cbv zeta. intros H.
  assert (P : fst (pollOnce s) = Ret tt /\
              this (snd (pollOnce s)) = this s /\
              exists new,
                log (snd (pollOnce s)) = (new ++ log s)%list /\
                forallb polling_event new = true).
  { rewrite pollOnce_unfold. cbv zeta.
    destruct (react (FsExistsSync (commandPath (this s))) (world s))
      as [found w1]. cbn [fst snd] in H.
    destruct found; cbn [negb].
    2:{ repeat split. now eexists [_]. }
    destruct H as [H|H]; [discriminate|].
    destruct (perform (FsReadFileSync (commandPath (this s))) w1)
      as [[content|msg] w2]; cbn [fst] in H.
    - rewrite (trim_all_space content H). cbn.
      repeat split. now eexists [_; _].
    - repeat split. now eexists [_; _]. }
  destruct P as (R & T & new & E & Q).
  split; [exact R|]. split; [exact T|]. split.
  - exists new. destruct (polling_events_quiet new Q) as (D & _ & W). auto.
  - intros turns t RUN A. rewrite pollCommands_unfold, RUN.
    unfold after_sleep, sleep, eff in A.
    destruct (react (Sleep (pollInterval (config (this t)))) (world t))
      as [u w]. cbn in A. rewrite A.
    destruct (pollOnce s) as [[[]|m|code] s1]; cbn in R;
      try discriminate. reflexivity.
Qed.

End LoopProperties.


(** A turn in the scripted world that reads blanks only. *)
Lemma poll_ignores_no_command_witness :
  no_new_command (C := Demo.collaborators) (Demo.session ["  "] false) /\
  this (snd (pollOnce (C := Demo.collaborators) (Demo.session ["  "] false)))
  = Demo.launched.
Proof.
  assert (H : no_new_command (C := Demo.collaborators)
                (Demo.session ["  "] false)).
  { right. reflexivity. }
  split; [exact H|].
  apply (poll_ignores_no_command (C := Demo.collaborators) _ H).
Defined.

(* ================================================================== *)
(** ** Properties of the dispatcher *)
(* ================================================================== *)

Section DispatcherProperties.
Context {C : Collaborators}.

(** The [wait:] command, whatever its argument: the number of seconds is
    the integer [parseInt] reads, or 2 when that is [NaN] or 0; the loop
    sleeps that long and says so. *)
Lemma executeCommand_wait (arg : string) (s : State) :
  let seconds := JS.number_or (JS.parseInt (JS.trim arg)) 2 in
  executeCommand ("wait:" ++ arg) s =
  (Ret ("Waited " ++ JS.numberToString seconds ++ " seconds"),
   {| this := this s;
      world := snd (react (Sleep (seconds * 1000)) (world s));
      log := EvEff (Sleep (seconds * 1000)) tt :: log s |}).
Proof.
  cbv zeta. unfold executeCommand. rewrite executeBody_wait. cbv zeta.
  unfold try_catch, bind, sleep, eff.
  destruct (react (Sleep (JS.number_or (JS.parseInt (JS.trim arg)) 2 * 1000))
              (world s)) as [[] w].
  reflexivity.
Qed.


(** An unparsable argument gives the default. *)
Lemma wait_unparsable (arg : string) :
  JS.parseInt (JS.trim arg) = None ->
  JS.number_or (JS.parseInt (JS.trim arg)) 2 = 2%Z.
Proof. intros H. now rewrite H. Qed.

(** C5, at [wait:0].  The argument parses, as the integer 0; the command
    sleeps 2000 ms and answers [Waited 2 seconds]: the default replaces
    the parsed 0. *)
Theorem wait_zero_waits_two_seconds (s : State) :
  JS.parseInt (JS.trim "0") = Some 0%Z /\
  executeCommand "wait:0" s =
  (Ret "Waited 2 seconds",
   {| this := this s;
      world := snd (react (Sleep 2000) (world s));
      log := EvEff (Sleep 2000) tt :: log s |}).
Proof. split; [reflexivity|]. apply (executeCommand_wait "0" s). Qed.

(** C6. A [scroll:] command whose direction, trimmed and lowercased, is
    none of [up], [down], [top], [bottom] answers
    [Unknown scroll direction: <direction>]; nothing is thrown, no call
    is made, and the whole state (the object with its [running] flag, the
    world, the log) is as before, so the loop goes on. *)
Theorem scroll_unknown_direction (arg : string) (s : State) :
  ~ In (JS.toLowerCase (JS.trim arg)) scroll_directions ->
  executeCommand ("scroll:" ++ arg) s =
  (Ret ("Unknown scroll direction: " ++ JS.toLowerCase (JS.trim arg)), s).
Proof.
  intros H. unfold executeCommand.
  rewrite executeBody_scroll, (scroll_unknown _ H). reflexivity.
Qed.

(** C4, amended.  In [type:<selector>:<text>] the argument is cut at the
    first colon after the selector: the selector is what stands before
    that colon and the text is everything after it, colons included, and
    both are trimmed of surrounding white space before the text is filled
    into the selector. *)
Theorem type_cuts_at_first_colon (selector text : string) (s : State) :
  lacks ":" selector = true ->
  page (this s) = true ->
  executeCommand ("type:" ++ selector ++ ":" ++ text) s =
  let fill := PageFill (JS.trim selector) (JS.trim text) in
  (match fst (perform fill (world s)) with
   | Ok _ => Ret ("Typed " ++ dquote ++ JS.trim text ++ dquote
                  ++ " into " ++ JS.trim selector)
   | Err msg => Ret ("ERROR: " ++ msg)
   end,
   {| this := this s;
      world := snd (perform fill (world s));
      log := EvAct fill (fst (perform fill (world s))) :: log s |}).
Proof.
  intros L P. unfold executeCommand. rewrite executeBody_type.
  change (selector ++ ":" ++ text) with (selector ++ String ":" text).
  rewrite (split_first ":" selector text L).
  change ":" with (String ":" EmptyString) at 1 2.
  rewrite join_split.
  unfold try_catch, on_page, bind, get, act, ret. rewrite P. cbv zeta.
  destruct (perform (PageFill (JS.trim selector) (JS.trim text)) (world s))
    as [[[]|msg] w]; reflexivity.
Qed.

(** C8. The exact tags are matched on the lowercased command: a command
    that lowercases to such a tag is dispatched exactly as the tag itself
    is, in every state; and the tag takes no argument: followed by a colon
    and anything, it is no command at all. *)
Theorem exact_tags_ignore_case (tag : string) :
  In tag exact_tags ->
  (forall command,
     JS.toLowerCase command = tag ->
     executeCommand command = executeCommand tag) /\
  (forall arg s,
     executeCommand (tag ++ ":" ++ arg) s =
     (Ret ("ERROR: Unknown command: " ++ tag ++ ":" ++ arg), s)).
Proof.
  unfold exact_tags. cbn [In]. intros H.
  repeat (destruct H as [H|H]); try contradiction; subst tag; split;
    try (intros command H; unfold executeCommand, executeBody; cbv zeta;
         rewrite H; reflexivity);
    intros arg s; apply executeCommand_unknown; reflexivity.
Qed.

(** C10. The prefixed tags are matched on the command as written: a
    command whose tag lowercases to [goto], [click], [type], [wait] or
    [scroll] without being it makes no call and answers
    [ERROR: Unknown command: <command>]. *)
Theorem prefixed_tags_are_case_sensitive (tag p rest : string) (s : State) :
  In p prefixed_tags ->
  JS.toLowerCase tag = p ->
  tag <> p ->
  executeCommand (tag ++ ":" ++ rest) s =
  (Ret ("ERROR: Unknown command: " ++ tag ++ ":" ++ rest), s).
Proof.
  intros I L N. apply executeCommand_unknown.
  assert (LT : lacks ":" tag = true).
  { rewrite <- toLowerCase_lacks_colon, L.
    unfold prefixed_tags in I. cbn [In] in I.
    repeat (destruct I as [I|I]); try contradiction; subst p; reflexivity. }
  unfold recognized. apply orb_false_intro.
  - rewrite toLowerCase_app, L.
    unfold prefixed_tags in I. cbn [In] in I.
    repeat (destruct I as [I|I]); try contradiction; subst p; reflexivity.
  - unfold prefixed_tags. cbn [existsb].
    repeat match goal with
    | |- context [JS.startsWith (?q ++ ":") ?c] =>
        let E := fresh "E" in
        destruct (JS.startsWith (q ++ ":") c) eqn:E;
          [ apply startsWith_tag in E; [|reflexivity|exact LT];
            exfalso; apply N; rewrite <- E in L |- *;
            rewrite <- L; reflexivity
          | ]
    end.
    reflexivity.
Qed.

End DispatcherProperties.

(** [type:#field:hello:world] fills [hello:world] into [#field]. *)
Lemma type_cuts_at_first_colon_witness :
  executeCommand (C := Demo.collaborators) "type:#field:hello:world"
    (Demo.session [] false)
  = (Ret ("Typed " ++ dquote ++ "hello:world" ++ dquote ++ " into #field"),
     @Build_State Demo.collaborators Demo.launched
       {| Demo.feed := []; Demo.broken := false |}
       [EvAct (PageFill "#field" "hello:world") (Ok tt)]).
Proof.
  apply (type_cuts_at_first_colon (C := Demo.collaborators) "#field"
           "hello:world" (Demo.session [] false));
    reflexivity.
Defined.

(** The text is not everything after the first colon: white space around
    it is dropped.  After the colon of [type:#field: hello:world] stands
    [ hello:world]; [hello:world] is filled. *)
Lemma type_text_is_trimmed :
  JS.substring 12 "type:#field: hello:world" = " hello:world" /\
  log (snd (executeCommand (C := Demo.collaborators)
              "type:#field: hello:world" (Demo.session [] false)))
  = [EvAct (PageFill "#field" "hello:world") (Ok tt)] /\
  "hello:world" <> " hello:world".
Proof.
  split; [reflexivity|]. split; [vm_compute; reflexivity|].
  intros H. discriminate H.
Qed.

(** [scroll:sideways] *)
Lemma scroll_unknown_direction_witness :
  executeCommand (C := Demo.collaborators) "scroll:sideways"
    (Demo.session [] false)
  = (Ret "Unknown scroll direction: sideways", Demo.session [] false).
Proof.
  apply (scroll_unknown_direction (C := Demo.collaborators) "sideways").
  cbn. intuition discriminate.
Defined.

(** [QUIT] is [quit], and [quit:now] is nothing. *)
Lemma exact_tags_ignore_case_witness :
  executeCommand (C := Demo.collaborators) "QUIT"
  = executeCommand (C := Demo.collaborators) "quit" /\
  executeCommand (C := Demo.collaborators) "quit:now" (Demo.session [] false)
  = (Ret "ERROR: Unknown command: quit:now", Demo.session [] false).
Proof.
  assert (I : In "quit" exact_tags) by (cbn; tauto).
  destruct (exact_tags_ignore_case (C := Demo.collaborators) "quit" I)
    as [A B].
  split; [apply A; reflexivity|apply (B "now")].
Defined.

(** [GOTO:https://example.com] *)
Lemma prefixed_tags_are_case_sensitive_witness :
  executeCommand (C := Demo.collaborators) "GOTO:https://example.com"
    (Demo.session [] false)
  = (Ret "ERROR: Unknown command: GOTO:https://example.com",
     Demo.session [] false).
Proof.
  apply (prefixed_tags_are_case_sensitive (C := Demo.collaborators)
           "GOTO" "goto" "https://example.com").
  - cbn. tauto.
  - reflexivity.
  - discriminate.
Defined.

(* ================================================================== *)
(** ** The session: start, RUNNING, STOPPED *)
(* ================================================================== *)

Section Session.
Context {C : Collaborators}.

Lemma keeps_running_refl (p : Pilot) : keeps_running p p.
Proof. reflexivity. Qed.

Lemma keeps_running_trans (p q r : Pilot) :
  keeps_running p q -> keeps_running q r -> keeps_running p r.
Proof. unfold keeps_running. congruence. Qed.

Lemma fails_stopped_bind {A B} (m : M A) (k : A -> M B) :
  stable keeps_running no_dispatch m ->
  (forall a, fails_stopped (k a)) ->
  fails_stopped (bind m k).
Proof.
  intros Hm Hk s. unfold bind. specialize (Hm s).
  destruct (m s) as [[a|msg|code] s1]; cbn [fst snd] in *; intros F.
  - eapply framed_trans;
      [apply keeps_running_trans|exact Hm|apply Hk; exact F].
  - exact Hm.
  - exact Hm.
Qed.

Lemma no_dispatch_quiet (new : list Event) :
  forallb no_dispatch new = true -> dispatched new = [].
Proof.
  induction new as [|e new IH]; cbn; intros H; [reflexivity|].
  apply andb_prop in H as [He H]. unfold no_dispatch in He.
  destruct (dispatch_of e); [discriminate|]. now apply IH.
Qed.

(** The loop ends by returning or by the exit of [quit]. *)
Lemma pollCommands_outcome (n : nat) (s : State) :
  fst (pollCommands n s) = Ret tt \/ fst (pollCommands n s) = Exit 0.
Proof.
  revert s. induction n as [|n IH]; intros s; [now left|].
  rewrite pollCommands_unfold.
  destruct (running (this s)); [|now left].
  destruct (react (Sleep (pollInterval (config (this s)))) (world s))
    as [u w].
  match goal with
  | |- context [pollOnce ?st] =>
      destruct (pollOnce_turn st) as (new & _ & _ & NT & T);
      destruct (pollOnce st) as [[[]|m|code] s1]
  end; cbn [fst snd] in *.
  - apply IH.
  - now destruct (NT m).
  - destruct T as [(T & _)|(content & T)]; [discriminate|].
    cbv zeta in T. destruct T as (_ & _ & _ & _ & _ & T).
    destruct (is_quit (JS.trim content)).
    + destruct T as (_ & _ & [T|T]); [now right|discriminate].
    + destruct T as (_ & _ & T). discriminate.
Qed.

Lemma fails_stopped_loop (n : nat) :
  fails_stopped (modify (set_running true) ;; pollCommands n).
Proof.
  intros s. unfold bind, modify. cbn.
  match goal with
  | |- context [pollCommands n ?st] =>
      destruct (pollCommands_outcome n st) as [H|H];
      destruct (pollCommands n st) as [r s1]
  end; cbn [fst snd] in *; subst r;
    intros [F|[msg F]]; discriminate.
Qed.

Ltac stable_step :=
  first
    [ apply stable_ret; [exact keeps_running_refl]
    | apply stable_throw; [exact keeps_running_refl]
    | apply stable_get; [exact keeps_running_refl]
    | apply stable_act; [exact keeps_running_refl | reflexivity]
    | apply stable_eff; [exact keeps_running_refl | reflexivity]
    | apply stable_exit; [exact keeps_running_refl | reflexivity]
    | apply stable_modify; reflexivity
    | apply stable_bind; [exact keeps_running_trans | | intros ?]
    | apply stable_try_catch; [exact keeps_running_trans | | intros ?]
    | match goal with
      | |- stable _ _ (if ?b then _ else _) => destruct b
      | |- stable _ _ (match ?x with Some _ => _ | None => _ end) =>
          destruct x
      end ].

(** A start that ends on a startup error never was RUNNING. *)
Lemma start_fails_stopped (initialUrl : option string) (turns : nat) :
  fails_stopped (start initialUrl turns).
Proof.
  unfold start, displayProfileLockedError, isBrowserRunning, clearFile,
    writeResult, on_page.
  apply fails_stopped_bind; [solve [repeat stable_step]|intros cfg].
  cbv zeta.
  repeat (apply fails_stopped_bind; [solve [repeat stable_step]|intros ?]).
  apply fails_stopped_loop.
Qed.

(** C7. The [running] flag changes on [quit] alone.  A dispatched command
    other than [quit] leaves the whole object as it was; a run of the
    loop that starts RUNNING and ends STOPPED has dispatched a [quit];
    and a start that ends on a startup error (exit status 1, or an error
    thrown) has never set the flag nor dispatched a command. *)
Theorem running_changes_only_on_quit :
  (forall command s,
     JS.toLowerCase command <> "quit" ->
     this (snd (executeCommand command s)) = this s) /\
  (forall turns s,
     running (this s) = true ->
     running (this (snd (pollCommands turns s))) = false ->
     exists new,
       log (snd (pollCommands turns s)) = (new ++ log s)%list /\
       existsb is_quit (dispatched new) = true) /\
  (forall initialUrl turns s,
     running (this s) = false ->
     startup_failure (fst (start initialUrl turns s)) ->
     running (this (snd (start initialUrl turns s))) = false /\
     exists new,
       log (snd (start initialUrl turns s)) = (new ++ log s)%list /\
       dispatched new = []).
Proof.
  split; [|split].
  - intros command s Q.
    destruct (executeCommand_other command s Q) as (r & new & _ & T & _).
    exact T.
  - intros turns s R0 R1.
    destruct (pollCommands_shape turns s)
      as (new & E & _ & _ & _ & _ & RN & _).
    exists new. split; [exact E|].
    destruct (existsb is_quit (dispatched new)); [reflexivity|].
    destruct RN as [RN _]; [reflexivity|]. congruence.
  - intros initialUrl turns s R0 F.
    destruct (start_fails_stopped initialUrl turns s F)
      as [K (new & E & Q)].
    split; [unfold keeps_running in K; congruence|].
    exists new. split; [exact E|]. now apply no_dispatch_quiet.
Qed.

End Session.

(* ================================================================== *)
(** ** Errors and [quit] *)
(* ================================================================== *)

Section Errors.
Context {C : Collaborators}.



End Errors.





(** A command that is not [quit], a loop that meets [quit], and a start
    whose launch fails. *)
Lemma running_changes_only_on_quit_witness :
  this (snd (executeCommand (C := Demo.collaborators) "title"
               (Demo.session [] false))) = Demo.launched /\
  (exists new,
     log (snd (pollCommands (C := Demo.collaborators) 2
                 (Demo.session ["quit"] false))) = (new ++ [])%list /\
     existsb is_quit (dispatched new) = true) /\
  running
    (this (snd (start (C := Demo.collaborators) None 5
                  (Demo.fresh (DEFAULT_CONFIG "/work") true)))) = false.
Proof.
  destruct (running_changes_only_on_quit (C := Demo.collaborators))
    as (A & B & S).
  split; [|split].
  - apply (A "title" (Demo.session [] false)). discriminate.
  - apply (B 2 (Demo.session ["quit"] false)); reflexivity.
  - apply (S None 5 (Demo.fresh (DEFAULT_CONFIG "/work") true)).
    + reflexivity.
    + right. eexists. reflexivity.
Defined.
(* ================================================================== *)
(** ** The loop as a filter of the command file *)
(* ================================================================== *)

Section Mailbox.
Context {C : Collaborators}.






End Mailbox.

(* ================================================================== *)
(** ** The files the loop writes *)
(* ================================================================== *)

Section Files.
Context {C : Collaborators}.

Lemma confined_ret {A} (p0 : Pilot) (a : A) : confined p0 (ret a).
Proof. intros s H. split; [exact H|]. now exists []. Qed.

Lemma confined_throw {A} (p0 : Pilot) (msg : string) :
  confined p0 (throw (A := A) msg).
Proof. intros s H. split; [exact H|]. now exists []. Qed.

Lemma confined_act {A} (p0 : Pilot) (a : Action A) :
  (forall r, writes_within (side_files p0) (EvAct a r)) ->
  confined p0 (act a).
Proof.
  intros W s H. unfold act.
  destruct (perform a (world s)) as [[v|msg] w]; cbn;
    (split; [exact H|]); eexists [_]; (split; [reflexivity|]);
    constructor; auto.
Qed.

Lemma confined_eff {A} (p0 : Pilot) (e : Effect A) : confined p0 (eff e).
Proof.
  intros s H. unfold eff.
  destruct (react e (world s)) as [v w]; cbn.
  split; [exact H|]. eexists [_]. split; [reflexivity|].
  constructor; [exact I|constructor].
Qed.

Lemma confined_bind {A B} (p0 : Pilot) (m : M A) (k : A -> M B) :
  confined p0 m -> (forall a, confined p0 (k a)) -> confined p0 (bind m k).
Proof.
  intros Hm Hk s H. unfold bind.
  destruct (Hm s H) as (T1 & n1 & E1 & F1).
  destruct (m s) as [[a|msg|code] s1]; cbn [fst snd] in *;
    try (split; [exact T1|]; now exists n1).
  destruct (Hk a s1 T1) as (T2 & n2 & E2 & F2).
  split; [exact T2|]. exists (n2 ++ n1)%list. split.
  - now rewrite E2, E1, app_assoc.
  - apply Forall_app. now split.
Qed.

Lemma confined_get {A B} (p0 : Pilot) (f : Pilot -> A) (k : A -> M B) :
  confined p0 (k (f p0)) -> confined p0 (bind (get f) k).
Proof.
  intros Hk s H. unfold bind, get. cbn. rewrite H. now apply Hk.
Qed.

Lemma confined_try_catch {A} (p0 : Pilot) (m : M A) (h : string -> M A) :
  confined p0 m -> (forall msg, confined p0 (h msg)) ->
  confined p0 (try_catch m h).
Proof.
  intros Hm Hh s H. unfold try_catch.
  destruct (Hm s H) as (T1 & n1 & E1 & F1).
  destruct (m s) as [[a|msg|code] s1]; cbn [fst snd] in *;
    try (split; [exact T1|]; now exists n1).
  destruct (Hh msg s1 T1) as (T2 & n2 & E2 & F2).
  split; [exact T2|]. exists (n2 ++ n1)%list. split.
  - now rewrite E2, E1, app_assoc.
  - apply Forall_app. now split.
Qed.

Ltac confined_branch :=
  match goal with
  | |- confined _ (if ?b then _ else _) => destruct b eqn:?
  | |- confined _ (match ?x with [] => _ | _ :: _ => _ end) =>
      destruct x eqn:?
  end.

(** A command other than [quit] writes no file but the side files. *)
Lemma executeBody_confined (p0 : Pilot) (command : string) :
  JS.toLowerCase command <> "quit" -> confined p0 (executeBody command).
Proof.
  intros Hq.
  unfold executeBody, takeScreenshot, extractText, saveHtml, extractTables,
    extractLinks, clickElement, scroll, on_page, sleep.
  cbv zeta.
  repeat (first
    [ apply confined_ret
    | apply confined_throw
    | apply confined_get
    | apply confined_eff
    | apply confined_act;
        [intros ?; cbn [writes_within side_files In]; tauto]
    | apply confined_bind; [ | intros ?]
    | apply confined_try_catch; [ | intros ?]
    | confined_branch; [ | ]
    | exfalso; apply Hq; apply String.eqb_eq; assumption ]).
Qed.

Lemma writes_app (path : string) (a b : list Event) :
  writes path (a ++ b) = (writes path b ++ writes path a)%list.
Proof.
  induction a as [|e a IH]; cbn [app writes].
  - now rewrite app_nil_r.
  - destruct e as [A x r|A x v|code]; try exact IH.
    destruct x; try exact IH.
    destruct (path0 =? path); [rewrite IH, app_assoc|]; auto.
Qed.

Lemma writes_outside (files : list string) (path : string)
      (new : list Event) :
  Forall (writes_within files) new -> ~ In path files ->
  writes path new = [].
Proof.
  intros F N. induction F as [|e new W F IH]; [reflexivity|].
  cbn [writes]. destruct e as [A x r|A x v|code]; try exact IH.
  destruct x; try exact IH. cbn in W.
  destruct (String.eqb_spec path0 path) as [E|_]; [|exact IH].
  subst. contradiction.
Qed.

(** What any command leaves in the files other than the side files:
    nothing. *)
Lemma executeCommand_writes (command : string) (s : State) (path : string) :
  ~ In path (side_files (this s)) ->
  exists new,
    log (snd (executeCommand command s)) = (new ++ log s)%list /\
    writes path new = [].
Proof.
  intros N. destruct (String.eqb_spec (JS.toLowerCase command) "quit") as [Q|Q].
  - unfold executeCommand. rewrite (executeBody_quit command Q).
    destruct (quit_run s) as (_ & _ & new & E & _ & RW & _).
    exists new. split; [exact E|apply RW].
  - rewrite executeCommand_catches.
    destruct (executeBody_confined (this s) command Q s eq_refl)
      as (_ & new & E & F).
    exists new. split.
    + destruct (executeBody command s) as [[a|m|code] s1]; exact E.
    + eapply writes_outside; eassumption.
Qed.

End Files.

Section Results.
Context {C : Collaborators}.

Lemma command_event_loop_event (new : list Event) :
  forallb command_event new = true -> forallb loop_event new = true.
Proof.
  intros H. rewrite forallb_forall in *. intros e I.
  unfold loop_event. now rewrite (H e I).
Qed.

(** What any command leaves in the log. *)
Lemma executeCommand_events (command : string) (s : State) :
  exists new,
    log (snd (executeCommand command s)) = (new ++ log s)%list /\
    forallb loop_event new = true.
Proof.
  destruct (String.eqb_spec (JS.toLowerCase command) "quit") as [Q|Q].
  - unfold executeCommand. rewrite (executeBody_quit command Q).
    destruct (quit_run s) as (_ & _ & new & E & _ & _ & X).
    exists new. split; [exact E|].
    unfold release_of in X.
    destruct (browser (this s)); [|destruct (context (this s))];
      [destruct X as (_ & [[_ X]|(m & _ & X)])
      |destruct X as (_ & [[_ X]|(m & _ & X)])
      |destruct X as (_ & _ & X)];
      subst new; reflexivity.
  - destruct (executeCommand_other command s Q) as (r & new & _ & _ & E & F).
    exists new. split; [exact E|]. now apply command_event_loop_event.
Qed.

Lemma same_extension {A} (l a b : list A) (x : list A) :
  x = (a ++ l)%list -> x = (b ++ l)%list -> a = b.
Proof. intros H1 H2. rewrite H1 in H2. now apply app_inv_tail in H2. Qed.

(** One turn and the files. *)
Lemma pollOnce_results (s : State) :
  ~ In (resultPath (this s)) (side_files (this s)) ->
  exists new,
    log (snd (pollOnce s)) = (new ++ log s)%list /\
    ((fst (pollOnce s) = Ret tt /\
      List.length (writes (resultPath (this s)) new)
        = List.length (dispatched new))
     \/
     (fst (pollOnce s) = Exit 0 /\
      writes (resultPath (this s)) new = [] /\
      List.length (dispatched new) = 1)) /\
    (forall path,
       path <> resultPath (this s) -> ~ In path (side_files (this s)) ->
       writes path new = []) /\
    forallb loop_event new = true.
Proof.
  intros NR.
  rewrite pollOnce_unfold. cbv zeta.
  destruct (react (FsExistsSync (commandPath (this s))) (world s))
    as [[] w1] eqn:EX; cbn [negb].
  2:{ eexists [_]. split; [reflexivity|]. cbn. repeat split; auto. }
  destruct (perform (FsReadFileSync (commandPath (this s))) w1)
    as [[content|msg] w2] eqn:RD.
  2:{ eexists [_; _]. split; [reflexivity|]. cbn. repeat split; auto. }
  destruct (negb (JS.truthy (JS.trim content))
            || (JS.trim content =? lastCommand (this s))) eqn:G.
  { eexists [_; _]. split; [reflexivity|]. cbn. repeat split; auto. }
  destruct (react (ConsoleLog (LCommand (JS.trim content))) w2)
    as [[] w3] eqn:CL.
  match goal with
  | |- context [executeCommand ?c ?st] =>
      destruct (executeCommand_run c st)
        as (new & E & S & NT & D & _ & X);
      destruct (executeCommand_events c st) as (new' & E' & LE);
      pose proof (same_extension _ _ _ _ E E'); subst new';
      assert (W : forall path,
                 ~ In path (side_files (this s)) -> writes path new = [])
        by (intros path NP;
            destruct (executeCommand_writes c st path NP) as (n & En & Wn);
            pose proof (same_extension _ _ _ _ E En); now subst n);
      destruct (executeCommand c st) as [[result|m|code] s4] eqn:EC
  end; cbn [fst snd this log world] in *.
  - assert (RP : resultPath (this s4) = resultPath (this s)) by apply S.
    rewrite RP.
    destruct (perform (FsWriteFileSync (resultPath (this s)) result) (world s4))
      as [[v|msg] w5] eqn:WR;
      [destruct (react (ConsoleLog LDone) w5) as [[] w6] eqn:DN|];
      cbn [fst snd this log world];
      [ exists ([EvEff (ConsoleLog LDone) tt;
                 EvAct (FsWriteFileSync (resultPath (this s)) result) (Ok v)]
                ++ new
                ++ [EvEff (ConsoleLog (LCommand (JS.trim content))) tt;
                    EvAct (FsReadFileSync (commandPath (this s))) (Ok content);
                    EvEff (FsExistsSync (commandPath (this s))) true])%list
      | exists ([EvAct (FsWriteFileSync (resultPath (this s)) result) (Err msg)]
                ++ new
                ++ [EvEff (ConsoleLog (LCommand (JS.trim content))) tt;
                    EvAct (FsReadFileSync (commandPath (this s))) (Ok content);
                    EvEff (FsExistsSync (commandPath (this s))) true])%list ];
      (split; [rewrite E, <- !app_assoc; reflexivity|]);
      (split; [left; split; [reflexivity|];
               rewrite !writes_app, !dispatched_app, D, (W _ NR);
               cbn [writes dispatched dispatch_of app];
               rewrite String.eqb_refl; reflexivity|]);
      (split; [intros path NP NS;
               rewrite !writes_app, (W _ NS); cbn [writes app];
               destruct (String.eqb_spec (resultPath (this s)) path);
               [congruence|reflexivity]|]);
      rewrite !forallb_app, LE; reflexivity.
  - now destruct (NT m).
  - exists (new
            ++ [EvEff (ConsoleLog (LCommand (JS.trim content))) tt;
                EvAct (FsReadFileSync (commandPath (this s))) (Ok content);
                EvEff (FsExistsSync (commandPath (this s))) true])%list.
    split; [rewrite E, <- !app_assoc; reflexivity|].
    split; [right|split].
    + rewrite !writes_app, !dispatched_app, D, (W _ NR).
      repeat split.
      destruct (is_quit (JS.trim content)).
      * destruct X as (_ & _ & [X|[r X]]); [now inversion X|discriminate].
      * destruct X as (_ & _ & [r X]). discriminate.
    + intros path NP NS. rewrite !writes_app, (W _ NS). reflexivity.
    + rewrite !forallb_app, LE. reflexivity.
Qed.

Lemma side_files_same_setup (p q : Pilot) :
  same_setup p q -> side_files q = side_files p.
Proof. intros (_ & _ & _ & K & _). unfold side_files. now rewrite K. Qed.

(** X2. One result for each command.  When no side file of the commands
    is the result file, a run of the loop that returns has called
    [writeFileSync] on the result file exactly once for each command it
    dispatched (a write that throws is counted, the loop swallows its
    error), and a run that ends in the exit of [quit] once for each
    command but that [quit]. *)
Theorem poll_writes_one_result_per_command (turns : nat) (s : State) :
  ~ In (resultPath (this s)) (side_files (this s)) ->
  exists new,
    log (snd (pollCommands turns s)) = (new ++ log s)%list /\
    ((fst (pollCommands turns s) = Ret tt /\
      List.length (writes (resultPath (this s)) new)
        = List.length (dispatched new))
     \/
     (fst (pollCommands turns s) = Exit 0 /\
      S (List.length (writes (resultPath (this s)) new))
        = List.length (dispatched new))).
Proof.
  revert s. induction turns as [|n IH]; intros s NR.
  { exists []. split; [reflexivity|]. now left. }
  rewrite pollCommands_unfold.
  destruct (running (this s)) eqn:RUN.
  2:{ exists []. split; [reflexivity|]. now left. }
  destruct (react (Sleep (pollInterval (config (this s)))) (world s))
    as [[] w] eqn:SL.
  set (zz := EvEff (Sleep (pollInterval (config (this s)))) tt).
  match goal with
  | |- context [pollOnce ?st] =>
      destruct (pollOnce_results st NR) as (new1 & E1 & R1 & _ & _);
      destruct (pollOnce_turn st) as (new1' & E1' & S1 & NT1 & _);
      destruct (pollOnce st) as [[[]|m|code] s1] eqn:P1
  end; cbn [fst snd this log world] in *.
  - destruct R1 as [(_ & R1)|(R1 & _)]; [|discriminate].
    assert (RP : resultPath (this s1) = resultPath (this s)) by apply S1.
    destruct (IH s1) as (new2 & E2 & R2).
    { rewrite RP, (side_files_same_setup _ _ S1). exact NR. }
    rewrite RP in R2.
    exists (new2 ++ new1 ++ [zz])%list.
    split; [rewrite E2, E1, <- !app_assoc; reflexivity|].
    rewrite !writes_app, !dispatched_app, !length_app.
    cbn [writes dispatched dispatch_of zz List.length].
    destruct R2 as [(O & R2)|(O & R2)]; [left|right]; (split; [exact O|]); lia.
  - now destruct (NT1 m).
  - destruct R1 as [(R1 & _)|(R1 & W1 & D1)]; [discriminate|].
    exists (new1 ++ [zz])%list.
    split; [rewrite E1, <- !app_assoc; reflexivity|].
    right. split; [exact R1|].
    rewrite !writes_app, !dispatched_app, !length_app, W1, D1. reflexivity.
Qed.


End Results.

(* ================================================================== *)
(** ** More of the commands *)
(* ================================================================== *)

Section Commands.
Context {C : Collaborators}.

(** X4. [click:<selector>] tries the trimmed selector as it is, then, only
    if that attempt fails, once more as [text=<selector>], each with a
    timeout of 5000 ms; it waits for the load state after the attempt
    that succeeded and answers [Clicked: <selector>].  When both attempts
    fail the answer carries the message of the second, the message of
    the first is lost, and the load state is not awaited. *)
Theorem click_retries_as_text (arg : string) (s : State) :
  page (this s) = true ->
  let selector := JS.trim arg in
  let css := PageClick selector 5000 in
  let text := PageClick ("text=" ++ selector) 5000 in
  let settle (w : World) (l : list Event) :=
    (match fst (perform PageWaitForLoadState w) with
     | Ok _ => Ret ("Clicked: " ++ selector)
     | Err msg => Ret ("ERROR: " ++ msg)
     end,
     {| this := this s;
        world := snd (perform PageWaitForLoadState w);
        log := EvAct PageWaitForLoadState
                 (fst (perform PageWaitForLoadState w)) :: l |}) in
  executeCommand ("click:" ++ arg) s =
  match perform css (world s) with
  | (Ok v, w1) => settle w1 (EvAct css (Ok v) :: log s)
  | (Err m1, w1) =>
      match perform text w1 with
      | (Ok v, w2) =>
          settle w2 (EvAct text (Ok v) :: EvAct css (Err m1) :: log s)
      | (Err m2, w2) =>
          (Ret ("ERROR: " ++ m2),
           {| this := this s; world := w2;
              log := EvAct text (Err m2) :: EvAct css (Err m1) :: log s |})
      end
  end.
Proof.
  intros P. cbv zeta.
  change (executeCommand ("click:" ++ arg) s)
    with (try_catch (clickElement (JS.trim arg))
            (fun msg => ret ("ERROR: " ++ msg)) s).
  unfold clickElement, try_catch, on_page, bind, get, act, ret, throw.
  repeat (cbn; rewrite ?P; cbn;
          match goal with
          | |- context [perform ?a ?w] =>
              destruct (perform a w) as [[[]|?] ?]
          end);
    reflexivity.
Qed.

(** X5. [text] saves what it returns: when the page gives its text, the
    command writes exactly that text to [page-text.txt] in the working
    directory, and the result is that same text if the write succeeds
    and the error of the write otherwise. *)
Theorem text_saves_what_it_returns (command text : string) (s : State) :
  JS.toLowerCase command = "text" ->
  page (this s) = true ->
  fst (perform PageEvaluateInnerText (world s)) = Ok text ->
  let file := path_join (workDir (config (this s))) "page-text.txt" in
  let saved :=
    perform (FsWriteFileSync file text)
      (snd (perform PageEvaluateInnerText (world s))) in
  executeCommand command s =
  (match fst saved with
   | Ok _ => Ret text
   | Err msg => Ret ("ERROR: " ++ msg)
   end,
   {| this := this s; world := snd saved;
      log := EvAct (FsWriteFileSync file text) (fst saved)
             :: EvAct PageEvaluateInnerText (Ok text) :: log s |}).
Proof.
  intros L P E. cbv zeta.
  unfold executeCommand, executeBody. cbv zeta. rewrite L.
  cbn [String.eqb Ascii.eqb Bool.eqb].
  unfold extractText, try_catch, on_page, bind, get, act, ret.
  rewrite P.
  destruct (perform PageEvaluateInnerText (world s)) as [r1 w1].
  cbn [fst] in E. subst r1. cbn [fst snd this world log].
  destruct (perform
              (FsWriteFileSync
                 (path_join (workDir (config (this s))) "page-text.txt") text)
              w1) as [[[]|msg] w2];
    reflexivity.
Qed.

(** X6. [tables] with no table: the page script gives the empty string
    for a page without tables; the command then still writes [tables.txt]
    (empty) and answers [No tables found on page]; otherwise it answers
    the text of the tables, which is also what it wrote. *)
Theorem tables_result (command tables : string) (s : State) :
  JS.toLowerCase command = "tables" ->
  page (this s) = true ->
  fst (perform PageEvaluateTables (world s)) = Ok tables ->
  let file := path_join (workDir (config (this s))) "tables.txt" in
  let saved :=
    perform (FsWriteFileSync file tables)
      (snd (perform PageEvaluateTables (world s))) in
  executeCommand command s =
  (match fst saved with
   | Ok _ =>
       Ret (match tables with
            | EmptyString => "No tables found on page"
            | _ => tables
            end)
   | Err msg => Ret ("ERROR: " ++ msg)
   end,
   {| this := this s; world := snd saved;
      log := EvAct (FsWriteFileSync file tables) (fst saved)
             :: EvAct PageEvaluateTables (Ok tables) :: log s |}).
Proof.
  intros L P E. cbv zeta.
  unfold executeCommand, executeBody. cbv zeta. rewrite L.
  cbn [String.eqb Ascii.eqb Bool.eqb].
  unfold extractTables, try_catch, on_page, bind, get, act, ret.
  rewrite P.
  destruct (perform PageEvaluateTables (world s)) as [r1 w1].
  cbn [fst] in E. subst r1. cbn [fst snd this world log].
  destruct (perform
              (FsWriteFileSync
                 (path_join (workDir (config (this s))) "tables.txt") tables)
              w1) as [[[]|msg] w2];
    destruct tables; reflexivity.
Qed.



End Commands.

(* ================================================================== *)
(** ** From [start] to the loop *)
(* ================================================================== *)

Section Startup.
Context {C : Collaborators}.

Ltac answer :=
  match goal with
  | |- context [perform ?a ?w] =>
      destruct (perform a w) as [[?|?] ?] eqn:?
  | |- context [react ?e ?w] =>
      destruct (react e w) as [? ?] eqn:?
  | |- context [if ?b then _ else _] => destruct b eqn:?
  end.

Lemma nil_extends {A} (base : list A) : base = ([] ++ base)%list.
Proof. reflexivity. Qed.

Lemma cons_extends {A} (e : A) (l p base : list A) :
  l = (p ++ base)%list -> e :: l = ((e :: p) ++ base)%list.
Proof. intros H. now rewrite H. Qed.

Lemma loop_from {turns : nat} (p : Pilot) (w : World) (l l' : list Event) :
  l = l' ->
  pollCommands turns {| this := p; world := w; log := l |} =
  pollCommands turns {| this := p; world := w; log := l' |}.
Proof. intros H. now rewrite H. Qed.

Ltac extends := repeat (eapply cons_extends); apply nil_extends.

Ltac close_leaf :=
  repeat match goal with u : unit |- _ => destruct u end;
  eexists; split; cycle 1;
  [ first
      [ left; split;
        [ extends
        | first [left; reflexivity | right; eexists; reflexivity] ]
      | right; do 2 eexists; apply loop_from;
        do 3 (apply (f_equal2 cons); [reflexivity|]); extends ]
  | reflexivity ].

(** The shape of a start: a stretch of launch entries, after which either
    the start is over, or the command file is unlinked, [READY] is
    written and the loop runs on the launched object. *)
Lemma start_shape (initialUrl : option string) (turns : nat) (s : State) :
  exists pre,
    forallb launch_event pre = true /\
    ((log (snd (start initialUrl turns s)) = (pre ++ log s)%list /\
      startup_failure (fst (start initialUrl turns s)))
     \/
     (exists r w,
        start initialUrl turns s =
        pollCommands turns
          {| this := set_running true (launched_object (this s));
             world := w;
             log := EvEff (ConsoleLog LLaunched) tt
                    :: EvAct (FsWriteFileSync (resultPath (this s)) READY)
                         (Ok tt)
                    :: EvAct (FsUnlinkSync (commandPath (this s))) r
                    :: pre ++ log s |})).
Proof.
  unfold start, launched_object, displayProfileLockedError, isBrowserRunning,
    clearFile, writeResult, on_page, READY.
  unfold bind, try_catch, get, modify, act, eff, process_exit, throw, ret.
  cbn -[JS.includes JS.toLowerCase pollCommands String.eqb Nat.ltb].
  destruct (truthy_opt (profile (config (this s)))) as [prof|] eqn:TP;
    destruct (truthy_opt initialUrl) as [url|] eqn:TU.
  all: repeat
         (cbn -[JS.includes JS.toLowerCase pollCommands String.eqb Nat.ltb];
          answer).
  all: cbn -[JS.includes JS.toLowerCase pollCommands String.eqb Nat.ltb].
  all: close_leaf.
Qed.

Lemma launch_event_quiet (pre : list Event) :
  forallb launch_event pre = true ->
  dispatched pre = [] /\ releases pre = 0 /\
  forallb (fun e => negb (is_release e)) pre = true.
Proof.
  induction pre as [|e pre IH]; cbn [forallb]; intros H; [now repeat split|].
  apply andb_prop in H as [He H]. destruct (IH H) as (D & R & K).
  unfold launch_event in He.
  apply andb_prop in He as [He Hr]. apply andb_prop in He as [Hd _].
  unfold no_dispatch in Hd. unfold releases in *. cbn [dispatched filter].
  destruct (dispatch_of e); [discriminate|].
  apply negb_true_iff in Hr. rewrite Hr. cbn. rewrite K.
  repeat split; auto.
Qed.

Lemma other_entries_fit (o : option string) (e : Event) :
  negb (is_release e) = true ->
  match o with
  | Some _ => negb (is_browser_close e)
  | None => negb (is_context_close e)
  end = true.
Proof.
  intros H. destruct o; destruct e as [A a x|A e x|code]; try reflexivity;
    destruct a; try reflexivity; discriminate.
Qed.

(** X9. Ready before the first poll.  Whatever a start does, it polls the
    command file and dispatches commands only after it has called
    [unlink] on the command file (whose error, if any, is ignored) and
    then written [READY] to the result file with success, in that order;
    a start that does not get that far polls and dispatches nothing. *)
Theorem start_is_ready_before_it_polls
        (initialUrl : option string) (turns : nat) (s : State) :
  exists new,
    log (snd (start initialUrl turns s)) = (new ++ log s)%list /\
    (forallb launch_event new = true
     \/
     exists later r earlier,
       new = (later
              ++ EvAct (FsWriteFileSync (resultPath (this s)) READY) (Ok tt)
              :: EvAct (FsUnlinkSync (commandPath (this s))) r
              :: earlier)%list /\
       forallb launch_event earlier = true).
Proof.
  destruct (start_shape initialUrl turns s)
    as (pre & Q & [(E & _)|(r & w & E)]).
  - exists pre. split; [exact E|now left].
  - rewrite E.
    match goal with
    | |- context [pollCommands turns ?st] =>
        destruct (pollCommands_shape turns st) as (new & EL & _)
    end.
    cbn [log] in EL.
    exists (new ++ EvEff (ConsoleLog LLaunched) tt
                :: EvAct (FsWriteFileSync (resultPath (this s)) READY) (Ok tt)
                :: EvAct (FsUnlinkSync (commandPath (this s))) r :: pre)%list.
    split.
    + rewrite EL, <- app_assoc. reflexivity.
    + right. exists (new ++ [EvEff (ConsoleLog LLaunched) tt])%list, r, pre.
      split; [now rewrite <- app_assoc|exact Q].
Qed.

Lemma command_event_fits (p : Pilot) (new : list Event) :
  forallb command_event new = true ->
  forallb (fitting_release p) new = true.
Proof.
  intros H. rewrite forallb_forall in *. intros e I. specialize (H e I).
  unfold fitting_release.
  destruct e as [A a r|A e v|code]; cbn in *;
    try (destruct (browser p); reflexivity).
  destruct a; try discriminate; destruct (browser p); reflexivity.
Qed.

(** The release of [quit] fits the object. *)
Lemma executeCommand_fits (command : string) (s : State) :
  exists new,
    log (snd (executeCommand command s)) = (new ++ log s)%list /\
    forallb (fitting_release (this s)) new = true.
Proof.
  destruct (String.eqb_spec (JS.toLowerCase command) "quit") as [Q|Q].
  - unfold executeCommand. rewrite (executeBody_quit command Q).
    destruct (quit_run s) as (_ & _ & new & E & _ & _ & X).
    exists new. split; [exact E|].
    unfold release_of in X. unfold fitting_release.
    destruct (browser (this s)); [|destruct (context (this s))];
      [destruct X as (_ & [[_ X]|(m & _ & X)])
      |destruct X as (_ & [[_ X]|(m & _ & X)])
      |destruct X as (_ & _ & X)];
      subst new; reflexivity.
  - destruct (executeCommand_other command s Q) as (r & new & _ & _ & E & F).
    exists new. split; [exact E|]. now apply command_event_fits.
Qed.

Lemma fitting_release_same_setup (p q : Pilot) (l : list Event) :
  same_setup p q ->
  forallb (fitting_release q) l = forallb (fitting_release p) l.
Proof.
  intros (B & _). unfold fitting_release. now rewrite B.
Qed.

Lemma pollOnce_fits (s : State) :
  exists new,
    log (snd (pollOnce s)) = (new ++ log s)%list /\
    forallb (fitting_release (this s)) new = true.
Proof.
  rewrite pollOnce_unfold. cbv zeta.
  assert (K : forall e, is_release e = false ->
                        fitting_release (this s) e = true).
  { intros e H. unfold fitting_release.
    destruct e as [A a r|A e v|code]; cbn in *;
      try (destruct (browser (this s)); reflexivity).
    destruct a; try discriminate; destruct (browser (this s)); reflexivity. }
  destruct (react (FsExistsSync (commandPath (this s))) (world s))
    as [[] w1]; cbn [negb].
  2:{ eexists [_]. split; [reflexivity|]. cbn [forallb].
      now rewrite K. }
  destruct (perform (FsReadFileSync (commandPath (this s))) w1)
    as [[content|msg] w2].
  2:{ eexists [_; _]. split; [reflexivity|]. cbn [forallb].
      now rewrite !K. }
  destruct (negb (JS.truthy (JS.trim content))
            || (JS.trim content =? lastCommand (this s))).
  { eexists [_; _]. split; [reflexivity|]. cbn [forallb].
    now rewrite !K. }
  destruct (react (ConsoleLog (LCommand (JS.trim content))) w2) as [[] w3].
  match goal with
  | |- context [executeCommand ?c ?st] =>
      destruct (executeCommand_fits c st) as (new & E & F);
      destruct (executeCommand c st) as [[result|m|code] s4]
  end; cbn [fst snd this log world] in *.
  - destruct (perform (FsWriteFileSync (resultPath (this s4)) result) (world s4))
      as [[v|msg] w5];
      [destruct (react (ConsoleLog LDone) w5) as [[] w6]|];
      cbn [fst snd this log world];
      [ exists ([EvEff (ConsoleLog LDone) tt;
                 EvAct (FsWriteFileSync (resultPath (this s4)) result) (Ok v)]
                ++ new
                ++ [EvEff (ConsoleLog (LCommand (JS.trim content))) tt;
                    EvAct (FsReadFileSync (commandPath (this s))) (Ok content);
                    EvEff (FsExistsSync (commandPath (this s))) true])%list
      | exists ([EvAct (FsWriteFileSync (resultPath (this s4)) result) (Err msg)]
                ++ new
                ++ [EvEff (ConsoleLog (LCommand (JS.trim content))) tt;
                    EvAct (FsReadFileSync (commandPath (this s))) (Ok content);
                    EvEff (FsExistsSync (commandPath (this s))) true])%list ];
      (split; [rewrite E, <- !app_assoc; reflexivity|]);
      rewrite !forallb_app; cbn [forallb];
      change (fitting_release (set_lastCommand (JS.trim content) (this s)))
        with (fitting_release (this s)) in F;
      rewrite F, !K; reflexivity.
  - exists (new
            ++ [EvEff (ConsoleLog (LCommand (JS.trim content))) tt;
                EvAct (FsReadFileSync (commandPath (this s))) (Ok content);
                EvEff (FsExistsSync (commandPath (this s))) true])%list.
    split; [rewrite E, <- !app_assoc; reflexivity|].
    rewrite !forallb_app; cbn [forallb].
    change (fitting_release (set_lastCommand (JS.trim content) (this s)))
      with (fitting_release (this s)) in F.
    rewrite F, !K; reflexivity.
  - exists (new
            ++ [EvEff (ConsoleLog (LCommand (JS.trim content))) tt;
                EvAct (FsReadFileSync (commandPath (this s))) (Ok content);
                EvEff (FsExistsSync (commandPath (this s))) true])%list.
    split; [rewrite E, <- !app_assoc; reflexivity|].
    rewrite !forallb_app; cbn [forallb].
    change (fitting_release (set_lastCommand (JS.trim content) (this s)))
      with (fitting_release (this s)) in F.
    rewrite F, !K; reflexivity.
Qed.

Lemma pollCommands_fits (turns : nat) (s : State) :
  exists new,
    log (snd (pollCommands turns s)) = (new ++ log s)%list /\
    forallb (fitting_release (this s)) new = true.
Proof.
  revert s. induction turns as [|n IH]; intros s.
  { now exists []. }
  rewrite pollCommands_unfold.
  destruct (running (this s)).
  2:{ now exists []. }
  destruct (react (Sleep (pollInterval (config (this s)))) (world s))
    as [[] w].
  set (zz := EvEff (Sleep (pollInterval (config (this s)))) tt).
  assert (Z : fitting_release (this s) zz = true).
  { unfold fitting_release. destruct (browser (this s)); reflexivity. }
  match goal with
  | |- context [pollOnce ?st] =>
      destruct (pollOnce_fits st) as (new1 & E1 & F1);
      destruct (pollOnce_turn st) as (new1' & E1' & S1 & NT1 & _);
      destruct (pollOnce st) as [[[]|m|code] s1]
  end; cbn [fst snd this log world] in *.
  - destruct (IH s1) as (new2 & E2 & F2).
    rewrite (fitting_release_same_setup _ _ _ S1) in F2.
    exists (new2 ++ new1 ++ [zz])%list.
    split; [rewrite E2, E1, <- !app_assoc; reflexivity|].
    rewrite !forallb_app, F1, F2. cbn [forallb]. now rewrite Z.
  - now destruct (NT1 m).
  - exists (new1 ++ [zz])%list.
    split; [rewrite E1, <- !app_assoc; reflexivity|].
    rewrite !forallb_app, F1. cbn [forallb]. now rewrite Z.
Qed.

(** X10. One session, one release, of the right resource.  A start on an
    object that holds no browser yet releases the browser resource over
    its whole run exactly once if it dispatches a [quit] and never
    otherwise: not when the startup fails after the launch, not on any
    other command.  A session started with a profile releases the
    persistent context and never calls [browser.close()]; a session
    started without one releases the browser. *)
Theorem session_releases_its_resource
        (initialUrl : option string) (turns : nat) (s : State) :
  browser (this s) = false ->
  exists new,
    log (snd (start initialUrl turns s)) = (new ++ log s)%list /\
    releases new = (if existsb is_quit (dispatched new) then 1 else 0) /\
    forallb (fun e =>
               match truthy_opt (profile (config (this s))) with
               | Some _ => negb (is_browser_close e)
               | None => negb (is_context_close e)
               end) new = true.
Proof.
  intros B.
  destruct (start_shape initialUrl turns s)
    as (pre & Q & [(E & _)|(r & w & E)]);
    destruct (launch_event_quiet pre Q) as (D & R & K).
  - exists pre. split; [exact E|]. rewrite D, R. split; [reflexivity|].
    rewrite forallb_forall in *. intros e I. specialize (K e I).
    now apply other_entries_fit.
  - rewrite E.
    match goal with
    | |- context [pollCommands turns ?st] =>
        destruct (pollCommands_shape turns st)
          as (new & EL & _ & _ & _ & RL & _);
        destruct (pollCommands_fits turns st) as (new' & EL' & F);
        pose proof (same_extension _ _ _ _ EL EL'); subst new'
    end.
    cbn [log this] in *.
    exists (new ++ EvEff (ConsoleLog LLaunched) tt
                :: EvAct (FsWriteFileSync (resultPath (this s)) READY) (Ok tt)
                :: EvAct (FsUnlinkSync (commandPath (this s))) r :: pre)%list.
    split; [rewrite EL, <- app_assoc; reflexivity|].
    assert (H : held (set_running true (launched_object (this s))) = 1).
    { unfold held, release_of, launched_object.
      destruct (truthy_opt (profile (config (this s)))); cbn; [|reflexivity].
      now rewrite B. }
    rewrite H in RL.
    change (new ++ EvEff (ConsoleLog LLaunched) tt
                :: EvAct (FsWriteFileSync (resultPath (this s)) READY) (Ok tt)
                :: EvAct (FsUnlinkSync (commandPath (this s))) r :: pre)%list
      with (new ++ [EvEff (ConsoleLog LLaunched) tt;
                    EvAct (FsWriteFileSync (resultPath (this s)) READY) (Ok tt);
                    EvAct (FsUnlinkSync (commandPath (this s))) r] ++ pre)%list.
    rewrite !dispatched_app, !releases_app, !forallb_app, D, R, RL.
    cbn [dispatched dispatch_of app].
    split; [unfold releases; cbn;
            destruct (existsb is_quit (dispatched new)); reflexivity|].
    apply andb_true_intro. split; [|apply andb_true_intro; split].
    + unfold fitting_release, launched_object in F.
      rewrite forallb_forall in *. intros e I. specialize (F e I).
      destruct (truthy_opt (profile (config (this s)))); cbn in F.
      * now rewrite B in F.
      * exact F.
    + destruct (truthy_opt (profile (config (this s)))); reflexivity.
    + rewrite forallb_forall in *. intros e I. specialize (K e I).
      now apply other_entries_fit.
Qed.

End Startup.

Section LaunchErrors.
Context {C : Collaborators}.

Ltac answer_launch :=
  match goal with
  | |- (Ok _ = Err _) -> _ =>
      let H := fresh "H" in intro H; discriminate H
  | |- (Err _ = Err _) -> _ =>
      let H := fresh "H" in intro H; inversion H; subst; clear H
  | |- context [react ?e (world ?s)] =>
      is_var s; destruct (react e (world s)) as [? ?] eqn:?
  | |- context [react ?e ?w] =>
      is_var w; destruct (react e w) as [? ?] eqn:?
  | |- context [perform ?a (world ?s)] =>
      is_var s; destruct (perform a (world s)) as [[?|?] ?] eqn:?
  | |- context [perform ?a ?w] =>
      is_var w; destruct (perform a w) as [[?|?] ?] eqn:?
  | |- context [if ?b then _ else _] => destruct b eqn:?
  end.

(** X11. A launch that fails.  With a profile configured, a launch error
    whose message tells of a closed target, browser or context ends the
    process with status 1; any other launch error, and every launch
    error of a start without a profile, is thrown to the caller with its
    message.  In each case the flag stays as it was, no file is written
    (no [READY]) and the loop never runs. *)
Theorem failed_launch (initialUrl : option string) (turns : nat)
        (s : State) (msg : string) :
  let cfg := config (this s) in
  let channel := if browserName cfg =? "edge" then Some "msedge" else None in
  let started := snd (react (ConsoleLog LStarting) (world s)) in
  match truthy_opt (profile cfg) with
  | Some prof =>
      fst (perform
             (ChromiumLaunchPersistentContext prof (headless cfg) channel)
             (snd (react (ConsoleLog (LUsingProfile prof)) started)))
      = Err msg
  | None =>
      fst (perform (ChromiumLaunch (headless cfg) channel) started) = Err msg
  end ->
  fst (start initialUrl turns s)
  = match truthy_opt (profile cfg) with
    | Some _ => if lock_phrase msg then Exit 1 else Throw msg
    | None => Throw msg
    end /\
  this (snd (start initialUrl turns s)) = this s /\
  (forall path,
     writes path (log (snd (start initialUrl turns s)))
     = writes path (log s)) /\
  dispatched (log (snd (start initialUrl turns s))) = dispatched (log s).
Proof.
  cbv zeta.
  unfold start, displayProfileLockedError, isBrowserRunning,
    clearFile, writeResult, on_page, lock_phrase.
  unfold bind, try_catch, get, modify, act, eff, process_exit, throw, ret.
  cbn -[JS.includes JS.toLowerCase pollCommands String.eqb Nat.ltb].
  destruct (truthy_opt (profile (config (this s)))) as [prof|] eqn:TP.
  all: repeat
         (cbn -[JS.includes JS.toLowerCase pollCommands String.eqb Nat.ltb];
          answer_launch).
  all: cbn -[JS.includes JS.toLowerCase pollCommands String.eqb Nat.ltb].
  all: repeat split.
Qed.

End LaunchErrors.

Section LockedProfile.
Context {C : Collaborators}.

Ltac answer_lock :=
  match goal with
  | |- (Ok _ = Err _) -> _ =>
      let H := fresh "H" in intro H; discriminate H
  | |- (Err _ = Err _) -> _ =>
      let H := fresh "H" in intro H; inversion H; subst; clear H
  | |- context [react ?e (world ?s)] =>
      is_var s; destruct (react e (world s)) as [? ?] eqn:?
  | |- context [react ?e ?w] =>
      is_var w; destruct (react e w) as [? ?] eqn:?
  | |- context [perform ?a (world ?s)] =>
      is_var s; destruct (perform a (world s)) as [[?|?] ?] eqn:?
  | |- context [perform ?a ?w] =>
      is_var w; destruct (perform a w) as [[?|?] ?] eqn:?
  end.

(** X23. A locked profile is explained before the process exits.  When
    the launch with a profile fails with a message that tells of a closed
    target, browser or context, [start] prints the explanation, asks
    [tasklist] once for the process of the browser, adds the warning that
    the browser is running exactly when the answer names that process (in
    any case; an error of [tasklist] counts as no), and exits with status
    1; it does nothing else. *)
Theorem locked_profile_is_explained
        (initialUrl : option string) (turns : nat) (s : State)
        (prof msg : string) :
  let cfg := config (this s) in
  let channel := if browserName cfg =? "edge" then Some "msedge" else None in
  let launch := ChromiumLaunchPersistentContext prof (headless cfg) channel in
  truthy_opt (profile cfg) = Some prof ->
  fst (perform launch
         (snd (react (ConsoleLog (LUsingProfile prof))
                 (snd (react (ConsoleLog LStarting) (world s))))))
  = Err msg ->
  lock_phrase msg = true ->
  fst (start initialUrl turns s) = Exit 1 /\
  exists r,
    log (snd (start initialUrl turns s))
    = (EvExit 1
       :: (if names_process (browserName cfg) r
           then [EvEff (ConsoleError LBrowserRunning) tt] else [])
       ++ EvAct (ExecSync (tasklist_query (browserName cfg))) r
       :: EvEff (ConsoleError LProfileLocked) tt
       :: EvAct launch (Err msg)
       :: EvEff (ConsoleLog (LUsingProfile prof)) tt
       :: EvEff (ConsoleLog LStarting) tt
       :: log s)%list.
Proof.
  cbv zeta. intros TP.
  unfold start, displayProfileLockedError, isBrowserRunning,
    clearFile, writeResult, on_page, lock_phrase, names_process,
    tasklist_query, image_name.
  unfold bind, try_catch, get, modify, act, eff, process_exit, throw, ret.
  rewrite TP.
  cbn -[JS.includes JS.toLowerCase pollCommands String.eqb Nat.ltb].
  repeat
    (cbn -[JS.includes JS.toLowerCase pollCommands String.eqb Nat.ltb];
     answer_lock).
  all: intros L; rewrite L.
  all: repeat
    (cbn -[JS.includes JS.toLowerCase pollCommands String.eqb Nat.ltb];
     answer_lock).
  all: cbn -[JS.includes JS.toLowerCase pollCommands String.eqb Nat.ltb].
  all: try match goal with
    | |- context [if ?b then _ else _] => destruct b eqn:?
    end.
  all: repeat
    (cbn -[JS.includes JS.toLowerCase pollCommands String.eqb Nat.ltb];
     answer_lock).
  all: cbn -[JS.includes JS.toLowerCase pollCommands String.eqb Nat.ltb].
  all: repeat match goal with u : unit |- _ => destruct u end.
  all: (split; [reflexivity|]).
  all: match goal with
       | |- context [EvAct (ExecSync _) ?r :: _] => exists r
       end.
  all: cbn -[JS.includes JS.toLowerCase pollCommands String.eqb Nat.ltb].
  all: match goal with
       | Q : JS.includes _ _ = _ |- _ => rewrite Q
       | _ => idtac
       end.
  all: reflexivity.
Qed.

End LockedProfile.

(* ================================================================== *)
(** ** The page scripts *)
(* ================================================================== *)

Section PageScripts.
Context {C : Collaborators}.

Lemma truthy_nonempty (s : string) : JS.truthy s = true -> s <> "".
Proof. destruct s; [discriminate|discriminate]. Qed.

(** X12. [links] lists at most 50 links, each with a text and an address.
    When the page runs the script of [extractLinks] on its anchors, the
    command answers [Found <n> links:] followed by one [text: href] entry
    for each link the script kept; [n] is their number and is at most 50;
    no link has an empty text or an empty address; and the links are the
    first of the page's anchors that have both, in document order. *)
Theorem links_are_capped (command : string)
        (anchors : list (string * string)) (s : State) :
  JS.toLowerCase command = "links" ->
  page (this s) = true ->
  fst (perform PageEvaluateLinks (world s)) = Ok (links_script anchors) ->
  let links := links_script anchors in
  fst (executeCommand command s)
  = Ret ("Found " ++ JS.numberToString (Z.of_nat (List.length links))
         ++ " links:" ++ newline
         ++ JS.join newline (map (fun l => fst l ++ ": " ++ snd l) links)) /\
  List.length links <= 50 /\
  Forall (fun l => fst l <> "" /\ snd l <> "") links /\
  exists beyond,
    filter (fun l => JS.truthy (fst l) && JS.truthy (snd l))
      (map (fun a => (JS.trim (fst a), snd a)) anchors)
    = (links ++ beyond)%list.
Proof.
  intros L P E. cbv zeta. split; [|split; [|split]].
  - unfold executeCommand, executeBody. cbv zeta. rewrite L.
    cbn [String.eqb Ascii.eqb Bool.eqb].
    unfold extractLinks, try_catch, on_page, bind, get, act, ret.
    rewrite P.
    destruct (perform PageEvaluateLinks (world s)) as [r w].
    cbn [fst] in E. subst r. reflexivity.
  - unfold links_script. apply firstn_le_length.
  - unfold links_script. apply Forall_forall. intros l I.
    assert (I' : In l (filter
                         (fun l => JS.truthy (fst l) && JS.truthy (snd l))
                         (map (fun a => (JS.trim (fst a), snd a)) anchors))).
    { rewrite <- (firstn_skipn 50). apply in_or_app. now left. }
    apply filter_In in I' as [_ I'].
    apply andb_prop in I' as [I1 I2].
    split; now apply truthy_nonempty.
  - unfold links_script. eexists. symmetry. apply firstn_skipn.
Qed.

Lemma append_assoc (a b c : string) : (a ++ b) ++ c = a ++ b ++ c.
Proof.
  induction a as [|x a IH]; cbn [String.append]; [reflexivity|].
  now rewrite IH.
Qed.

Lemma join_cons_starts (sep x : string) (l : list string) (c : ascii)
      (r : string) :
  x = String c r -> exists r', JS.join sep (x :: l) = String c r'.
Proof.
  intros E. subst x. destruct l; cbn [JS.join]; eexists; reflexivity.
Qed.

(** X13. [tables] says [No tables found on page] exactly for a page
    without tables.  When the page runs the script of [extractTables] on
    its tables and the text is saved, the command answers
    [No tables found on page] if the page has no table, and otherwise the
    text of the tables, which is never empty (even for a table without
    rows) and opens with the title of the first table. *)
Theorem tables_found_or_not (command : string)
        (tables : list (list (list string))) (s : State) :
  JS.toLowerCase command = "tables" ->
  page (this s) = true ->
  fst (perform PageEvaluateTables (world s)) = Ok (tables_script tables) ->
  (forall msg,
     fst (perform
            (FsWriteFileSync
               (path_join (workDir (config (this s))) "tables.txt")
               (tables_script tables))
            (snd (perform PageEvaluateTables (world s)))) <> Err msg) ->
  fst (executeCommand command s)
  = Ret (match tables with
         | [] => "No tables found on page"
         | _ => tables_script tables
         end) /\
  (tables <> [] ->
   exists rest,
     tables_script tables
     = newline ++ "=== TABLE 1 ===" ++ newline ++ rest).
Proof.
  intros L P E W. split.
  - unfold executeCommand, executeBody. cbv zeta. rewrite L.
    cbn [String.eqb Ascii.eqb Bool.eqb].
    unfold extractTables, try_catch, on_page, bind, get, act, ret.
    rewrite P.
    destruct (perform PageEvaluateTables (world s)) as [r1 w1].
    cbn [fst snd] in *. subst r1. cbn [fst snd this world log].
    destruct (perform
                (FsWriteFileSync
                   (path_join (workDir (config (this s))) "tables.txt")
                   (tables_script tables)) w1) as [[[]|msg] w2];
      cbn [fst] in W; [|now destruct (W msg)].
    cbn [fst]. destruct tables as [|rows more]; [reflexivity|].
    unfold tables_script. cbn [tables_from].
    destruct (join_cons_starts newline (table_text 0 rows)
                (tables_from 1 more) (ascii_of_nat 10)
                ("=== TABLE 1 ===" ++ newline ++ rows_text rows) eq_refl)
      as (r' & J).
    rewrite J. reflexivity.
  - intros N. destruct tables as [|rows more]; [now destruct N|].
    unfold tables_script. cbn [tables_from].
    destruct more as [|rows' more']; cbn [JS.join tables_from].
    + exists (rows_text rows). reflexivity.
    + eexists. unfold table_text at 1. cbn [Nat.add Z.of_nat].
      change (JS.numberToString (Z.of_nat 1)) with "1".
      rewrite !append_assoc. reflexivity.
Qed.

(** *** The text of a cell *)

Lemma collapse_units (blank : bool) (s : string) :
  lacks (ascii_of_nat 10) (collapse_from blank s) = true.
Proof.
  revert blank. induction s as [|c r IH]; intros blank; [reflexivity|].
  cbn [collapse_from].
  destruct (JS.is_space c) eqn:S.
  - destruct blank; [apply IH|]. cbn [lacks]. now rewrite IH.
  - cbn [lacks]. rewrite IH, andb_true_r.
    apply negb_true_iff. apply Ascii.eqb_neq. intros E. subst c.
    discriminate S.
Qed.

Lemma lacks_app (c : ascii) (a b : string) :
  lacks c (a ++ b) = lacks c a && lacks c b.
Proof.
  induction a as [|x a IH]; cbn [lacks String.append]; [reflexivity|].
  now rewrite IH, andb_assoc.
Qed.

Lemma lacks_join (c : ascii) (sep : string) (l : list string) :
  lacks c sep = true -> Forall (fun x => lacks c x = true) l ->
  lacks c (JS.join sep l) = true.
Proof.
  intros S F. induction F as [|x l X F IH]; [reflexivity|].
  destruct l as [|y l]; [exact X|].
  change (JS.join sep (x :: y :: l))
    with (x ++ sep ++ JS.join sep (y :: l)).
  now rewrite !lacks_app, X, S, IH.
Qed.

Lemma starts_with_space (c : ascii) (r : string) :
  JS.startsWith " " (String c r) = Ascii.eqb " " c.
Proof. cbn [JS.startsWith]. apply andb_true_r. Qed.

Lemma includes_two_spaces (c : ascii) (r : string) :
  JS.includes "  " (String c r)
  = (Ascii.eqb " " c && JS.startsWith " " r) || JS.includes "  " r.
Proof. reflexivity. Qed.

(** No two spaces in a row come out of [collapse_from]: after a blank, a
    space is never the next unit. *)
Lemma collapse_no_double (blank : bool) (s : string) :
  JS.includes "  " (collapse_from blank s) = false /\
  (blank = true -> JS.startsWith " " (collapse_from blank s) = false).
Proof.
  revert blank. induction s as [|c r IH]; intros blank.
  { split; reflexivity. }
  cbn [collapse_from].
  destruct (JS.is_space c) eqn:S.
  - destruct blank.
    + apply IH.
    + destruct (IH true) as [I1 I2]. split; [|discriminate].
      rewrite includes_two_spaces, I1, (I2 eq_refl).
      now rewrite andb_false_r.
  - destruct (IH false) as [I1 _].
    assert (N : Ascii.eqb " " c = false).
    { apply Ascii.eqb_neq. intros E. subst c. discriminate S. }
    split.
    + now rewrite includes_two_spaces, N, I1.
    + intros _. now rewrite starts_with_space.
Qed.

(** X14. A row of a table is one line.  The text of a cell holds no white
    space but single spaces (line feeds, tabs and runs of blanks of the
    cell become one space each), so the line of a row, its cells joined
    with [ | ], holds no line feed before the one that ends it. *)
Theorem row_is_one_line (cells : list string) :
  Forall (fun cell => JS.includes "  " (cell_text cell) = false
                      /\ lacks (ascii_of_nat 10) (cell_text cell) = true)
         cells /\
  exists line,
    row_text cells = line ++ newline /\
    lacks (ascii_of_nat 10) line = true.
Proof.
  split.
  - apply Forall_forall. intros cell _. unfold cell_text. split.
    + apply collapse_no_double.
    + apply collapse_units.
  - exists (JS.join " | " (map cell_text cells)). split; [reflexivity|].
    apply lacks_join; [reflexivity|].
    apply Forall_forall. intros x I. apply in_map_iff in I as (cell & E & _).
    subst x. apply collapse_units.
Qed.

End PageScripts.

(* ================================================================== *)
(** ** Profile discovery and [initialize] *)
(* ================================================================== *)

Section Discovery.

Lemma or_else_truthy (a : option string) (b : string) :
  b <> "" -> or_else a b <> "".
Proof.
  intros B. unfold or_else, truthy_opt.
  destruct a as [[|c r]|]; cbn [JS.truthy]; [exact B|discriminate|exact B].
Qed.

Lemma collect_names (h : Host) (dir : string)
      (cache : string -> option Metadata) (entries : list Dirent) :
  map dirName (collect h dir cache entries)
  = map entry_name (filter is_profile_directory entries).
Proof.
  induction entries as [|entry more IH]; [reflexivity|].
  cbn [collect filter]. unfold is_profile_directory at 1.
  destruct (isDirectory entry); cbn [negb andb]; [|exact IH].
  destruct ((entry_name entry =? "Default")
            || JS.startsWith "Profile " (entry_name entry)); [|exact IH].
  cbn [map]. rewrite IH. f_equal.
  unfold describe. now destruct (cache (entry_name entry)).
Qed.

Lemma collect_profiles (h : Host) (dir : string)
      (cache : string -> option Metadata) (entries : list Dirent) :
  Forall (fun p =>
            path p = join h [dir; dirName p] /\
            (dirName p = "Default"
             \/ JS.startsWith "Profile " (dirName p) = true) /\
            displayName p <> "")
         (collect h dir cache entries).
Proof.
  induction entries as [|entry more IH]; [constructor|].
  cbn [collect].
  destruct (isDirectory entry); cbn [negb]; [|exact IH].
  destruct (entry_name entry =? "Default") eqn:D; cbn [orb].
  - apply String.eqb_eq in D. constructor; [|exact IH].
    unfold describe. rewrite D.
    destruct (cache "Default"); cbn [path dirName displayName];
      (split; [reflexivity|split; [now left|]]);
      [repeat apply or_else_truthy|]; discriminate.
  - destruct (JS.startsWith "Profile " (entry_name entry)) eqn:P;
      [|exact IH].
    constructor; [|exact IH].
    assert (N : entry_name entry <> "").
    { intros E. rewrite E in P. discriminate P. }
    unfold describe.
    destruct (cache (entry_name entry)); cbn [path dirName displayName];
      (split; [reflexivity|split; [now right|]]);
      [repeat apply or_else_truthy|]; exact N.
Qed.

(** X15. [listProfiles] lists the profile directories, and only them.
    Every profile it returns is a directory of the user data directory
    named [Default] or [Profile ...], with the path of that directory
    and a display name that is not empty.  The profiles are the
    directory entries of that kind, in the order of the directory and
    none left out, whatever [Local State] holds and whether or not it
    can be read; a user data directory that does not exist or cannot be
    read gives no profile. *)
Theorem listProfiles_lists_the_profile_directories
        (h : Host) (userDataDir : string) :
  Forall (fun p =>
            path p = join h [userDataDir; dirName p] /\
            (dirName p = "Default"
             \/ JS.startsWith "Profile " (dirName p) = true) /\
            displayName p <> "")
         (listProfiles h userDataDir) /\
  map dirName (listProfiles h userDataDir)
  = (if existsSync h userDataDir
     then match readdirSync h userDataDir with
          | Ok entries => map entry_name (filter is_profile_directory entries)
          | Err _ => []
          end
     else []).
Proof.
  unfold listProfiles.
  destruct (existsSync h userDataDir); cbn [negb]; [|split; [constructor|reflexivity]].
  cbv zeta.
  destruct (readdirSync h userDataDir) as [entries|msg];
    [|split; [constructor|reflexivity]].
  split; [apply collect_profiles|apply collect_names].
Qed.

Lemma path_at_listed (profiles : list Profile) (i : nat) :
  (i < List.length profiles)%nat ->
  exists p, In p profiles /\ path_at profiles i = Ok (Some (path p)).
Proof.
  intros L. unfold path_at.
  destruct (nth_error profiles i) as [p|] eqn:E.
  - exists p. split; [now apply nth_error_In in E|reflexivity].
  - apply nth_error_None in E. lia.
Qed.

Lemma choose_listed (profiles : list Profile) (answer : string) :
  profiles <> [] ->
  exists chosen,
    snd (choose profiles answer) = Ok chosen /\
    (chosen = None <->
     JS.parseInt answer = Some (Z.of_nat (List.length profiles) + 1)%Z) /\
    (forall file, chosen = Some file ->
                  exists p, In p profiles /\ file = path p) /\
    (fst (choose profiles answer) = [] <->
     exists choice, JS.parseInt answer = Some choice /\
                    (1 <= choice <= Z.of_nat (List.length profiles) + 1)%Z).
Proof.
  intros N.
  assert (L : (0 < List.length profiles)%nat).
  { destruct profiles; [now destruct N|cbn; lia]. }
  destruct (path_at_listed profiles 0 L) as (first & F1 & F2).
  unfold choose. cbv zeta.
  destruct (JS.parseInt answer) as [choice|].
  - destruct ((1 <=? choice)%Z && (choice <=? Z.of_nat (List.length profiles))%Z)
      eqn:R.
    + apply andb_prop in R as [R1 R2].
      apply Z.leb_le in R1. apply Z.leb_le in R2.
      destruct (path_at_listed profiles (Z.to_nat (choice - 1)))
        as (p & P1 & P2); [lia|].
      exists (Some (path p)). cbn [fst snd]. split; [exact P2|].
      split; [split; [discriminate|intros E; inversion E; lia]|].
      split.
      * intros file E. inversion E. now exists p.
      * split; [|reflexivity]. intros _. exists choice. split; [reflexivity|lia].
    + assert (R' : ~ (1 <= choice <= Z.of_nat (List.length profiles))%Z).
      { intros [R1 R2]. apply Z.leb_le in R1. apply Z.leb_le in R2.
        now rewrite R1, R2 in R. }
      destruct (choice =? Z.of_nat (List.length profiles) + 1)%Z eqn:Q.
      * apply Z.eqb_eq in Q. exists None. cbn [fst snd].
        split; [reflexivity|].
        split; [split; [intros _; now rewrite Q|reflexivity]|].
        split; [discriminate|].
        split; [|reflexivity]. intros _. exists choice.
        split; [reflexivity|lia].
      * apply Z.eqb_neq in Q. exists (Some (path first)). cbn [fst snd].
        split; [exact F2|].
        split; [split; [discriminate|intros E; inversion E; lia]|].
        split.
        -- intros file E. inversion E. now exists first.
        -- split; [discriminate|].
           intros (c & E & B). inversion E. subst c. lia.
  - exists (Some (path first)). cbn [fst snd]. split; [exact F2|].
    split; [split; discriminate|].
    split.
    + intros file E. inversion E. now exists first.
    + split; [discriminate|]. intros (c & E & _). discriminate E.
Qed.

Lemma menu_from_length (number : nat) (profiles : list Profile) :
  List.length (menu_from number profiles) = List.length profiles.
Proof.
  revert number. induction profiles as [|p more IH]; intros number;
    [reflexivity|].
  cbn [menu_from List.length]. now rewrite IH.
Qed.

(** X16. The prompt resolves to a listed profile or to the fresh session.
    For a list of profiles that is not empty, [promptProfileSelection]
    always resolves: to [null] exactly when the answer parses to the
    number after the last profile, and otherwise to the path of one of
    the profiles shown.  It prints [Invalid selection] exactly when the
    answer does not parse to a number of the menu.  The menu has a title,
    one line for each profile and the line of the fresh session. *)
Theorem prompt_resolves_to_a_listed_profile
        (profiles : list Profile) (browserName answer : string) :
  profiles <> [] ->
  let n := List.length profiles in
  let said := fst (promptProfileSelection profiles browserName answer) in
  exists chosen,
    snd (promptProfileSelection profiles browserName answer) = Ok chosen /\
    (chosen = None <-> JS.parseInt answer = Some (Z.of_nat n + 1)%Z) /\
    (forall file, chosen = Some file ->
                  exists p, In p profiles /\ file = path p) /\
    (In PromptInvalid said <->
     ~ exists choice, JS.parseInt answer = Some choice /\
                      (1 <= choice <= Z.of_nat n + 1)%Z) /\
    firstn (n + 2) said
    = (PromptTitle browserName :: menu_from 1 profiles
       ++ [PromptFresh (n + 1)])%list.
Proof.
  intros N. cbv zeta.
  destruct (choose_listed profiles answer N) as (chosen & E & A & B & D).
  exists chosen. unfold promptProfileSelection. cbv zeta.
  destruct (choose profiles answer) as [said result] eqn:K.
  cbn [fst snd] in *.
  split; [exact E|]. split; [exact A|]. split; [exact B|].
  split.
  - assert (S : said = [] \/ said = [PromptInvalid]).
    { unfold choose in K. cbv zeta in K.
      destruct (JS.parseInt answer);
        [destruct (_ && _); [|destruct (_ =? _)%Z]|];
        inversion K; auto. }
    split.
    + intros I X. apply D in X. subst said.
      rewrite app_nil_r in I. destruct I as [I|I]; [discriminate I|].
      apply in_app_or in I as [I|[I|[]]]; [|discriminate I].
      clear - I. revert I. generalize 1%nat.
      induction profiles as [|p more IH]; intros k I; [destruct I|].
      destruct I as [I|I]; [discriminate I|now apply IH in I].
    + intros X. destruct S as [S|S]; [now apply D in S|].
      subst said. right. apply in_or_app. right. now left.
  - set (menu := (PromptTitle browserName
                  :: menu_from 1 profiles
                     ++ [PromptFresh (List.length profiles + 1)])%list).
    replace (List.length profiles + 2)%nat with (List.length menu + 0)%nat.
    + rewrite firstn_app_2. cbn [firstn]. apply app_nil_r.
    + unfold menu. cbn [List.length].
      rewrite length_app, menu_from_length. cbn [List.length]. lia.
Qed.

Lemma prompt_pick (profiles : list Profile) (browserName answer : string) :
  profiles <> [] ->
  exists chosen,
    snd (promptProfileSelection profiles browserName answer) = Ok chosen /\
    (forall file, chosen = Some file ->
                  exists p, In p profiles /\ file = path p).
Proof.
  intros N.
  destruct (choose_listed profiles answer N) as (chosen & E & _ & B & _).
  exists chosen. unfold promptProfileSelection. cbv zeta.
  destruct (choose profiles answer) as [said result].
  cbn [snd] in *. now split.
Qed.

Lemma settle_profile_cases (h : Host) (config : Options) (b : string) :
  exists settled,
    snd (settle_profile h config b) = Ok settled /\
    match o_profile config with
    | Given file => settled = Some file /\ fst (settle_profile h config b) = []
    | Disabled => settled = None /\ fst (settle_profile h config b) = []
    | Unset =>
        (o_autoProfile config = Some false ->
         settled = None /\ fst (settle_profile h config b) = []) /\
        (forall file, settled = Some file ->
           exists dir p,
             getDefaultProfilePath h b = Some dir /\
             In p (listProfiles h dir) /\ file = path p) /\
        (fst (settle_profile h config b) <> [] ->
         exists dir,
           getDefaultProfilePath h b = Some dir /\
           (1 < List.length (listProfiles h dir))%nat)
    end.
Proof.
  unfold settle_profile.
  destruct (o_profile config) as [| |file].
  2:{ exists None. repeat split. }
  2:{ exists (Some file). repeat split. }
  assert (Z0 : exists settled : option string,
             snd (@nil PromptLine, @Ok (option string) None) = Ok settled /\
             ((o_autoProfile config = Some false ->
               settled = None /\ fst (@nil PromptLine, @Ok (option string) None) = []) /\
              (forall file, settled = Some file ->
                 exists dir p,
                   getDefaultProfilePath h b = Some dir /\
                   In p (listProfiles h dir) /\ file = path p) /\
              (fst (@nil PromptLine, @Ok (option string) None) <> [] ->
               exists dir,
                 getDefaultProfilePath h b = Some dir /\
                 (1 < List.length (listProfiles h dir))%nat))).
  { exists None. cbn [fst snd]. split; [reflexivity|].
    split; [now intros _|]. split; [discriminate|]. now intros X. }
  destruct (o_autoProfile config) as [[|]|] eqn:A; [|exact Z0|].
  all: destruct (getDefaultProfilePath h b) as [[|c r]|] eqn:G;
    cbn [truthy_opt JS.truthy]; [exact Z0| |exact Z0].
  all: set (dir := String c r) in *.
  all: destruct (1 <? List.length (listProfiles h dir))%nat eqn:M.
  all: try (apply Nat.ltb_lt in M;
    assert (N : listProfiles h dir <> [])
      by (intros E; rewrite E in M; cbn in M; lia);
    destruct (prompt_pick (listProfiles h dir)
                (if b =? "edge" then "Edge" else "Chrome")
                (stdin_answer h) N) as (chosen & E & B);
    exists chosen; split; [exact E|];
    split; [discriminate|];
    split; [intros file F; destruct (B file F) as (p & P1 & P2);
            now exists dir, p|];
    intros _; now exists dir).
  all: destruct (List.length (listProfiles h dir) =? 1)%nat eqn:O;
    [|exact Z0].
  all: apply Nat.eqb_eq in O.
  all: destruct (path_at_listed (listProfiles h dir) 0) as (p & P1 & P2);
    [lia|].
  all: exists (Some (path p)); cbn [fst snd]; split; [exact P2|].
  all: split; [discriminate|].
  all: split; [intros file F; inversion F; now exists dir, p|].
  all: now intros X.
Qed.

(** X17. [initialize] always settles on a profile, and never invents one.
    It always returns, the object stopped and without a browser, the paths
    of the two files joined from the working directory.  A profile given
    to the constructor, [null] included, is taken as it is, and nothing is
    asked; so is [autoProfile: false], which gives no profile.  Otherwise
    the profile is [null] or the path of a profile directory listed in
    the user data directory of the browser, and the prompt is shown only
    when that directory lists more than one profile. *)
Theorem initialize_settles_on_a_profile
        (h : Host) (cwd : string) (options : Options) :
  let b := settled_browser h options in
  let said := fst (initialize h cwd options) in
  exists pilot,
    snd (initialize h cwd options) = Ok pilot /\
    (browser pilot = false /\ context pilot = false /\ page pilot = false /\
     running pilot = false /\ lastCommand pilot = "") /\
    (browserName (config pilot) = b /\
     commandPath pilot
     = join h [workDir (config pilot); commandFile (config pilot)] /\
     resultPath pilot
     = join h [workDir (config pilot); resultFile (config pilot)]) /\
    match o_profile options with
    | Given file => profile (config pilot) = Some file /\ said = []
    | Disabled => profile (config pilot) = None /\ said = []
    | Unset =>
        (o_autoProfile options = Some false ->
         profile (config pilot) = None /\ said = []) /\
        (forall file, profile (config pilot) = Some file ->
           exists dir p,
             getDefaultProfilePath h b = Some dir /\
             In p (listProfiles h dir) /\ file = path p) /\
        (said <> [] ->
         exists dir,
           getDefaultProfilePath h b = Some dir /\
           (1 < List.length (listProfiles h dir))%nat)
    end.
Proof.
  cbv zeta. unfold initialize, settled_browser. cbv zeta.
  destruct (settle_profile_cases h options
              (or_else (o_browser options) (detectDefaultBrowser h)))
    as (settled & E & K).
  destruct (settle_profile h options
              (or_else (o_browser options) (detectDefaultBrowser h)))
    as [said result].
  cbn [fst snd] in *. subst result.
  eexists. split; [reflexivity|].
  cbn [browser context page running lastCommand config browserName
       commandPath resultPath workDir commandFile resultFile profile fst].
  split; [repeat split|]. split; [repeat split|]. exact K.
Qed.

(** X18. Without the name of the user there is no profile.  When
    [os.userInfo()] fails, [getDefaultProfilePath] gives [null] even if
    [USERPROFILE] is set, although the name is needed only without it; so
    an [initialize] that was given no profile settles on none, without
    looking at the disk and without asking. *)
Theorem no_user_name_no_profile
        (h : Host) (cwd : string) (options : Options) (msg : string) :
  userInfo_username h = Err msg ->
  o_profile options = Unset ->
  (forall browserType, getDefaultProfilePath h browserType = None) /\
  exists pilot,
    initialize h cwd options = ([], Ok pilot) /\
    profile (config pilot) = None.
Proof.
  intros U P.
  assert (G : forall browserType, getDefaultProfilePath h browserType = None).
  { intros browserType. unfold getDefaultProfilePath. now rewrite U. }
  split; [exact G|].
  unfold initialize, settle_profile. cbv zeta. rewrite P, G.
  cbn [truthy_opt].
  destruct (o_autoProfile options) as [[|]|]; eexists; split; reflexivity.
Qed.

End Discovery.

(* ================================================================== *)
(** ** The command line *)
(* ================================================================== *)

Section CommandLine.
Variable resolve : string -> string.

Ltac walk :=
  repeat match goal with
    | |- context [if ?b then _ else _] =>
        let E := fresh "E" in destruct b eqn:E
    | |- context [match ?r with [] => _ | _ :: _ => _ end] =>
        is_var r; destruct r
    end.

(** What every step of the loop keeps, the loop keeps. *)
Lemma parseArgs_from_keeps (P : CliConfig -> Prop) :
  (forall u c, P c -> P (with_url u c)) ->
  (forall d c, P c -> P (with_workDir d c)) ->
  (forall c, P c -> P (with_headless c)) ->
  (forall c, P c -> P (with_background c)) ->
  (forall c, P c -> P (with_selectProfile c)) ->
  (forall b c, b = "chrome" \/ b = "edge" -> P c -> P (with_browser b c)) ->
  (forall p c, P c -> P (with_profile p c)) ->
  forall (n : nat) (args : list string) (config c : CliConfig),
    (List.length args <= n)%nat ->
    parseArgs_from resolve args config = Ret c ->
    P config -> P c.
Proof.
  intros U D H B S W R.
  induction n as [|n IH]; intros args config c L.
  - destruct args; [|cbn in L; lia]. cbn. intros E. now inversion E.
  - destruct args as [|arg rest].
    { cbn. intros E. now inversion E. }
    cbn [parseArgs_from]. walk; intros X I; try discriminate X;
      try (inversion X; subst c; auto; fail);
      try (apply IH in X; [exact X|cbn in L |- *; lia|auto]; fail).
    apply IH in X; [exact X|cbn in L |- *; lia|].
    apply W; [|exact I].
    match goal with
    | Q : (_ =? "chrome") || _ = true |- _ =>
        apply orb_prop in Q as [Q|Q]; apply String.eqb_eq in Q; auto
    end.
Qed.

Lemma detectDefaultBrowser_known (h : Host) :
  detectDefaultBrowser h = "chrome" \/ detectDefaultBrowser h = "edge".
Proof.
  unfold detectDefaultBrowser.
  destruct (negb (platform h =? "win32")); [now left|].
  destruct (execSync h reg_query) as [result|msg]; [|now left].
  destruct (JS.includes "MSEdge" result || JS.includes "EdgeHTML" result);
    [now right|].
  destruct (JS.includes "Chrome" result); now left.
Qed.

(** X19. The session of the command line runs Chrome or Edge.  When
    [parseArgs] returns, the browser it holds is [null] or one of
    [chrome] and [edge], in lower case whatever the case of the argument;
    and the [initialize] that [main] then runs on these options always
    returns, with [chrome] or [edge] as the browser of the session. *)
Theorem command_line_browser_is_chrome_or_edge
        (cwd : string) (args : list string) (c : CliConfig) (h : Host)
        (cwd' : string) :
  parseArgs resolve cwd args = Ret c ->
  (cli_browser c = None \/ cli_browser c = Some "chrome"
   \/ cli_browser c = Some "edge") /\
  exists pilot,
    snd (initialize h cwd' (options_of_cli c)) = Ok pilot /\
    (browserName (config pilot) = "chrome"
     \/ browserName (config pilot) = "edge") /\
    workDir (config pilot) = cli_workDir c /\
    headless (config pilot) = cli_headless c.
Proof.
  intros E.
  assert (V : cli_browser c = None \/ cli_browser c = Some "chrome"
              \/ cli_browser c = Some "edge").
  { apply (parseArgs_from_keeps
             (fun c => cli_browser c = None \/ cli_browser c = Some "chrome"
                       \/ cli_browser c = Some "edge"))
      with (n := List.length args) (args := args) (config := cli_defaults cwd);
      auto; try (cbn; auto; fail).
    intros b c0 [Q|Q] _; subst b; cbn; auto. }
  split; [exact V|].
  unfold initialize. cbv zeta.
  destruct (settle_profile_cases h (options_of_cli c)
              (or_else (o_browser (options_of_cli c))
                 (detectDefaultBrowser h)))
    as (settled & S & _).
  destruct (settle_profile h (options_of_cli c)
              (or_else (o_browser (options_of_cli c))
                 (detectDefaultBrowser h)))
    as [said result].
  cbn [snd] in *. subst result.
  eexists. split; [reflexivity|].
  cbn [config browserName workDir headless options_of_cli o_browser
       o_workDir o_headless given].
  split; [|split; reflexivity].
  destruct V as [V|[V|V]]; rewrite V; cbn; auto.
  apply detectDefaultBrowser_known.
Qed.

Lemma profile_flag_seen (n : nat) :
  forall (args : list string) (config c : CliConfig),
    (List.length args <= n)%nat ->
    parseArgs_from resolve args config = Ret c ->
    cli_autoProfile c = false ->
    cli_autoProfile config = false
    \/ In "--profile" args \/ In "--no-profile" args.
Proof.
  induction n as [|n IH]; intros args config c L.
  - destruct args; [|cbn in L; lia]. cbn. intros E. inversion E. auto.
  - destruct args as [|arg rest].
    { cbn. intros E. inversion E. auto. }
    cbn [parseArgs_from]. walk; intros X I; try discriminate X;
      try (inversion X; subst c; cbn in I; auto; fail);
      try (apply IH in X; [|cbn in L |- *; lia|exact I];
           cbn in X |- *; tauto);
      try match goal with
        | Q : (arg =? "--profile") = true |- _ =>
            apply String.eqb_eq in Q; subst arg; cbn; auto
        | Q : (arg =? "--no-profile") = true |- _ =>
            apply String.eqb_eq in Q; subst arg; cbn; auto
        end.
Qed.

(** X20. A profile chosen on the command line is final.  When [parseArgs]
    returns, either it switched the detection on and holds no profile, or
    it switched it off, which takes one of [--profile] and [--no-profile]
    among the arguments; and then [initialize] asks nothing and looks at
    no directory: the session has the profile of [--profile], and none
    after [--no-profile] or after a [--profile] that ends the
    arguments. *)
Theorem command_line_profile_is_final
        (cwd : string) (args : list string) (c : CliConfig) :
  parseArgs resolve cwd args = Ret c ->
  (cli_autoProfile c = true /\ cli_profile c = Unset) \/
  (cli_autoProfile c = false /\
   (In "--profile" args \/ In "--no-profile" args) /\
   forall (h : Host) (cwd' : string),
   exists pilot,
     initialize h cwd' (options_of_cli c) = ([], Ok pilot) /\
     profile (config pilot)
     = match cli_profile c with
       | Given file => Some file
       | _ => None
       end).
Proof.
  intros E.
  destruct (cli_autoProfile c) eqn:A.
  - left. split; [reflexivity|].
    apply (parseArgs_from_keeps
             (fun c => cli_autoProfile c = true -> cli_profile c = Unset))
      with (n := List.length args) (args := args) (config := cli_defaults cwd);
      auto; try (intros; cbn in *; auto; fail).
    intros p c0 _ Q. discriminate Q.
  - right. split; [reflexivity|]. split.
    + destruct (profile_flag_seen (List.length args) args (cli_defaults cwd) c)
        as [Q|Q]; auto. discriminate Q.
    + intros h cwd'. unfold initialize, settle_profile. cbv zeta.
      cbn [options_of_cli o_profile o_autoProfile]. rewrite A.
      destruct (cli_profile c); eexists; split; reflexivity.
Qed.

Lemma parseArgs_from_failures (n : nat) :
  forall (args : list string) (config : CliConfig),
    (List.length args <= n)%nat ->
    match parseArgs_from resolve args config with
    | Ret _ => True
    | Throw msg =>
        msg = resolve_undefined /\
        exists before,
          args = (before ++ ["--dir"])%list \/ args = (before ++ ["-d"])%list
    | Exit code =>
        (code = 0%Z /\ (In "--help" args \/ In "-h" args)) \/
        (code = 1%Z /\ In "--browser" args)
    end.
Proof.
  induction n as [|n IH]; intros args config L.
  - destruct args; [exact I|cbn in L; lia].
  - destruct args as [|arg rest]; [exact I|].
    cbn [parseArgs_from]. walk; try exact I;
    try match goal with
      | |- match parseArgs_from resolve ?r ?cfg with _ => _ end =>
          let K := fresh "K" in
          assert (K : (List.length r <= n)%nat) by (cbn in L |- *; lia);
          apply (fun l => IH r cfg l) in K;
          destruct (parseArgs_from resolve r cfg) as [c|msg|code];
          [exact I
          |destruct K as (K1 & before & K2); split; [exact K1|];
           match goal with
           | |- exists b, ?a :: ?v :: _ = _ \/ _ =>
               exists (a :: v :: before);
               destruct K2 as [K2|K2]; rewrite K2; auto
           | |- exists b, ?a :: _ = _ \/ _ =>
               exists (a :: before);
               destruct K2 as [K2|K2]; rewrite K2; auto
           end
          |destruct K as [[K1 K2]|[K1 K2]];
           [left|right]; (split; [exact K1|]); cbn; tauto]
      end;
    try match goal with
      | Q : (?a =? "--help") || _ = true |- _ =>
          left; split; [reflexivity|];
          apply orb_prop in Q as [Q|Q]; apply String.eqb_eq in Q;
          subst a; cbn; auto
      | Q : (?a =? "--dir") || _ = true |- _ =>
          split; [reflexivity|];
          apply orb_prop in Q as [Q|Q]; apply String.eqb_eq in Q;
          subst a; [exists []; now left|exists []; now right]
      | Q : (?a =? "--browser") = true |- _ =>
          right; split; [reflexivity|];
          apply String.eqb_eq in Q; subst a; cbn; auto
      end.
Qed.

(** X21. What stops [parseArgs].  It throws only on a [--dir] or [-d]
    that ends the arguments, the error of [path.resolve(undefined)]; it
    leaves the process only with status 0, on a [--help] or [-h] among
    the arguments, or with status 1, on a [--browser] among them.  Every
    other command line is parsed to the end: a [--url] or a [--profile]
    that ends the arguments is no error, and an option it does not know
    is passed over. *)
Theorem parseArgs_stops_on_help_browser_or_dir
        (cwd : string) (args : list string) :
  match parseArgs resolve cwd args with
  | Ret _ => True
  | Throw msg =>
      msg = resolve_undefined /\
      exists before,
        args = (before ++ ["--dir"])%list \/ args = (before ++ ["-d"])%list
  | Exit code =>
      (code = 0%Z /\ (In "--help" args \/ In "-h" args)) \/
      (code = 1%Z /\ In "--browser" args)
  end.
Proof.
  apply (parseArgs_from_failures (List.length args)). lia.
Qed.

Lemma plain_argument (arg : string) (rest : list string)
      (config : CliConfig) :
  takes_value arg = false -> asks_help arg = false ->
  exists config',
    parseArgs_from resolve (arg :: rest) config
    = parseArgs_from resolve rest config'.
Proof.
  unfold takes_value, asks_help. cbn [existsb]. intros T H.
  repeat (apply orb_false_elim in T as [? T]).
  cbn [parseArgs_from]. rewrite H.
  repeat match goal with
    | Q : (arg =? _) = false |- _ => rewrite Q; clear Q
    end.
  cbn [orb]. walk; eexists; reflexivity.
Qed.

(** X22. The usage is asked for where an option may stand.  A [--help] or
    [-h] ends [parseArgs] with status 0 whenever none of the arguments
    before it is an option that takes a value ([--url], [-u], [--dir],
    [-d], [--browser], [--profile]), whatever these arguments are and
    whatever follows. *)
Theorem help_exits_with_status_0
        (cwd : string) (before : list string) (arg : string)
        (after : list string) :
  Forall (fun a => takes_value a = false) before ->
  asks_help arg = true ->
  parseArgs resolve cwd (before ++ arg :: after) = Exit 0.
Proof.
  intros F H. unfold parseArgs. generalize (cli_defaults cwd).
  induction F as [|a before T F IH]; intros config.
  - cbn [app parseArgs_from]. unfold asks_help in H. now rewrite H.
  - cbn [app]. destruct (asks_help a) eqn:A.
    + cbn [parseArgs_from]. unfold asks_help in A. now rewrite A.
    + destruct (plain_argument a (before ++ arg :: after) config T A)
        as (config' & E).
      rewrite E. apply IH.
Qed.

End CommandLine.

(* ================================================================== *)
(** ** Commands without a page, and the files of the screenshots *)
(* ================================================================== *)

Section Pageless.
Context {C : Collaborators}.

Ltac branch :=
  match goal with
  | |- context [if ?b then _ else _] => destruct b eqn:?
  | |- context [match ?x with [] => _ | _ :: _ => _ end] => destruct x eqn:?
  end.

(** X24. Before a page is open, a command calls nothing.  On an object
    without a page (as the constructor and [initialize] leave it), a
    command other than [quit] makes no call to the browser and writes no
    file; it leaves the object as it is and still returns a result, which
    for every command that needs the page is the [TypeError] of reading a
    property of [null], as an [ERROR: ] result. *)
Theorem commands_need_a_page (command : string) (s : State) :
  page (this s) = false ->
  JS.toLowerCase command <> "quit" ->
  exists result new,
    fst (executeCommand command s) = Ret result /\
    this (snd (executeCommand command s)) = this s /\
    log (snd (executeCommand command s)) = (new ++ log s)%list /\
    forallb (fun e => negb (is_call e)) new = true /\
    (In (JS.toLowerCase command) exact_tags
     \/ JS.startsWith "goto:" command = true
     \/ JS.startsWith "click:" command = true
     \/ JS.startsWith "type:" command = true ->
     exists prop, result = "ERROR: " ++ null_read prop).
Proof.
  intros P Q.
  unfold executeCommand, executeBody, takeScreenshot, extractText, saveHtml,
    extractTables, extractLinks, clickElement, scroll, on_page, sleep.
  cbv zeta.
  repeat branch.
  all: try (exfalso; apply Q; apply String.eqb_eq; assumption).
  all: unfold bind, try_catch, get, modify, act, eff, throw, ret.
  all: repeat
    (cbn -[JS.includes JS.toLowerCase String.eqb JS.startsWith JS.trim
           JS.substring JS.split JS.join JS.parseInt JS.numberToString
           exact_tags In null_read undefined_read];
     rewrite ?P;
     try match goal with
       | |- context [react ?e ?w] => destruct (react e w) as [? ?]
       end).
  all: repeat match goal with
         | H : (_ =? _) = false |- _ => apply String.eqb_neq in H
         end.
  all: do 2 eexists.
  all: (split; [reflexivity|]).
  all: (split; [reflexivity|]).
  all: (split; [repeat (eapply cons_extends); apply nil_extends|]).
  all: (split; [reflexivity|]).
  all: try (intros _; eexists; reflexivity).
  all: intros [I|[I|[I|I]]]; try congruence.
  all: cbn [In exact_tags] in I.
  all: repeat (destruct I as [I|I]; [symmetry in I; contradiction|]).
  all: try (destruct I; fail).
  exfalso. eapply split_nonempty. eassumption.
Qed.

End Pageless.

(** [text] on an object that was never started. *)
Lemma commands_need_a_page_witness :
  exists result new,
    fst (executeCommand (C := Demo.collaborators) "text"
           (Demo.fresh (DEFAULT_CONFIG "/work") false)) = Ret result /\
    this (snd (executeCommand (C := Demo.collaborators) "text"
                 (Demo.fresh (DEFAULT_CONFIG "/work") false)))
    = newPilot (C := Demo.collaborators) (DEFAULT_CONFIG "/work") /\
    log (snd (executeCommand (C := Demo.collaborators) "text"
                (Demo.fresh (DEFAULT_CONFIG "/work") false)))
    = (new ++ [])%list /\
    forallb (fun e => negb (is_call e)) new = true /\
    (In "text" exact_tags \/ false = true \/ false = true \/ false = true ->
     exists prop, result = "ERROR: " ++ null_read prop).
Proof.
  apply (commands_need_a_page (C := Demo.collaborators) "text"
           (Demo.fresh (DEFAULT_CONFIG "/work") false)).
  - reflexivity.
  - discriminate.
Defined.

Section Screenshots.
Context {C : Collaborators}.

Lemma length_append (a b : string) :
  String.length (a ++ b) = String.length a + String.length b.
Proof.
  induction a as [|c a IH]; cbn [String.append String.length Nat.add];
    [reflexivity|now rewrite IH].
Qed.

Lemma append_cancel_r (a b c : string) : a ++ c = b ++ c -> a = b.
Proof.
  revert b. induction a as [|x a IH]; intros [|y b] E.
  - reflexivity.
  - apply (f_equal String.length) in E.
    cbn [String.append String.length] in E. rewrite length_append in E. lia.
  - apply (f_equal String.length) in E.
    cbn [String.append String.length] in E. rewrite length_append in E. lia.
  - cbn [String.append] in E. inversion E. f_equal. now apply IH.
Qed.

Lemma to_int_not_nil (z : Z) :
  Z.to_int z <> Decimal.Pos Decimal.Nil /\
  Z.to_int z <> Decimal.Neg Decimal.Nil.
Proof.
  assert (N : Z.to_int z = Decimal.norm (Z.to_int z)).
  { rewrite <- DecimalZ.to_of. now rewrite DecimalZ.of_to. }
  rewrite N. destruct (Z.to_int z) as [d|d]; cbn [Decimal.norm].
  - split; [|discriminate]. intros E. inversion E as [U].
    unfold Decimal.unorm in U. destruct (Decimal.nzhead d); discriminate U.
  - destruct (Decimal.nzhead d) eqn:Hd; split; discriminate.
Qed.

Lemma numberToString_inj (a b : Z) :
  JS.numberToString a = JS.numberToString b -> a = b.
Proof.
  unfold JS.numberToString. intros E.
  apply DecimalZ.to_int_inj.
  destruct (to_int_not_nil a) as [A1 A2].
  destruct (to_int_not_nil b) as [B1 B2].
  assert (S : Some (Z.to_int a) = Some (Z.to_int b)).
  { rewrite <- (NilZero.isi (Z.to_int a) A1 A2).
    rewrite <- (NilZero.isi (Z.to_int b) B1 B2). now rewrite E. }
  now inversion S.
Qed.

(** X25. A screenshot is named after the clock.  [screenshot] reads the
    clock, then asks the page for a screenshot in the file
    [screenshot-<time>.png] of the working directory, and answers with
    that path if the page succeeds; it writes nothing itself.  The names
    of two screenshots are equal only if they were taken at the same
    millisecond, so a later screenshot never replaces an earlier one. *)
Theorem screenshot_is_named_after_the_clock (command : string) (s : State) :
  JS.toLowerCase command = "screenshot" ->
  page (this s) = true ->
  let now := fst (react DateNow (world s)) in
  let file := path_join (workDir (config (this s))) (screenshot_name now) in
  let shot := perform (PageScreenshot file) (snd (react DateNow (world s))) in
  executeCommand command s
  = (match fst shot with
     | Ok _ => Ret ("Screenshot saved: " ++ file)
     | Err msg => Ret ("ERROR: " ++ msg)
     end,
     {| this := this s; world := snd shot;
        log := EvAct (PageScreenshot file) (fst shot)
               :: EvEff DateNow now :: log s |}) /\
  forall earlier, screenshot_name earlier = screenshot_name now ->
                  earlier = now.
Proof.
  intros L P. cbv zeta. split.
  - unfold executeCommand, executeBody. cbv zeta. rewrite L.
    cbn [String.eqb Ascii.eqb Bool.eqb].
    unfold takeScreenshot, screenshot_name, try_catch, on_page, bind, get,
      act, eff, ret.
    destruct (react DateNow (world s)) as [now w]. cbn [fst snd this].
    rewrite P.
    cbn [fst snd this world log config].
    destruct (perform _ w) as [[[]|msg] w']; reflexivity.
  - intros earlier E. unfold screenshot_name in E.
    cbn [String.append] in E. inversion E as [E'].
    apply append_cancel_r in E'. now apply numberToString_inj.
Qed.

End Screenshots.

(** A screenshot in the scripted world, whose clock shows
    1700000000000. *)
Lemma screenshot_is_named_after_the_clock_witness :
  fst (executeCommand (C := Demo.collaborators) "Screenshot"
         (Demo.session [] false))
  = Ret "Screenshot saved: /work/screenshot-1700000000000.png".
Proof.
  destruct (screenshot_is_named_after_the_clock (C := Demo.collaborators)
              "Screenshot" (Demo.session [] false)) as [E _];
    [reflexivity|reflexivity|].
  rewrite E. reflexivity.
Defined.


(* ================================================================== *)
(** ** Numbers printed and read back *)
(* ================================================================== *)

Section Decimals.
Context {C : Collaborators}.











End Decimals.


(* ================================================================== *)
(** ** The properties on examples *)
(* ================================================================== *)

(** Two commands, two results. *)
Lemma poll_writes_one_result_per_command_witness :
  exists new,
    log (snd (pollCommands (C := Demo.collaborators) 2
                (Demo.session ["title"; "url"] false))) = (new ++ [])%list /\
    ((fst (pollCommands (C := Demo.collaborators) 2
             (Demo.session ["title"; "url"] false)) = Ret tt /\
      List.length (writes "/work/result.txt" new)
      = List.length (dispatched new))
     \/
     (fst (pollCommands (C := Demo.collaborators) 2
             (Demo.session ["title"; "url"] false)) = Exit 0 /\
      S (List.length (writes "/work/result.txt" new))
      = List.length (dispatched new))).
Proof.
  apply (poll_writes_one_result_per_command (C := Demo.collaborators) 2
           (Demo.session ["title"; "url"] false)).
  vm_compute. intuition discriminate.
Defined.


(** [click: #go ] in a world where every click succeeds. *)
Lemma click_retries_as_text_witness :
  executeCommand (C := Demo.collaborators) "click: #go "
    (Demo.session [] false)
  = (Ret "Clicked: #go",
     @Build_State Demo.collaborators Demo.launched
       {| Demo.feed := []; Demo.broken := false |}
       [EvAct PageWaitForLoadState (Ok tt);
        EvAct (PageClick "#go" 5000) (Ok tt)]).
Proof.
  apply (click_retries_as_text (C := Demo.collaborators) " #go "
           (Demo.session [] false)).
  reflexivity.
Defined.

(** [TEXT] in the scripted world. *)
Lemma text_saves_what_it_returns_witness :
  executeCommand (C := Demo.collaborators) "TEXT" (Demo.session [] false)
  = (Ret "Example Domain",
     @Build_State Demo.collaborators Demo.launched
       {| Demo.feed := []; Demo.broken := false |}
       [EvAct (FsWriteFileSync "/work/page-text.txt" "Example Domain") (Ok tt);
        EvAct PageEvaluateInnerText (Ok "Example Domain")]).
Proof.
  apply (text_saves_what_it_returns (C := Demo.collaborators) "TEXT"
           "Example Domain" (Demo.session [] false));
    reflexivity.
Defined.

(** [tables] on a page without tables. *)
Lemma tables_result_witness :
  executeCommand (C := Demo.collaborators) "tables" (Demo.session [] false)
  = (Ret "No tables found on page",
     @Build_State Demo.collaborators Demo.launched
       {| Demo.feed := []; Demo.broken := false |}
       [EvAct (FsWriteFileSync "/work/tables.txt" EmptyString) (Ok tt);
        EvAct PageEvaluateTables (Ok EmptyString)]).
Proof.
  apply (tables_result (C := Demo.collaborators) "tables" EmptyString
           (Demo.session [] false));
    reflexivity.
Defined.



(** A session that reads [title], then [quit]. *)
Lemma session_releases_its_resource_witness :
  exists new,
    log (snd (start (C := Demo.collaborators) None 3
                (@Build_State Demo.collaborators
                   (newPilot (C := Demo.collaborators) (DEFAULT_CONFIG "/work"))
                   {| Demo.feed := ["title"; "quit"]; Demo.broken := false |}
                   []))) = (new ++ [])%list /\
    releases new = (if existsb is_quit (dispatched new) then 1 else 0) /\
    forallb (fun e => negb (is_context_close e)) new = true.
Proof.
  apply (session_releases_its_resource (C := Demo.collaborators) None 3
           (@Build_State Demo.collaborators
              (newPilot (C := Demo.collaborators) (DEFAULT_CONFIG "/work"))
              {| Demo.feed := ["title"; "quit"]; Demo.broken := false |} [])).
  reflexivity.
Defined.

(** A profile that is locked: the launch fails with the message of a
    closed target, and the process exits with status 1. *)
Lemma failed_launch_witness :
  fst (start (C := Demo.collaborators) None 3 (Demo.fresh Desk.profiled true))
  = Exit 1 /\
  this (snd (start (C := Demo.collaborators) None 3
               (Demo.fresh Desk.profiled true)))
  = newPilot (C := Demo.collaborators) Desk.profiled /\
  (forall file,
     writes file
       (log (snd (start (C := Demo.collaborators) None 3
                    (Demo.fresh Desk.profiled true))))
     = writes file []) /\
  dispatched
    (log (snd (start (C := Demo.collaborators) None 3
                 (Demo.fresh Desk.profiled true))))
  = dispatched [].
Proof.
  apply (failed_launch (C := Demo.collaborators) None 3
           (Demo.fresh Desk.profiled true)
           "Target page, context or browser has been closed").
  reflexivity.
Defined.

(** [links] on the page of the scripted world, which has one anchor. *)
Lemma links_are_capped_witness :
  fst (executeCommand (C := Demo.collaborators) "LINKS"
         (Demo.session [] false))
  = Ret ("Found 1 links:" ++ newline ++ "More: https://example.org/").
Proof.
  apply (links_are_capped (C := Demo.collaborators) "LINKS"
           [("  More ", "https://example.org/"); ("   ", "https://example.org/x")]
           (Demo.session [] false));
    reflexivity.
Defined.

(** [tables] on a page without tables, the script run on no table. *)
Lemma tables_found_or_not_witness :
  fst (executeCommand (C := Demo.collaborators) "tables"
         (Demo.session [] false))
  = Ret "No tables found on page".
Proof.
  apply (tables_found_or_not (C := Demo.collaborators) "tables" []
           (Demo.session [] false));
    try reflexivity.
  intros msg. discriminate.
Defined.

(** The answer [2] picks the second of the two profiles. *)
Lemma prompt_resolves_to_a_listed_profile_witness :
  exists chosen,
    snd (promptProfileSelection Desk.profiles "Chrome" "2") = Ok chosen /\
    (chosen = None <-> JS.parseInt "2" = Some 3%Z).
Proof.
  destruct (prompt_resolves_to_a_listed_profile Desk.profiles "Chrome" "2")
    as (chosen & E & A & _).
  - discriminate.
  - exists chosen. split; [exact E|exact A].
Defined.

(** The machine without a user name: no profile, although [USERPROFILE] is
    set and the directory lists two. *)
Lemma no_user_name_no_profile_witness :
  exists pilot,
    initialize Desk.nameless "/work"
      (options_of_cli (cli_defaults "/work")) = ([], Ok pilot) /\
    profile (config pilot) = None.
Proof.
  apply (no_user_name_no_profile Desk.nameless "/work"
           (options_of_cli (cli_defaults "/work"))
           "ENOENT: no such file or directory, uv_os_get_passwd");
    reflexivity.
Defined.

(** [--browser EDGE] *)
Lemma command_line_browser_is_chrome_or_edge_witness :
  exists pilot,
    snd (initialize Desk.host "/work"
           (options_of_cli
              (with_browser "edge" (cli_defaults "/work")))) = Ok pilot /\
    (browserName (config pilot) = "chrome"
     \/ browserName (config pilot) = "edge") /\
    workDir (config pilot) = "/work" /\
    headless (config pilot) = false.
Proof.
  apply (command_line_browser_is_chrome_or_edge (fun d => d) "/work"
           ["--browser"; "EDGE"]
           (with_browser "edge" (cli_defaults "/work")) Desk.host "/work").
  reflexivity.
Defined.

(** [--no-profile https://example.com] *)
Lemma command_line_profile_is_final_witness :
  parseArgs (fun d => d) "/work" ["--no-profile"; "https://example.com"]
  = Ret (with_url (Some "https://example.com")
           (with_profile Disabled (cli_defaults "/work"))) /\
  exists pilot,
    initialize Desk.host "/work"
      (options_of_cli
         (with_url (Some "https://example.com")
            (with_profile Disabled (cli_defaults "/work"))))
    = ([], Ok pilot) /\
    profile (config pilot) = None.
Proof.
  assert (E : parseArgs (fun d => d) "/work"
                ["--no-profile"; "https://example.com"]
              = Ret (with_url (Some "https://example.com")
                       (with_profile Disabled (cli_defaults "/work"))))
    by reflexivity.
  split; [exact E|].
  destruct (command_line_profile_is_final (fun d => d) "/work" _ _ E)
    as [[A _]|(_ & _ & K)]; [discriminate A|].
  apply (K Desk.host "/work").
Defined.

(** [--headless example.com -x --help] *)
Lemma help_exits_with_status_0_witness :
  parseArgs (fun d => d) "/work" ["--headless"; "example.com"; "-x"; "--help"]
  = Exit 0.
Proof.
  apply (help_exits_with_status_0 (fun d => d) "/work"
           ["--headless"; "example.com"; "-x"] "--help" []).
  - repeat constructor.
  - reflexivity.
Defined.

(** The locked profile in the scripted world, where [tasklist] answers
    nothing. *)
Lemma locked_profile_is_explained_witness :
  fst (start (C := Demo.collaborators) None 3 (Demo.fresh Desk.profiled true))
  = Exit 1 /\
  exists r,
    log (snd (start (C := Demo.collaborators) None 3
                (Demo.fresh Desk.profiled true)))
    = (EvExit 1
       :: (if names_process "chrome" r
           then [EvEff (ConsoleError LBrowserRunning) tt] else [])
       ++ [EvAct (ExecSync (tasklist_query "chrome")) r;
           EvEff (ConsoleError LProfileLocked) tt;
           EvAct (ChromiumLaunchPersistentContext
                    "C:\Users\ada\AppData\Local\Google\Chrome\User Data\Default"
                    false None)
             (Err "Target page, context or browser has been closed");
           EvEff (ConsoleLog
                    (LUsingProfile
                       "C:\Users\ada\AppData\Local\Google\Chrome\User Data\Default"))
             tt;
           EvEff (ConsoleLog LStarting) tt])%list.
Proof.
  apply (locked_profile_is_explained (C := Demo.collaborators) None 3
           (Demo.fresh Desk.profiled true)
           "C:\Users\ada\AppData\Local\Google\Chrome\User Data\Default"
           "Target page, context or browser has been closed");
    reflexivity.
Defined.
